(** * GraphicsDevice: CPU <-> GPU transfer layer (Direct3D 11, Direct3D 9, Vulkan stand-in)

    A shallow embedding of [Plugin/GraphicsDevice/GraphicsDevice.h],
    [GraphicsDeviceD3D11.cpp], [GraphicsDeviceD3D9.cpp],
    [GraphicsDeviceVulkan.cpp] and [mpGraphicsDeviceD3D9.cpp].

    - C++ [int] is a [Z] reduced by [wrap_int]; [UINT] by [wrap_u32];
      [size_t] and [uint64_t] by [wrap_u64].
    - A pointer is an [option]: [None] is [nullptr].  A pointer to a COM
      object is [option handle]; a pointer to caller memory is
      [option (list byte)], the bytes of the allocation it points to.
    - The graphics driver is an interface ([Driver]); the methods of the
      device classes are programs in a state monad ([M]) over the device
      object, the driver state and the log of driver calls.  Undefined
      behaviour (null dereference, access outside an allocation,
      division by zero) stops a program with [Stuck]. *)

From Stdlib Require Import ZArith List Lia Bool String.
From Stdlib Require Import Strings.Byte.
From stdpp Require Import base option list gmap.
Import ListNotations.
Open Scope Z_scope.

(** ** Machine integers *)

Definition wrap_int (z : Z) : Z := (z + 2 ^ 31) mod 2 ^ 32 - 2 ^ 31.
Definition wrap_u32 (z : Z) : Z := z mod 2 ^ 32.
Definition wrap_u64 (z : Z) : Z := z mod 2 ^ 64.

Definition int_mul (a b : Z) : Z := wrap_int (a * b).
Definition int_add (a b : Z) : Z := wrap_int (a + b).
Definition int_shl (a n : Z) : Z := wrap_int (Z.shiftl a n).

(** ** GraphicsDevice.h *)

Module GraphicsDevice.

Inductive DeviceType := DT_Unknown | D3D9 | D3D11 | D3D12 | OpenGL | Vulkan | PS4.

Inductive Error :=
  | OK | Unknown | NotAvailable | InvalidParameter | OutOfMemory | InaccesibleFromCPU.

Definition Error_eqb (a b : Error) : bool :=
  match a, b with
  | OK, OK | Unknown, Unknown | NotAvailable, NotAvailable
  | InvalidParameter, InvalidParameter | OutOfMemory, OutOfMemory
  | InaccesibleFromCPU, InaccesibleFromCPU => true
  | _, _ => false
  end.

(** [enum class TextureFormat]: a bit-packed integer. *)
Definition TextureFormat := Z.

Definition TF_Unknown : TextureFormat := 0.
Definition ElementsMask : TextureFormat := 0x0F.
Definition Elements_R : TextureFormat := 0x01.
Definition Elements_RG : TextureFormat := 0x02.
Definition Elements_RGBA : TextureFormat := 0x04.
Definition LayoutMask : TextureFormat := Z.shiftl 0x0F 4.
Definition Layout_RGBA : TextureFormat := Z.shiftl 0x00 4.
Definition Layout_ARGB : TextureFormat := Z.shiftl 0x01 4.
Definition Layout_BGRA : TextureFormat := Z.shiftl 0x02 4.
Definition TypeMask : TextureFormat := Z.shiftl 0x0F 8.
Definition Type_f16 : TextureFormat := Z.shiftl 0x01 8.
Definition Type_f32 : TextureFormat := Z.shiftl 0x02 8.
Definition Type_u8 : TextureFormat := Z.shiftl 0x03 8.
Definition Type_i16 : TextureFormat := Z.shiftl 0x04 8.
Definition Type_i32 : TextureFormat := Z.shiftl 0x05 8.

Definition mk_format (ty layout elements : TextureFormat) : TextureFormat :=
  Z.lor (Z.lor ty layout) elements.

Definition Rf16 := Eval cbv in mk_format Type_f16 Layout_RGBA Elements_R.
Definition RGf16 := Eval cbv in mk_format Type_f16 Layout_RGBA Elements_RG.
Definition RGBAf16 := Eval cbv in mk_format Type_f16 Layout_RGBA Elements_RGBA.
Definition Rf32 := Eval cbv in mk_format Type_f32 Layout_RGBA Elements_R.
Definition RGf32 := Eval cbv in mk_format Type_f32 Layout_RGBA Elements_RG.
Definition RGBAf32 := Eval cbv in mk_format Type_f32 Layout_RGBA Elements_RGBA.
Definition Ru8 := Eval cbv in mk_format Type_u8 Layout_RGBA Elements_R.
Definition RGu8 := Eval cbv in mk_format Type_u8 Layout_RGBA Elements_RG.
Definition RGBAu8 := Eval cbv in mk_format Type_u8 Layout_RGBA Elements_RGBA.
Definition Ri16 := Eval cbv in mk_format Type_i16 Layout_RGBA Elements_R.
Definition RGi16 := Eval cbv in mk_format Type_i16 Layout_RGBA Elements_RG.
Definition RGBAi16 := Eval cbv in mk_format Type_i16 Layout_RGBA Elements_RGBA.
Definition Ri32 := Eval cbv in mk_format Type_i32 Layout_RGBA Elements_R.
Definition RGi32 := Eval cbv in mk_format Type_i32 Layout_RGBA Elements_RG.
Definition RGBAi32 := Eval cbv in mk_format Type_i32 Layout_RGBA Elements_RGBA.

Inductive BufferType := Index | Vertex | Constant | Compute | End_.

(** [(int)type], the index into [m_staging_buffers]. *)
Definition BufferType_index (t : BufferType) : nat :=
  match t with Index => 0 | Vertex => 1 | Constant => 2 | Compute => 3 | End_ => 4 end%nat.

End GraphicsDevice.
Export GraphicsDevice.

(** Modelled from the spec: [GetTexelSize] is declared in GraphicsDevice.h
    and defined outside the files at hand.  The spec gives the bytes of a
    texel as (bytes of the component type) x (element count), e.g.
    [Rf32] -> 4, [RGBAf16] -> 8, [RGBAu8] -> 4, and 0 for a format that is
    not recognised.  The device methods below take the function as a
    parameter; this table is only used to run them on concrete inputs. *)
Definition GetTexelSize_table (format : TextureFormat) : Z :=
  let elements := Z.land format ElementsMask in
  let ty := Z.land format TypeMask in
  let component :=
    if ty =? Type_f16 then 2 else if ty =? Type_f32 then 4
    else if ty =? Type_u8 then 1 else if ty =? Type_i16 then 2
    else if ty =? Type_i32 then 4 else 0 in
  if (elements =? Elements_R) || (elements =? Elements_RG) || (elements =? Elements_RGBA)
  then component * elements else 0.

(** ** Caller memory *)

Definition buffer := list byte.

(** [len] bytes at byte offset [off] of an allocation; [None] when the range
    leaves the allocation. *)
Definition buf_read (b : buffer) (off len : Z) : option (list byte) :=
  if (0 <=? off) && (0 <=? len) && (off + len <=? Z.of_nat (length b))
  then Some (take (Z.to_nat len) (drop (Z.to_nat off) b))
  else None.

(** Overwrite the bytes at offset [off] with [data]. *)
Definition buf_write (b : buffer) (off : Z) (data : list byte) : option buffer :=
  if (0 <=? off) && (off + Z.of_nat (length data) <=? Z.of_nat (length b))
  then Some (take (Z.to_nat off) b ++ data ++ drop (Z.to_nat off + length data) b)
  else None.

(** ** Texel channel order (GraphicsDeviceD3D9.cpp) *)

Record RGBA (T : Type) := mkRGBA { r : T; g : T; b : T; a : T }.
Arguments mkRGBA {T} _ _ _ _.
Arguments r {T} _.
Arguments g {T} _.
Arguments b {T} _.
Arguments a {T} _.

(** [std::swap(p.r, p.b)] *)
Definition swap_r_b {T} (p : RGBA T) : RGBA T := mkRGBA (b p) (g p) (r p) (a p).

(** [for (i = idx; i < idx + todo; ++i) std::swap(data[i].r, data[i].b);]
    [None] when an index leaves [data]. *)
Fixpoint BGRA_RGBA_loop {T} (data : list (RGBA T)) (i todo : nat) : option (list (RGBA T)) :=
  match todo with
  | O => Some data
  | S k =>
      match data !! i with
      | Some p => BGRA_RGBA_loop (<[i := swap_r_b p]> data) (S i) k
      | None => None
      end
  end.

Definition BGRA_RGBA_conversion {T} (data : list (RGBA T)) (num_pixels : Z)
  : option (list (RGBA T)) :=
  BGRA_RGBA_loop data 0 (Z.to_nat num_pixels).

(** [d.r = s.b; d.g = s.g; d.b = s.r; d.a = s.a;] for [dst[i]], [src[i]]. *)
Fixpoint copy_with_BGRA_RGBA_loop {T} (dst src : list (RGBA T)) (i todo : nat)
  : option (list (RGBA T)) :=
  match todo with
  | O => Some dst
  | S k =>
      match dst !! i, src !! i with
      | Some _, Some s =>
          copy_with_BGRA_RGBA_loop (<[i := mkRGBA (b s) (g s) (r s) (a s)]> dst) src (S i) k
      | _, _ => None
      end
  end.

Definition copy_with_BGRA_RGBA_conversion {T} (dst src : list (RGBA T)) (num_pixels : Z)
  : option (list (RGBA T)) :=
  copy_with_BGRA_RGBA_loop dst src 0 (Z.to_nat num_pixels).

(** The cast [(RGBA<uint8_t>* )p]: a byte range seen as texels of four bytes;
    [tail_bytes] are the bytes after the last whole texel. *)
Fixpoint texels_of_bytes {T} (l : list T) : list (RGBA T) :=
  match l with
  | x :: y :: z :: w :: rest => mkRGBA x y z w :: texels_of_bytes rest
  | _ => []
  end.

Definition bytes_of_texels {T} (l : list (RGBA T)) : list T :=
  flat_map (fun p => [r p; g p; b p; a p]) l.

Definition tail_bytes {T} (l : list T) : list T :=
  drop (4 * length (texels_of_bytes l)) l.

(** The in-place conversion of the first [num_pixels] texels of a byte range. *)
Definition BGRA_RGBA_conversion_bytes (bytes : list byte) (num_pixels : Z)
  : option (list byte) :=
  match BGRA_RGBA_conversion (texels_of_bytes bytes) num_pixels with
  | Some texels => Some (bytes_of_texels texels ++ tail_bytes bytes)
  | None => None
  end.

(** ** The staging-texture cache key

    [uint64_t hash = width + (height << 16) + ((uint64_t)internal_format << 32);]
    The first sum is computed in [int] and converted to [uint64_t] for the
    second.  Signed overflow of the shift and of the sum is taken as two's
    complement wrap-around. *)
Definition staging_hash (width height internal_format : Z) : Z :=
  wrap_u64 (int_add width (int_shl height 16)
            + wrap_u64 (Z.shiftl (wrap_u64 internal_format) 32)).

(** [std::map<uint64_t, T*>]: an association list kept in ascending key
    order, the order in which the source iterates over it. *)
Definition stdmap := list (Z * positive).

Fixpoint map_find (m : stdmap) (k : Z) : option positive :=
  match m with
  | [] => None
  | (k', v) :: rest => if k' =? k then Some v else map_find rest k
  end.

(** [std::map::insert]: an existing key keeps its value. *)
Fixpoint map_insert (m : stdmap) (k : Z) (v : positive) : stdmap :=
  match m with
  | [] => [(k, v)]
  | (k', v') :: rest =>
      if k <? k' then (k, v) :: m
      else if k' =? k then m
      else (k', v') :: map_insert rest k v
  end.

Definition map_size (m : stdmap) : Z := Z.of_nat (length m).

(** ** The driver interface

    Constants of the Windows SDK headers (d3d11.h, dxgiformat.h, d3d9types.h),
    which are included by the sources and are not part of the repository. *)

Definition handle := positive.

Definition D3D11_CPU_ACCESS_WRITE : Z := 0x10000.
Definition D3D11_CPU_ACCESS_READ : Z := 0x20000.
Definition D3D11_USAGE_STAGING : Z := 3.
Definition D3D11_BIND_VERTEX_BUFFER : Z := 0x1.
Definition D3D11_BIND_INDEX_BUFFER : Z := 0x2.
Definition D3D11_BIND_CONSTANT_BUFFER : Z := 0x4.
Definition D3D11_BIND_SHADER_RESOURCE : Z := 0x8.
Definition D3D11_BIND_UNORDERED_ACCESS : Z := 0x80.

Definition DXGI_FORMAT_UNKNOWN : Z := 0.
Definition DXGI_FORMAT_R32G32B32A32_FLOAT : Z := 2.
Definition DXGI_FORMAT_R32G32B32A32_SINT : Z := 4.
Definition DXGI_FORMAT_R16G16B16A16_FLOAT : Z := 10.
Definition DXGI_FORMAT_R32G32_FLOAT : Z := 16.
Definition DXGI_FORMAT_R32G32_SINT : Z := 18.
Definition DXGI_FORMAT_R8G8B8A8_TYPELESS : Z := 27.
Definition DXGI_FORMAT_R16G16_FLOAT : Z := 34.
Definition DXGI_FORMAT_R32_FLOAT : Z := 41.
Definition DXGI_FORMAT_R32_SINT : Z := 43.
Definition DXGI_FORMAT_R16_FLOAT : Z := 54.

Definition D3DFMT_UNKNOWN : Z := 0.
Definition D3DFMT_A8R8G8B8 : Z := 21.
Definition D3DFMT_R16F : Z := 111.
Definition D3DFMT_G16R16F : Z := 112.
Definition D3DFMT_A16B16G16R16F : Z := 113.
Definition D3DFMT_R32F : Z := 114.
Definition D3DFMT_G32R32F : Z := 115.
Definition D3DFMT_A32B32G32R32F : Z := 116.

Definition D3DPOOL_SYSTEMMEM : Z := 2.
Definition D3DLOCK_READONLY : Z := 0x10.
Definition D3DLOCK_DISCARD : Z := 0x2000.

Inductive D3D11_MAP := D3D11_MAP_READ | D3D11_MAP_WRITE_DISCARD.

(** [pData] is the start of the mapped resource; it is addressed through
    [mapped_load] and [mapped_store] with a byte offset. *)
Record D3D11_MAPPED_SUBRESOURCE := { RowPitch : Z }.
Record D3DLOCKED_RECT := { Pitch : Z }.

Record D3D11_BOX := mkBox
  { box_left : Z; box_top : Z; box_front : Z; box_right : Z; box_bottom : Z; box_back : Z }.

Record D3D11_TEXTURE2D_DESC := mkTexDesc
  { tex_Width : Z; tex_Height : Z; tex_MipLevels : Z; tex_ArraySize : Z; tex_Format : Z;
    tex_Usage : Z; tex_BindFlags : Z; tex_CPUAccessFlags : Z; tex_MiscFlags : Z }.

Record D3D11_BUFFER_DESC := mkBufDesc
  { buf_ByteWidth : Z; buf_Usage : Z; buf_BindFlags : Z; buf_CPUAccessFlags : Z }.

(** What the device classes ask of the driver, over a driver state [W].
    A fallible call answers with an [option] or a [bool] ([None], [false]:
    [FAILED(hr)]). *)
Record Driver (W : Type) := mkDriver {
  (* ID3D11Texture2D, ID3D11Buffer *)
  Texture2D_GetDesc : handle -> W -> D3D11_TEXTURE2D_DESC;
  Buffer_GetDesc : handle -> W -> D3D11_BUFFER_DESC;
  (* ID3D11DeviceContext *)
  Map : option handle -> D3D11_MAP -> W -> option D3D11_MAPPED_SUBRESOURCE * W;
  Unmap : option handle -> W -> W;
  CopyResource : option handle -> handle -> W -> W;
  (* destination, box, source memory, SrcRowPitch; [None]: the driver would
     read outside the source memory *)
  UpdateSubresource : handle -> D3D11_BOX -> buffer -> Z -> W -> option W;
  End_query : W -> W;
  (* how many polls of GetData answer S_FALSE before the marker retires:
     the GPU is taken to retire it after finitely many polls *)
  GetData_polls : W -> nat * W;
  (* ID3D11Device *)
  CreateTexture2D : D3D11_TEXTURE2D_DESC -> W -> option handle * W;
  CreateBuffer : D3D11_BUFFER_DESC -> W -> option handle * W;
  (* IUnknown *)
  Release : handle -> W -> W;
  (* IDirect3DDevice9, IDirect3DTexture9, IDirect3DSurface9, IDirect3DQuery9 *)
  CreateOffscreenPlainSurface : Z -> Z -> Z -> Z -> W -> option handle * W;
  GetSurfaceLevel : handle -> Z -> W -> option handle * W;
  GetRenderTargetData : handle -> handle -> W -> bool * W;
  LockRect : handle -> Z -> W -> option D3DLOCKED_RECT * W;
  UnlockRect : handle -> W -> W;
  UpdateSurface : handle -> handle -> W -> bool * W;
  Issue : W -> W;
  GetData9 : W -> bool * W;
  (* the memory behind a mapped or locked resource *)
  mapped_load : option handle -> Z -> Z -> W -> option (list byte);
  mapped_store : option handle -> Z -> list byte -> W -> option W
}.
Arguments Texture2D_GetDesc {W} _ _ _.
Arguments Buffer_GetDesc {W} _ _ _.
Arguments Map {W} _ _ _ _.
Arguments Unmap {W} _ _ _.
Arguments CopyResource {W} _ _ _ _.
Arguments UpdateSubresource {W} _ _ _ _ _ _.
Arguments End_query {W} _ _.
Arguments GetData_polls {W} _ _.
Arguments CreateTexture2D {W} _ _ _.
Arguments CreateBuffer {W} _ _ _.
Arguments Release {W} _ _ _.
Arguments CreateOffscreenPlainSurface {W} _ _ _ _ _ _.
Arguments GetSurfaceLevel {W} _ _ _ _.
Arguments GetRenderTargetData {W} _ _ _ _.
Arguments LockRect {W} _ _ _ _.
Arguments UnlockRect {W} _ _ _.
Arguments UpdateSurface {W} _ _ _ _.
Arguments Issue {W} _ _.
Arguments GetData9 {W} _ _.
Arguments mapped_load {W} _ _ _ _ _.
Arguments mapped_store {W} _ _ _ _ _.

(** ** The log of driver calls and memory copies

    A copy between caller memory and mapped memory is logged, with the bytes
    it moved, once it is done. *)

Inductive event :=
  | EvGetDesc (res : handle)
  | EvMap (res : option handle) (how : D3D11_MAP) (succeeded : bool)
  | EvUnmap (res : option handle)
  | EvCopyResource (dst : option handle) (src : handle)
  | EvUpdateSubresource (dst : handle) (box : D3D11_BOX) (pitch : Z)
  | EvEnd
  | EvGetData (s_false : bool)
  | EvSleep (microseconds : Z)
  | EvCreateTexture2D (desc : D3D11_TEXTURE2D_DESC) (res : option handle)
  | EvCreateBuffer (desc : D3D11_BUFFER_DESC) (res : option handle)
  | EvRelease (res : handle)
  | EvCreateOffscreenPlainSurface (width height format : Z) (res : option handle)
  | EvGetSurfaceLevel (tex : handle) (res : option handle)
  | EvGetRenderTargetData (src dst : handle) (succeeded : bool)
  | EvLockRect (surf : handle) (flags : Z) (succeeded : bool)
  | EvUnlockRect (surf : handle)
  | EvUpdateSurface (src dst : handle) (succeeded : bool)
  | EvIssue
  | EvGetData9 (s_ok : bool)
  | EvMemcpyFromMapped (res : option handle) (src_off dst_off : Z) (bytes : list byte)
  | EvMemcpyToMapped (res : option handle) (dst_off : Z) (bytes : list byte)
  | EvLog (message : string).

(** ** The monad of device methods *)

Inductive stuck := NullDeref | OutOfBounds | DivByZero | NoReturn.

Record St (Dev W : Type) := mkSt { this : Dev; gpu : W; trace : list event }.
Arguments mkSt {Dev W} _ _ _.
Arguments this {Dev W} _.
Arguments gpu {Dev W} _.
Arguments trace {Dev W} _.

Inductive outcome (S A : Type) :=
  | Ret (x : A) (s : S)
  | Stuck (why : stuck) (s : S).
Arguments Ret {S A} _ _.
Arguments Stuck {S A} _ _.

Definition M (S A : Type) := S -> outcome S A.

Definition ret {S A} (x : A) : M S A := fun s => Ret x s.

Definition bind {S A B} (m : M S A) (k : A -> M S B) : M S B :=
  fun s => match m s with
           | Ret x s' => k x s'
           | Stuck why s' => Stuck why s'
           end.

Definition halt {S A} (why : stuck) : M S A := fun s => Stuck why s.

Declare Scope dev_scope.
Delimit Scope dev_scope with dev.
Notation "x <- m ;; k" := (bind m (fun x => k))
  (at level 100, m at next level, right associativity) : dev_scope.
Notation "m ;;; k" := (bind m (fun _ => k))
  (at level 100, right associativity) : dev_scope.
Open Scope dev_scope.

(** The state in which a run ends, stuck or not, and the value it returns. *)
Definition final {S A} (o : outcome S A) : S :=
  match o with Ret _ s => s | Stuck _ s => s end.

Definition returned {S A} (o : outcome S A) : option A :=
  match o with Ret x _ => Some x | Stuck _ _ => None end.

Definition why_stuck {S A} (o : outcome S A) : option stuck :=
  match o with Ret _ _ => None | Stuck why _ => Some why end.

Section Primitives.
Context {Dev W : Type}.

Definition get_this : M (St Dev W) Dev := fun s => Ret (this s) s.

Definition set_this (d : Dev) : M (St Dev W) unit :=
  fun s => Ret tt (mkSt d (gpu s) (trace s)).

Definition log (e : event) : M (St Dev W) unit :=
  fun s => Ret tt (mkSt (this s) (gpu s) (trace s ++ [e])).

(** A driver call that reads the driver state. *)
Definition query {A} (e : event) (f : W -> A) : M (St Dev W) A :=
  fun s => Ret (f (gpu s)) (mkSt (this s) (gpu s) (trace s ++ [e])).

(** A driver call with an answer; the event records the answer. *)
Definition call {A} (e : A -> event) (f : W -> A * W) : M (St Dev W) A :=
  fun s => let '(x, w) := f (gpu s) in Ret x (mkSt (this s) w (trace s ++ [e x])).

(** A driver call without an answer. *)
Definition call_ (e : event) (f : W -> W) : M (St Dev W) unit :=
  fun s => Ret tt (mkSt (this s) (f (gpu s)) (trace s ++ [e])).

(** An access that is undefined when [f] has no answer. *)
Definition access {A} (f : W -> option A) : M (St Dev W) A :=
  fun s => match f (gpu s) with Some x => Ret x s | None => Stuck OutOfBounds s end.

(** The driver's answer to a question that leaves no event of its own. *)
Definition ask {A} (f : W -> A * W) : M (St Dev W) A :=
  fun s => let '(x, w) := f (gpu s) in Ret x (mkSt (this s) w (trace s)).

(** A method call through the pointer [p]. *)
Definition deref (p : option handle) : M (St Dev W) handle :=
  match p with Some h => ret h | None => halt NullDeref end.

Definition set_gpu (w : W) : M (St Dev W) unit :=
  fun s => Ret tt (mkSt (this s) w (trace s)).

Definition defined {A} (o : option A) (why : stuck) : M (St Dev W) A :=
  match o with Some x => ret x | None => halt why end.

(** [a / b] on [size_t]. *)
Definition size_t_div (a b : Z) : M (St Dev W) Z :=
  if wrap_u64 b =? 0 then halt DivByZero else ret (wrap_u64 a / wrap_u64 b).

Context (drv : Driver W).

(** [memcpy(dst + dst_off, mapped + src_off, size)], [mapped] being the
    memory of the mapped resource [res]. *)
Definition memcpy_from_mapped (dst : option buffer) (dst_off : Z)
    (res : option handle) (src_off : Z) (size : Z) : M (St Dev W) (option buffer) :=
  d <- defined dst NullDeref;;
  bytes <- access (mapped_load drv res src_off size);;
  d' <- defined (buf_write d dst_off bytes) OutOfBounds;;
  log (EvMemcpyFromMapped res src_off dst_off bytes);;;
  ret (Some d').

(** [memcpy(mapped + dst_off, src + src_off, size)]. *)
Definition memcpy_to_mapped (res : option handle) (dst_off : Z)
    (src : option buffer) (src_off : Z) (size : Z) : M (St Dev W) unit :=
  s <- defined src NullDeref;;
  bytes <- defined (buf_read s src_off size) OutOfBounds;;
  w <- access (mapped_store drv res dst_off bytes);;
  set_gpu w;;;
  log (EvMemcpyToMapped res dst_off bytes).

(** The row loop of the texture reads:
    [for (i = 0; i < height; ++i) { memcpy(dst, src, pitch); dst += dst_pitch; src += src_pitch; }]
    with [rows] iterations left. *)
Fixpoint read_rows (rows : nat) (dst : option buffer) (dst_off : Z)
    (res : option handle) (src_off : Z) (size dst_pitch src_pitch : Z)
    : M (St Dev W) (option buffer) :=
  match rows with
  | O => ret dst
  | S k =>
      dst' <- memcpy_from_mapped dst dst_off res src_off size;;
      read_rows k dst' (dst_off + dst_pitch) res (src_off + src_pitch) size dst_pitch src_pitch
  end.

(** The row loop of the texture write. *)
Fixpoint write_rows (rows : nat) (res : option handle) (dst_off : Z)
    (src : option buffer) (src_off : Z) (size dst_pitch src_pitch : Z)
    : M (St Dev W) unit :=
  match rows with
  | O => ret tt
  | S k =>
      memcpy_to_mapped res dst_off src src_off size;;;
      write_rows k res (dst_off + dst_pitch) src (src_off + src_pitch) size dst_pitch src_pitch
  end.
End Primitives.

Definition is_null {A} (p : option A) : bool :=
  match p with Some _ => false | None => true end.

(** ** GraphicsDeviceD3D11.cpp *)

Module D3D11.

Definition D3D11MaxStagingTextures : Z := 32.

Record GraphicsDeviceD3D11 := mkDev {
  m_device : option handle;
  m_context : option handle;
  m_query_event : option handle;
  m_staging_textures : stdmap;
  m_staging_buffers : list (option handle)
}.

Definition set_staging_textures (d : GraphicsDeviceD3D11) (m : stdmap) :=
  mkDev (m_device d) (m_context d) (m_query_event d) m (m_staging_buffers d).

Definition set_staging_buffer (d : GraphicsDeviceD3D11) (i : nat) (p : option handle) :=
  mkDev (m_device d) (m_context d) (m_query_event d) (m_staging_textures d)
        (<[i := p]> (m_staging_buffers d)).

Definition set_context (d : GraphicsDeviceD3D11) (p : option handle) :=
  mkDev (m_device d) p (m_query_event d) (m_staging_textures d) (m_staging_buffers d).

Definition set_query_event (d : GraphicsDeviceD3D11) (p : option handle) :=
  mkDev (m_device d) (m_context d) p (m_staging_textures d) (m_staging_buffers d).

(** The object the constructor leaves behind for a device whose immediate
    context is [ctx] and whose event query is [q]. *)
Definition GraphicsDeviceD3D11_new (device ctx q : option handle) : GraphicsDeviceD3D11 :=
  mkDev device (if is_null device then None else ctx) (if is_null device then None else q)
        [] [None; None; None; None].

Definition GetInternalFormatD3D11 (fmt : TextureFormat) : Z :=
  if fmt =? RGBAu8 then DXGI_FORMAT_R8G8B8A8_TYPELESS
  else if fmt =? RGBAf16 then DXGI_FORMAT_R16G16B16A16_FLOAT
  else if fmt =? RGf16 then DXGI_FORMAT_R16G16_FLOAT
  else if fmt =? Rf16 then DXGI_FORMAT_R16_FLOAT
  else if fmt =? RGBAf32 then DXGI_FORMAT_R32G32B32A32_FLOAT
  else if fmt =? RGf32 then DXGI_FORMAT_R32G32_FLOAT
  else if fmt =? Rf32 then DXGI_FORMAT_R32_FLOAT
  else if fmt =? RGBAi32 then DXGI_FORMAT_R32G32B32A32_SINT
  else if fmt =? RGi32 then DXGI_FORMAT_R32G32_SINT
  else if fmt =? Ri32 then DXGI_FORMAT_R32_SINT
  else DXGI_FORMAT_UNKNOWN.

(** [while (size < size_required) size *= 2;] on [size_t].  Once [size] has
    wrapped to 0 the loop never ends: [None]. *)
Fixpoint staging_size (fuel : nat) (size size_required : Z) : option Z :=
  if size <? size_required then
    match fuel with
    | O => None
    | S k => staging_size k (wrap_u64 (size * 2)) size_required
    end
  else Some size.

Definition staging_bind_flags (type : BufferType) : Z :=
  match type with
  | Index => D3D11_BIND_INDEX_BUFFER
  | Vertex => D3D11_BIND_VERTEX_BUFFER
  | Constant => D3D11_BIND_CONSTANT_BUFFER
  | Compute => Z.lor D3D11_BIND_SHADER_RESOURCE D3D11_BIND_UNORDERED_ACCESS
  | End_ => 0
  end.

(** Modelled from the spec: [ceildiv] comes from gdInternal.h, which is not
    among the files at hand; the spec gives the row count of the update box
    as ceil(pixel count / width).  On [UINT]; it divides by [d]. *)
Definition ceildiv (v d : Z) : option Z :=
  if d =? 0 then None else Some (wrap_u32 (v / d + (if v mod d =? 0 then 0 else 1))).

Section Methods.
Context {W : Type} (drv : Driver W) (GetTexelSize : TextureFormat -> Z).

Local Abbreviation Dev := (M (St GraphicsDeviceD3D11 W)).

Fixpoint release_all (entries : stdmap) : Dev unit :=
  match entries with
  | [] => ret tt
  | (_, tex) :: rest => call_ (EvRelease tex) (Release drv tex);;; release_all rest
  end.

Definition clearStagingTextures : Dev unit :=
  d <- get_this;;
  release_all (m_staging_textures d);;;
  d <- get_this;;
  set_this (set_staging_textures d []).

Fixpoint clear_buffers (i : nat) (slots : list (option handle)) : Dev unit :=
  match slots with
  | [] => ret tt
  | slot :: rest =>
      match slot with
      | Some buf =>
          call_ (EvRelease buf) (Release drv buf);;;
          d <- get_this;;
          set_this (set_staging_buffer d i None)
      | None => ret tt
      end;;;
      clear_buffers (S i) rest
  end.

Definition clearStagingBuffers : Dev unit :=
  d <- get_this;;
  clear_buffers 0 (m_staging_buffers d).

Definition getDevicePtr : Dev (option handle) :=
  d <- get_this;; ret (m_device d).

Definition getDeviceType : Dev DeviceType := ret GraphicsDevice.D3D11.

(** The polls of [GetData]: [n] answers S_FALSE, each followed by a sleep
    of 100 microseconds, then the answer that leaves the loop. *)
Fixpoint poll (n : nat) : Dev unit :=
  match n with
  | O => log (EvGetData false)
  | S k => log (EvGetData true);;; log (EvSleep 100);;; poll k
  end.

Definition sync : Dev unit :=
  d <- get_this;;
  deref (m_context d);;;
  call_ EvEnd (End_query drv);;;
  n <- ask (GetData_polls drv);;
  poll n.

Definition getStagingTexture (width height : Z) (format : TextureFormat)
  : Dev (option handle) :=
  d <- get_this;;
  (if map_size (m_staging_textures d) >=? D3D11MaxStagingTextures
   then clearStagingTextures else ret tt);;;
  let internal_format := GetInternalFormatD3D11 format in
  let hash := staging_hash width height internal_format in
  d <- get_this;;
  match map_find (m_staging_textures d) hash with
  | Some tex => ret (Some tex)
  | None =>
      let desc := mkTexDesc (wrap_u32 width) (wrap_u32 height) 1 1 internal_format
                    D3D11_USAGE_STAGING 0
                    (Z.lor D3D11_CPU_ACCESS_READ D3D11_CPU_ACCESS_WRITE) 0 in
      deref (m_device d);;;
      created <- call (EvCreateTexture2D desc) (CreateTexture2D drv desc);;
      match created with
      | Some tex =>
          d <- get_this;;
          set_this (set_staging_textures d (map_insert (m_staging_textures d) hash tex))
      | None => ret tt
      end;;;
      ret created
  end.

(** The lambda [proc_read] of [readTexture]; it answers with the value it
    leaves in the captured [ret] and with the destination memory. *)
Definition proc_read_texture (dst : option buffer) (dst_size : Z) (tex : option handle)
    (width height : Z) (format : TextureFormat) : Dev (Error * option buffer) :=
  d <- get_this;;
  deref (m_context d);;;
  mapped <- call (fun m => EvMap tex D3D11_MAP_READ (negb (is_null m)))
                 (Map drv tex D3D11_MAP_READ);;
  match mapped with
  | None =>
      log (EvLog "GraphicsDeviceD3D11::readTexture(): Map() failed.");;;
      ret (Unknown, dst)
  | Some m =>
      let dst_pitch := int_mul width (GetTexelSize format) in
      let src_pitch := wrap_int (RowPitch m) in
      dst' <- (if dst_pitch =? src_pitch
               then memcpy_from_mapped drv dst 0 tex 0 (wrap_u64 dst_size)
               else read_rows drv (Z.to_nat height) dst 0 tex 0
                              (wrap_u64 dst_pitch) dst_pitch src_pitch);;
      call_ (EvUnmap tex) (Unmap drv tex);;;
      ret (OK, dst')
  end.

Definition readTexture (dst : option buffer) (dst_size : Z) (src_tex_ : option handle)
    (width height : Z) (format : TextureFormat) : Dev (Error * option buffer) :=
  d <- get_this;;
  match m_context d, src_tex_ with
  | Some _, Some src_tex =>
      desc <- query (EvGetDesc src_tex) (Texture2D_GetDesc drv src_tex);;
      let mappable := negb (Z.land (tex_CPUAccessFlags desc) D3D11_CPU_ACCESS_READ =? 0) in
      if mappable then
        proc_read_texture dst dst_size (Some src_tex) width height format
      else
        staging <- getStagingTexture width height format;;
        call_ (EvCopyResource staging src_tex) (CopyResource drv staging src_tex);;;
        sync;;;
        proc_read_texture dst dst_size staging width height format
  | _, _ => ret (InvalidParameter, dst)
  end.

Definition writeTexture (dst_tex_ : option handle) (width height : Z)
    (format : TextureFormat) (src : option buffer) (src_size : Z) : Dev Error :=
  match dst_tex_, src with
  | Some dst_tex, Some src_bytes =>
      desc <- query (EvGetDesc dst_tex) (Texture2D_GetDesc drv dst_tex);;
      let mappable := negb (Z.land (tex_CPUAccessFlags desc) D3D11_CPU_ACCESS_WRITE =? 0) in
      let psize := GetTexelSize format in
      let pitch := int_mul psize width in
      num_pixels <- size_t_div src_size psize;;
      d <- get_this;;
      (if mappable then
         deref (m_context d);;;
         mapped <- call (fun m => EvMap dst_tex_ D3D11_MAP_WRITE_DISCARD (negb (is_null m)))
                        (Map drv dst_tex_ D3D11_MAP_WRITE_DISCARD);;
         match mapped with
         | None => log (EvLog "GraphicsDeviceD3D11::writeTexture(): Map() failed.")
         | Some m =>
             let dst_pitch := wrap_int (RowPitch m) in
             let src_pitch := int_mul width (GetTexelSize format) in
             (if dst_pitch =? src_pitch
              then memcpy_to_mapped drv dst_tex_ 0 src 0 (wrap_u64 src_size)
              else write_rows drv (Z.to_nat height) dst_tex_ 0 src 0
                              (wrap_u64 dst_pitch) dst_pitch src_pitch);;;
             call_ (EvUnmap dst_tex_) (Unmap drv dst_tex_)
         end
       else
         bottom <- defined (ceildiv (wrap_u32 num_pixels) (wrap_u32 width)) DivByZero;;
         let box := mkBox 0 0 0 (wrap_u32 width) bottom 1 in
         deref (m_context d);;;
         log (EvUpdateSubresource dst_tex box (wrap_u32 pitch));;;
         w <- access (UpdateSubresource drv dst_tex box src_bytes (wrap_u32 pitch));;
         set_gpu w);;;
      ret OK
  | _, _ => ret InvalidParameter
  end.

Definition getStagingBuffer (type : BufferType) (size_required : Z)
  : Dev (option handle) :=
  size <- defined (staging_size 64 (1024 * 1024) size_required) NoReturn;;
  d <- get_this;;
  let i := BufferType_index type in
  staging <- defined (m_staging_buffers d !! i) OutOfBounds;;
  current_size <- match staging with
                  | Some buf =>
                      desc <- query (EvGetDesc buf) (Buffer_GetDesc drv buf);;
                      ret (buf_ByteWidth desc)
                  | None => ret 0
                  end;;
  if size >? current_size then
    match staging with
    | Some buf =>
        call_ (EvRelease buf) (Release drv buf);;;
        set_this (set_staging_buffer d i None)
    | None => ret tt
    end;;;
    let desc := mkBufDesc (wrap_u32 size) D3D11_USAGE_STAGING (staging_bind_flags type)
                  (Z.lor D3D11_CPU_ACCESS_WRITE D3D11_CPU_ACCESS_READ) in
    deref (m_device d);;;
    created <- call (EvCreateBuffer desc) (CreateBuffer drv desc);;
    d <- get_this;;
    set_this (set_staging_buffer d i created);;;
    (if is_null created
     then log (EvLog "GraphicsDeviceD3D11::findOrCreateStagingBuffer(): CreateBuffer() failed!")
     else ret tt);;;
    ret created
  else ret staging.

(** The lambda [proc_read] of [readBuffer]. *)
Definition proc_read_buffer (dst : option buffer) (buf : option handle) (size : Z)
  : Dev (Error * option buffer) :=
  d <- get_this;;
  deref (m_context d);;;
  mapped <- call (fun m => EvMap buf D3D11_MAP_READ (negb (is_null m)))
                 (Map drv buf D3D11_MAP_READ);;
  match mapped with
  | None =>
      log (EvLog "GraphicsDeviceD3D11::readBuffer(): Map() failed.");;;
      ret (Unknown, dst)
  | Some _ =>
      dst' <- memcpy_from_mapped drv dst 0 buf 0 (wrap_u64 size);;
      call_ (EvUnmap buf) (Unmap drv buf);;;
      ret (OK, dst')
  end.

Definition readBuffer (dst : option buffer) (src_buf_ : option handle) (read_size : Z)
    (type : BufferType) : Dev (Error * option buffer) :=
  if read_size =? 0 then ret (OK, dst) else
  match dst, src_buf_ with
  | Some _, Some src_buf =>
      desc <- query (EvGetDesc src_buf) (Buffer_GetDesc drv src_buf);;
      let mappable := negb (Z.land (buf_CPUAccessFlags desc) D3D11_CPU_ACCESS_READ =? 0) in
      if mappable then
        proc_read_buffer dst (Some src_buf) read_size
      else
        staging_buf <- getStagingBuffer type read_size;;
        d <- get_this;;
        deref (m_context d);;;
        call_ (EvCopyResource staging_buf src_buf) (CopyResource drv staging_buf src_buf);;;
        sync;;;
        proc_read_buffer dst staging_buf read_size
  | _, _ => ret (InvalidParameter, dst)
  end.

Definition writeBuffer (dst_buf_ : option handle) (src : option buffer) (write_size : Z)
    (type : BufferType) : Dev Error :=
  if write_size =? 0 then ret OK else
  match dst_buf_, src with
  | Some dst_buf, Some src_bytes =>
      desc <- query (EvGetDesc dst_buf) (Buffer_GetDesc drv dst_buf);;
      let mappable := negb (Z.land (buf_CPUAccessFlags desc) D3D11_CPU_ACCESS_WRITE =? 0) in
      d <- get_this;;
      deref (m_context d);;;
      if mappable then
        mapped <- call (fun m => EvMap dst_buf_ D3D11_MAP_WRITE_DISCARD (negb (is_null m)))
                       (Map drv dst_buf_ D3D11_MAP_WRITE_DISCARD);;
        match mapped with
        | None =>
            log (EvLog "GraphicsDeviceD3D11::writeBuffer(): Map() failed.");;;
            ret Unknown
        | Some _ =>
            memcpy_to_mapped drv dst_buf_ 0 src 0 (wrap_u64 write_size);;;
            call_ (EvUnmap dst_buf_) (Unmap drv dst_buf_);;;
            ret OK
        end
      else
        let box := mkBox 0 0 0 (wrap_u32 write_size) 1 1 in
        log (EvUpdateSubresource dst_buf box (wrap_u32 write_size));;;
        w <- access (UpdateSubresource drv dst_buf box src_bytes (wrap_u32 write_size));;
        set_gpu w;;;
        ret OK
  | _, _ => ret InvalidParameter
  end.

(** [~GraphicsDeviceD3D11()] *)
Definition destructor : Dev unit :=
  clearStagingTextures;;;
  clearStagingBuffers;;;
  d <- get_this;;
  match m_context d with
  | Some ctx =>
      call_ (EvRelease ctx) (Release drv ctx);;;
      set_this (set_context d None);;;
      d <- get_this;;
      q <- deref (m_query_event d);;
      call_ (EvRelease q) (Release drv q);;;
      d <- get_this;;
      set_this (set_query_event d None)
  | None => ret tt
  end.

(** [release()]: [delete this]. *)
Definition release : Dev unit := destructor.
End Methods.

End D3D11.

(** ** GraphicsDeviceD3D9.cpp *)

Module D3D9.

Definition D3D9MaxStagingTextures : Z := 32.

Record GraphicsDeviceD3D9 := mkDev {
  m_device : option handle;
  m_query_event : option handle;
  m_staging_textures : stdmap
}.

Definition set_staging_textures (d : GraphicsDeviceD3D9) (m : stdmap) :=
  mkDev (m_device d) (m_query_event d) m.

(** The object the constructor leaves behind; [q] is what [CreateQuery]
    stores for a device that is not null. *)
Definition GraphicsDeviceD3D9_new (device q : option handle) : GraphicsDeviceD3D9 :=
  mkDev device (if is_null device then None else q) [].

Definition GetInternalFormatD3D9 (fmt : TextureFormat) : Z :=
  if fmt =? RGBAu8 then D3DFMT_A8R8G8B8
  else if fmt =? RGBAf16 then D3DFMT_A16B16G16R16F
  else if fmt =? RGf16 then D3DFMT_G16R16F
  else if fmt =? Rf16 then D3DFMT_R16F
  else if fmt =? RGBAf32 then D3DFMT_A32B32G32R32F
  else if fmt =? RGf32 then D3DFMT_G32R32F
  else if fmt =? Rf32 then D3DFMT_R32F
  else D3DFMT_UNKNOWN.

Section Methods.
Context {W : Type} (drv : Driver W) (GetTexelSize : TextureFormat -> Z).

Local Abbreviation Dev := (M (St GraphicsDeviceD3D9 W)).

Fixpoint release_all (entries : stdmap) : Dev unit :=
  match entries with
  | [] => ret tt
  | (_, surf) :: rest => call_ (EvRelease surf) (Release drv surf);;; release_all rest
  end.

Definition clearStagingTextures : Dev unit :=
  d <- get_this;;
  release_all (m_staging_textures d);;;
  d <- get_this;;
  set_this (set_staging_textures d []).

Definition getDevicePtr : Dev (option handle) :=
  d <- get_this;; ret (m_device d).

Definition getDeviceType : Dev DeviceType := ret GraphicsDevice.D3D9.

Definition findOrCreateStagingTexture (width height : Z) (format : TextureFormat)
  : Dev (option handle) :=
  d <- get_this;;
  (if map_size (m_staging_textures d) >=? D3D9MaxStagingTextures
   then clearStagingTextures else ret tt);;;
  let internal_format := GetInternalFormatD3D9 format in
  if internal_format =? D3DFMT_UNKNOWN then ret None else
  let hash := staging_hash width height internal_format in
  d <- get_this;;
  match map_find (m_staging_textures d) hash with
  | Some surf => ret (Some surf)
  | None =>
      deref (m_device d);;;
      created <- call (EvCreateOffscreenPlainSurface width height internal_format)
                      (CreateOffscreenPlainSurface drv width height internal_format
                                                   D3DPOOL_SYSTEMMEM);;
      match created with
      | Some surf =>
          d <- get_this;;
          set_this (set_staging_textures d (map_insert (m_staging_textures d) hash surf))
      | None => ret tt
      end;;;
      ret created
  end.

(** [BGRA_RGBA_conversion((RGBA<uint8_t>* )o_buf, num_pixels)] on caller memory. *)
Definition BGRA_RGBA_conversion_in_place (o_buf : option buffer) (num_pixels : Z)
  : Dev (option buffer) :=
  if num_pixels <=? 0 then ret o_buf else
  bytes <- defined o_buf NullDeref;;
  bytes' <- defined (BGRA_RGBA_conversion_bytes bytes num_pixels) OutOfBounds;;
  ret (Some bytes').

(** [copy_with_BGRA_RGBA_conversion((RGBA<uint8_t>* )wpixels, (RGBA<uint8_t>* )rpixels, num_pixels)],
    [wpixels] being the memory of the locked surface [surf]. *)
Definition copy_with_BGRA_RGBA_conversion_to_locked (surf : handle) (rpixels : option buffer)
    (num_pixels : Z) : Dev unit :=
  if num_pixels <=? 0 then ret tt else
  src <- defined rpixels NullDeref;;
  dst <- access (mapped_load drv (Some surf) 0 (4 * num_pixels));;
  texels <- defined (copy_with_BGRA_RGBA_conversion (texels_of_bytes dst)
                                                    (texels_of_bytes src) num_pixels)
                    OutOfBounds;;
  w <- access (mapped_store drv (Some surf) 0 (bytes_of_texels texels));;
  set_gpu w;;;
  log (EvMemcpyToMapped (Some surf) 0 (bytes_of_texels texels)).

Definition sync : Dev unit :=
  d <- get_this;;
  deref (m_query_event d);;;
  call_ EvIssue (Issue drv);;;
  s_ok <- call EvGetData9 (GetData9 drv);;
  if s_ok then ret tt else log (EvLog "GetData() failed").

Definition readTexture (o_buf : option buffer) (bufsize : Z) (tex_ : option handle)
    (width height : Z) (format : TextureFormat) : Dev (Error * option buffer) :=
  staging <- findOrCreateStagingTexture width height format;;
  match staging with
  | None => ret (Unknown, o_buf)
  | Some surf_dst =>
      tex <- deref tex_;;
      level <- call (EvGetSurfaceLevel tex) (GetSurfaceLevel drv tex 0);;
      match level with
      | None => ret (Unknown, o_buf)
      | Some surf_src =>
          sync;;;
          d <- get_this;;
          deref (m_device d);;;
          copied <- call (EvGetRenderTargetData surf_src surf_dst)
                         (GetRenderTargetData drv surf_src surf_dst);;
          res <- (if copied then
                    locked <- call (fun l => EvLockRect surf_dst D3DLOCK_READONLY (negb (is_null l)))
                                   (LockRect drv surf_dst D3DLOCK_READONLY);;
                    match locked with
                    | Some l =>
                        let wpitch := int_mul width (GetTexelSize format) in
                        let rpitch := wrap_int (Pitch l) in
                        buf <- (if wpitch =? rpitch
                                then memcpy_from_mapped drv o_buf 0 (Some surf_dst) 0
                                                        (wrap_u64 bufsize)
                                else read_rows drv (Z.to_nat height) o_buf 0 (Some surf_dst) 0
                                               (wrap_u64 wpitch) wpitch rpitch);;
                        call_ (EvUnlockRect surf_dst) (UnlockRect drv surf_dst);;;
                        buf' <- (if format =? RGBAu8
                                 then BGRA_RGBA_conversion_in_place buf
                                        (wrap_int (wrap_u64 bufsize / 4))
                                 else ret buf);;
                        ret (OK, buf')
                    | None => ret (Unknown, o_buf)
                    end
                  else ret (Unknown, o_buf));;
          call_ (EvRelease surf_src) (Release drv surf_src);;;
          ret res
      end
  end.

Definition writeTexture (o_tex : option handle) (width height : Z)
    (format : TextureFormat) (buf : option buffer) (bufsize : Z) : Dev Error :=
  let psize := GetTexelSize format in
  let pitch := int_mul psize width in
  num_pixels <- size_t_div bufsize psize;;
  staging <- findOrCreateStagingTexture width height format;;
  match staging with
  | None => ret Unknown
  | Some surf_src =>
      tex <- deref o_tex;;
      level <- call (EvGetSurfaceLevel tex) (GetSurfaceLevel drv tex 0);;
      match level with
      | None => ret Unknown
      | Some surf_dst =>
          locked <- call (fun l => EvLockRect surf_src D3DLOCK_DISCARD (negb (is_null l)))
                         (LockRect drv surf_src D3DLOCK_DISCARD);;
          res <- match locked with
                 | Some l =>
                     let rpitch := int_mul psize width in
                     let wpitch := wrap_int (Pitch l) in
                     (if format =? RGBAu8
                      then copy_with_BGRA_RGBA_conversion_to_locked surf_src buf
                             (wrap_int (wrap_u64 bufsize / 4))
                      else memcpy_to_mapped drv (Some surf_src) 0 buf 0 (wrap_u64 bufsize));;;
                     call_ (EvUnlockRect surf_src) (UnlockRect drv surf_src);;;
                     d <- get_this;;
                     deref (m_device d);;;
                     updated <- call (EvUpdateSurface surf_src surf_dst)
                                     (UpdateSurface drv surf_src surf_dst);;
                     if updated then ret Unknown else ret Unknown
                 | None => ret Unknown
                 end;;
          call_ (EvRelease surf_dst) (Release drv surf_dst);;;
          ret res
      end
  end.

Definition readBuffer (dst : option buffer) (src_buf : option handle) (read_size : Z)
    (type : BufferType) : Dev (Error * option buffer) :=
  ret (NotAvailable, dst).

Definition writeBuffer (dst_buf : option handle) (src : option buffer) (write_size : Z)
    (type : BufferType) : Dev Error :=
  ret NotAvailable.

(** [~GraphicsDeviceD3D9()] *)
Definition destructor : Dev unit := clearStagingTextures.
End Methods.

End D3D9.

(** ** GraphicsDeviceVulkan.cpp *)

Module VulkanDevice.

Record GraphicsDeviceVulkan := mkDev {}.

Section Methods.
Context {W : Type}.

Local Abbreviation Dev := (M (St GraphicsDeviceVulkan W)).

Definition getDevicePtr : Dev (option handle) := ret None.

Definition getDeviceType : Dev DeviceType := ret GraphicsDevice.Vulkan.

Definition sync : Dev unit := ret tt.

Definition readTexture (o_buf : option buffer) (bufsize : Z) (tex : option handle)
    (width height : Z) (format : TextureFormat) : Dev (Error * option buffer) :=
  ret (NotAvailable, o_buf).

Definition writeTexture (o_tex : option handle) (width height : Z)
    (format : TextureFormat) (buf : option buffer) (bufsize : Z) : Dev Error :=
  ret NotAvailable.

Definition readBuffer (dst : option buffer) (src_buf : option handle) (read_size : Z)
    (type : BufferType) : Dev (Error * option buffer) :=
  ret (NotAvailable, dst).

Definition writeBuffer (dst_buf : option handle) (src : option buffer) (write_size : Z)
    (type : BufferType) : Dev Error :=
  ret NotAvailable.
End Methods.

End VulkanDevice.

(** ** mpGraphicsDeviceD3D9.cpp

    The device that uploads the particle data texture.  Its staging
    surfaces are all of the format [D3DFMT_A32B32G32R32F]; the width it
    asks for comes from the constant [mpDataTextureWidth] of
    mpFoundation.h, a header outside the files at hand: the methods take
    it as a parameter. *)

Module MpD3D9.

Record mpGraphicsDeviceD3D9 := mkDev {
  m_device : option handle;
  m_staging_textures : stdmap
}.

Definition set_staging_textures (d : mpGraphicsDeviceD3D9) (m : stdmap) :=
  mkDev (m_device d) m.

Definition mpGraphicsDeviceD3D9_new (dev : option handle) : mpGraphicsDeviceD3D9 :=
  mkDev dev [].

Definition mpCreateGraphicsDeviceD3D9 (device : option handle) : option mpGraphicsDeviceD3D9 :=
  Some (mpGraphicsDeviceD3D9_new device).

(** [uint64_t hash = width + (height << 16);]: the sum is computed in
    [int] and then converted. *)
Definition staging_hash (width height : Z) : Z :=
  wrap_u64 (int_add width (int_shl height 16)).

Section Methods.
Context {W : Type} (drv : Driver W) (mpDataTextureWidth : Z).

Local Abbreviation Dev := (M (St mpGraphicsDeviceD3D9 W)).

Fixpoint release_all (entries : stdmap) : Dev unit :=
  match entries with
  | [] => ret tt
  | (_, surf) :: rest => call_ (EvRelease surf) (Release drv surf);;; release_all rest
  end.

(** [~mpGraphicsDeviceD3D9()] *)
Definition destructor : Dev unit :=
  d <- get_this;;
  release_all (m_staging_textures d);;;
  d <- get_this;;
  set_this (set_staging_textures d []).

Definition findOrCreateStagingTexture (width height : Z) : Dev (option handle) :=
  let internal_format := D3DFMT_A32B32G32R32F in
  let hash := staging_hash width height in
  d <- get_this;;
  match map_find (m_staging_textures d) hash with
  | Some surf => ret (Some surf)
  | None =>
      deref (m_device d);;;
      created <- call (EvCreateOffscreenPlainSurface width height internal_format)
                      (CreateOffscreenPlainSurface drv width height internal_format
                                                   D3DPOOL_SYSTEMMEM);;
      match created with
      | Some surf =>
          d <- get_this;;
          set_this (set_staging_textures d (map_insert (m_staging_textures d) hash surf))
      | None => ret tt
      end;;;
      ret created
  end.

Definition updateDataTexture (texptr : option handle) (width height : Z)
    (data : option buffer) (data_size : Z) : Dev unit :=
  let psize := 16 in
  staging <- findOrCreateStagingTexture mpDataTextureWidth height;;
  match staging with
  | None => ret tt
  | Some surf_src =>
      tex <- deref texptr;;
      level <- call (EvGetSurfaceLevel tex) (GetSurfaceLevel drv tex 0);;
      match level with
      | None => ret tt
      | Some surf_dst =>
          locked <- call (fun l => EvLockRect surf_src D3DLOCK_DISCARD (negb (is_null l)))
                         (LockRect drv surf_src D3DLOCK_DISCARD);;
          match locked with
          | Some l =>
              let rpitch := int_mul psize width in
              let wpitch := wrap_int (Pitch l) in
              memcpy_to_mapped drv (Some surf_src) 0 data 0 (wrap_u64 data_size);;;
              call_ (EvUnlockRect surf_src) (UnlockRect drv surf_src);;;
              d <- get_this;;
              deref (m_device d);;;
              updated <- call (EvUpdateSurface surf_src surf_dst)
                              (UpdateSurface drv surf_src surf_dst);;
              ret tt
          | None => ret tt
          end;;;
          call_ (EvRelease surf_dst) (Release drv surf_dst)
      end
  end.
End Methods.

End MpD3D9.

(** ** A reference driver

    A small simulation of the driver, used to run the device methods on
    concrete inputs.  A resource is a grid of [res_height] rows of
    [res_width] texels of [res_texel] bytes, stored with [res_pitch] bytes
    from one row to the next; a buffer is one row of one-byte texels. *)

Module RefDriver.

Record Resource := mkRes {
  res_width : Z;
  res_height : Z;
  res_texel : Z;
  res_format : Z;
  res_pitch : Z;
  res_cpu : Z;
  res_refs : nat;
  res_data : list byte
}.

Record World := mkWorld {
  resources : gmap positive Resource;
  next_handle : positive;
  row_align : Z;          (* rows of a new resource start at multiples of this *)
  device_lost : bool;     (* every fallible call fails *)
  gpu_latency : nat       (* polls answered S_FALSE by a sync *)
}.

Definition set_resources (w : World) (m : gmap positive Resource) : World :=
  mkWorld m (next_handle w) (row_align w) (device_lost w) (gpu_latency w).

Definition dxgi_texel_bytes (fmt : Z) : Z :=
  if fmt =? DXGI_FORMAT_R8G8B8A8_TYPELESS then 4
  else if fmt =? DXGI_FORMAT_R16G16B16A16_FLOAT then 8
  else if fmt =? DXGI_FORMAT_R16G16_FLOAT then 4
  else if fmt =? DXGI_FORMAT_R16_FLOAT then 2
  else if (fmt =? DXGI_FORMAT_R32G32B32A32_FLOAT) || (fmt =? DXGI_FORMAT_R32G32B32A32_SINT) then 16
  else if (fmt =? DXGI_FORMAT_R32G32_FLOAT) || (fmt =? DXGI_FORMAT_R32G32_SINT) then 8
  else if (fmt =? DXGI_FORMAT_R32_FLOAT) || (fmt =? DXGI_FORMAT_R32_SINT) then 4
  else 0.

Definition d3d9_texel_bytes (fmt : Z) : Z :=
  if fmt =? D3DFMT_A8R8G8B8 then 4
  else if fmt =? D3DFMT_A16B16G16R16F then 8
  else if fmt =? D3DFMT_G16R16F then 4
  else if fmt =? D3DFMT_R16F then 2
  else if fmt =? D3DFMT_A32B32G32R32F then 16
  else if fmt =? D3DFMT_G32R32F then 8
  else if fmt =? D3DFMT_R32F then 4
  else 0.

Definition round_up (n align : Z) : Z :=
  if align <=? 1 then n else ((n + align - 1) / align) * align.

Definition zeros (n : Z) : list byte := repeat "000"%byte (Z.to_nat n).

Definition make_resource (width height texel fmt align cpu : Z) : Resource :=
  let pitch := round_up (width * texel) align in
  mkRes width height texel fmt pitch cpu 1 (zeros (pitch * height)).

Definition create (width height texel fmt cpu : Z) (w : World) : option handle * World :=
  if device_lost w || (texel <=? 0) || (width <=? 0) || (height <=? 0) then (None, w)
  else
    let h := next_handle w in
    (Some h,
     mkWorld (<[h := make_resource width height texel fmt (row_align w) cpu]> (resources w))
             (Pos.succ h) (row_align w) (device_lost w) (gpu_latency w)).

(** Copy [rows] rows of [row_bytes] bytes, from row [i] on. *)
Fixpoint copy_rows (rows : nat) (i : Z) (row_bytes : Z)
    (src : list byte) (src_pitch : Z) (dst : list byte) (dst_pitch : Z) : list byte :=
  match rows with
  | O => dst
  | S k =>
      let dst' := match buf_read src (i * src_pitch) row_bytes with
                  | Some bytes => default dst (buf_write dst (i * dst_pitch) bytes)
                  | None => dst
                  end in
      copy_rows k (i + 1) row_bytes src src_pitch dst' dst_pitch
  end.

(** A GPU-side copy of the whole of [src] into [dst]; it needs resources of
    one size and texel width. *)
Definition copy_resource (dst src : handle) (w : World) : bool * World :=
  match resources w !! dst, resources w !! src with
  | Some d, Some s =>
      if negb (device_lost w) && (res_width d =? res_width s)
         && (res_height d =? res_height s) && (res_texel d =? res_texel s)
      then
        let data := copy_rows (Z.to_nat (res_height s)) 0 (res_width s * res_texel s)
                              (res_data s) (res_pitch s) (res_data d) (res_pitch d) in
        (true, set_resources w
                 (<[dst := mkRes (res_width d) (res_height d) (res_texel d) (res_format d)
                                 (res_pitch d) (res_cpu d) (res_refs d) data]> (resources w)))
      else (false, w)
  | _, _ => (false, w)
  end.

(** Rows [box_top .. box_bottom) of the box, read from [src] with [pitch]
    bytes from one row to the next; [None] when a row leaves [src]. *)
Fixpoint update_rows (rows : nat) (i : Z) (row_bytes left_bytes top : Z)
    (src : list byte) (pitch : Z) (dst : list byte) (dst_pitch : Z) : option (list byte) :=
  match rows with
  | O => Some dst
  | S k =>
      match buf_read src (i * pitch) row_bytes with
      | Some bytes =>
          update_rows k (i + 1) row_bytes left_bytes top src pitch
            (default dst (buf_write dst ((top + i) * dst_pitch + left_bytes) bytes)) dst_pitch
      | None => None
      end
  end.

Definition update_subresource (dst : handle) (box : D3D11_BOX) (src : buffer) (pitch : Z)
    (w : World) : option World :=
  match resources w !! dst with
  | Some d =>
      if (box_left box <=? box_right box) && (box_right box <=? res_width d)
         && (box_top box <=? box_bottom box) && (box_bottom box <=? res_height d)
      then
        data ← update_rows (Z.to_nat (box_bottom box - box_top box)) 0
                  ((box_right box - box_left box) * res_texel d)
                  (box_left box * res_texel d) (box_top box)
                  src pitch (res_data d) (res_pitch d);
        Some (set_resources w
                (<[dst := mkRes (res_width d) (res_height d) (res_texel d) (res_format d)
                                (res_pitch d) (res_cpu d) (res_refs d) data]> (resources w)))
      else Some w
  | None => Some w
  end.

Definition release (h : handle) (w : World) : World :=
  match resources w !! h with
  | Some d =>
      match res_refs d with
      | S (S n) =>
          set_resources w
            (<[h := mkRes (res_width d) (res_height d) (res_texel d) (res_format d)
                          (res_pitch d) (res_cpu d) (S n) (res_data d)]> (resources w))
      | _ => set_resources w (delete h (resources w))
      end
  | None => w
  end.

Definition add_ref (h : handle) (w : World) : option handle * World :=
  match resources w !! h with
  | Some d =>
      if device_lost w then (None, w) else
      (Some h, set_resources w
                 (<[h := mkRes (res_width d) (res_height d) (res_texel d) (res_format d)
                               (res_pitch d) (res_cpu d) (S (res_refs d)) (res_data d)]>
                    (resources w)))
  | None => (None, w)
  end.

Definition map_resource (res : option handle) (how : D3D11_MAP) (w : World)
  : option D3D11_MAPPED_SUBRESOURCE * World :=
  match res with
  | Some h =>
      match resources w !! h with
      | Some d =>
          let flag := match how with
                      | D3D11_MAP_READ => D3D11_CPU_ACCESS_READ
                      | D3D11_MAP_WRITE_DISCARD => D3D11_CPU_ACCESS_WRITE
                      end in
          if negb (device_lost w) && negb (Z.land (res_cpu d) flag =? 0)
          then (Some {| RowPitch := res_pitch d |}, w) else (None, w)
      | None => (None, w)
      end
  | None => (None, w)
  end.

Definition lock_rect (h : handle) (flags : Z) (w : World) : option D3DLOCKED_RECT * World :=
  match resources w !! h with
  | Some d => if device_lost w then (None, w) else (Some {| Pitch := res_pitch d |}, w)
  | None => (None, w)
  end.

Definition load (res : option handle) (off len : Z) (w : World) : option (list byte) :=
  h ← res; d ← resources w !! h; buf_read (res_data d) off len.

Definition store (res : option handle) (off : Z) (bytes : list byte) (w : World)
  : option World :=
  h ← res; d ← resources w !! h; data ← buf_write (res_data d) off bytes;
  Some (set_resources w
          (<[h := mkRes (res_width d) (res_height d) (res_texel d) (res_format d)
                        (res_pitch d) (res_cpu d) (res_refs d) data]> (resources w))).

Definition texture_desc (h : handle) (w : World) : D3D11_TEXTURE2D_DESC :=
  match resources w !! h with
  | Some d => mkTexDesc (res_width d) (res_height d) 1 1 (res_format d) 0 0 (res_cpu d) 0
  | None => mkTexDesc 0 0 0 0 0 0 0 0 0
  end.

Definition buffer_desc (h : handle) (w : World) : D3D11_BUFFER_DESC :=
  match resources w !! h with
  | Some d => mkBufDesc (res_width d) 0 0 (res_cpu d)
  | None => mkBufDesc 0 0 0 0
  end.

Definition driver : Driver World := {|
  Texture2D_GetDesc := texture_desc;
  Buffer_GetDesc := buffer_desc;
  Map := map_resource;
  Unmap := fun _ w => w;
  CopyResource := fun dst src w =>
    match dst with Some d => snd (copy_resource d src w) | None => w end;
  UpdateSubresource := update_subresource;
  End_query := fun w => w;
  GetData_polls := fun w => (gpu_latency w, w);
  CreateTexture2D := fun desc w =>
    create (tex_Width desc) (tex_Height desc) (dxgi_texel_bytes (tex_Format desc))
           (tex_Format desc) (tex_CPUAccessFlags desc) w;
  CreateBuffer := fun desc w =>
    create (buf_ByteWidth desc) 1 1 0 (buf_CPUAccessFlags desc) w;
  Release := release;
  CreateOffscreenPlainSurface := fun width height fmt pool w =>
    create width height (d3d9_texel_bytes fmt) fmt
           (Z.lor D3D11_CPU_ACCESS_READ D3D11_CPU_ACCESS_WRITE) w;
  GetSurfaceLevel := fun tex level w => add_ref tex w;
  GetRenderTargetData := fun src dst w => copy_resource dst src w;
  LockRect := lock_rect;
  UnlockRect := fun _ w => w;
  UpdateSurface := fun src dst w => copy_resource dst src w;
  Issue := fun w => w;
  GetData9 := fun w => (negb (device_lost w), w);
  mapped_load := load;
  mapped_store := store
|}.

End RefDriver.

(** ** The abstract class [GraphicsDevice] and its three implementations *)

Record GraphicsDeviceClass (W : Type) := mkClass {
  Obj : Type;
  v_getDeviceType : M (St Obj W) DeviceType;
  v_sync : M (St Obj W) unit;
  v_readTexture : option buffer -> Z -> option handle -> Z -> Z -> TextureFormat ->
                  M (St Obj W) (Error * option buffer);
  v_writeTexture : option handle -> Z -> Z -> TextureFormat -> option buffer -> Z ->
                   M (St Obj W) Error;
  v_readBuffer : option buffer -> option handle -> Z -> BufferType ->
                 M (St Obj W) (Error * option buffer);
  v_writeBuffer : option handle -> option buffer -> Z -> BufferType -> M (St Obj W) Error
}.
Arguments Obj {W} _.
Arguments v_getDeviceType {W} _.
Arguments v_sync {W} _.
Arguments v_readTexture {W} _.
Arguments v_writeTexture {W} _.
Arguments v_readBuffer {W} _.
Arguments v_writeBuffer {W} _.

Definition class_D3D11 {W} (drv : Driver W) (GetTexelSize : TextureFormat -> Z)
  : GraphicsDeviceClass W :=
  mkClass W D3D11.GraphicsDeviceD3D11 D3D11.getDeviceType (D3D11.sync drv)
          (D3D11.readTexture drv GetTexelSize) (D3D11.writeTexture drv GetTexelSize)
          (D3D11.readBuffer drv) (D3D11.writeBuffer drv).

Definition class_D3D9 {W} (drv : Driver W) (GetTexelSize : TextureFormat -> Z)
  : GraphicsDeviceClass W :=
  mkClass W D3D9.GraphicsDeviceD3D9 D3D9.getDeviceType (D3D9.sync drv)
          (D3D9.readTexture drv GetTexelSize) (D3D9.writeTexture drv GetTexelSize)
          D3D9.readBuffer D3D9.writeBuffer.

Definition class_Vulkan {W} : GraphicsDeviceClass W :=
  mkClass W VulkanDevice.GraphicsDeviceVulkan VulkanDevice.getDeviceType VulkanDevice.sync
          VulkanDevice.readTexture VulkanDevice.writeTexture
          VulkanDevice.readBuffer VulkanDevice.writeBuffer.

Definition backends {W} (drv : Driver W) (GetTexelSize : TextureFormat -> Z)
  : list (GraphicsDeviceClass W) :=
  [class_D3D11 drv GetTexelSize; class_D3D9 drv GetTexelSize; class_Vulkan].

(** [CreateGraphicsDeviceD3D11] refuses a null device; [ctx] and [q] are what
    the driver hands to the constructor. *)
Definition CreateGraphicsDeviceD3D11 (device ctx q : option handle)
  : option D3D11.GraphicsDeviceD3D11 :=
  if is_null device then None else Some (D3D11.GraphicsDeviceD3D11_new device ctx q).

Definition CreateGraphicsDeviceD3D9 (device q : option handle)
  : option D3D9.GraphicsDeviceD3D9 :=
  Some (D3D9.GraphicsDeviceD3D9_new device q).

(** ** Reading the log *)

(** The events a run from [st] added to the log. *)
Definition emitted {Dev W A} (st : St Dev W) (o : outcome (St Dev W) A) : list event :=
  drop (length (trace st)) (trace (final o)).

Definition release_events (entries : stdmap) : list event :=
  map (fun e => EvRelease e.2) entries.

Definition released {W} (drv : Driver W) (entries : stdmap) (w : W) : W :=
  fold_left (fun w e => Release drv e.2 w) entries w.

(** The events of the polling loop of the D3D11 [sync()]. *)
Fixpoint poll_events (n : nat) : list event :=
  match n with
  | O => [EvGetData false]
  | S k => EvGetData true :: EvSleep 100 :: poll_events k
  end.

(** A monitor for the order "GPU copy into a resource, then sync(), then
    map or lock of that resource for reading".  [pending] lists the
    resources that a GPU copy has written since the last call of sync()
    ([End] on D3D11, [Issue] on D3D9); the monitor fails ([None]) when such
    a resource is mapped or locked for reading. *)
Definition monitor_step (pending : list handle) (e : event) : option (list handle) :=
  match e with
  | EvCopyResource (Some dst) _ => Some (dst :: pending)
  | EvGetRenderTargetData _ dst true => Some (dst :: pending)
  | EvEnd | EvIssue => Some []
  | EvMap (Some res) D3D11_MAP_READ _ =>
      if bool_decide (res ∈ pending) then None else Some pending
  | EvLockRect res flags _ =>
      if bool_decide (res ∈ pending) && (flags =? D3DLOCK_READONLY) then None else Some pending
  | _ => Some pending
  end.

Fixpoint monitor (pending : list handle) (evs : list event) : option (list handle) :=
  match evs with
  | [] => Some pending
  | e :: rest =>
      match monitor_step pending e with
      | Some pending' => monitor pending' rest
      | None => None
      end
  end.

Definition sync_between_copy_and_read (evs : list event) : bool :=
  negb (is_null (monitor [] evs)).

(** The caller memory after the copies out of mapped memory that a log
    records, in their order. *)
Fixpoint replay_reads (evs : list event) (dst : buffer) : option buffer :=
  match evs with
  | [] => Some dst
  | EvMemcpyFromMapped _ _ dst_off bytes :: rest =>
      match buf_write dst dst_off bytes with
      | Some dst' => replay_reads rest dst'
      | None => None
      end
  | _ :: rest => replay_reads rest dst
  end.

(** The stores into mapped memory that a log records. *)
Definition stores (evs : list event) : list (option handle * Z * list byte) :=
  omap (fun e => match e with
                 | EvMemcpyToMapped res off bytes => Some (res, off, bytes)
                 | _ => None
                 end) evs.

Definition is_map_or_copy (e : event) : bool :=
  match e with
  | EvMap _ _ _ | EvCopyResource _ _ | EvLockRect _ _ _ | EvGetRenderTargetData _ _ _
  | EvEnd | EvIssue => true
  | _ => false
  end.

(** [emits P m]: whatever the start state and however the run ends, [m]
    only appends to the log, and every event it appends satisfies [P]. *)
Definition emits {Dev W A} (P : event -> Prop) (m : M (St Dev W) A) : Prop :=
  forall st, exists evs, trace (final (m st)) = trace st ++ evs /\ Forall P evs.

Definition quiet (e : event) : Prop := is_map_or_copy e = false.

Definition cache_event (e : event) : Prop :=
  match e with
  | EvRelease _ | EvCreateTexture2D _ _ | EvCreateOffscreenPlainSurface _ _ _ _ => True
  | _ => False
  end.

Definition staging_buffer_event (e : event) : Prop :=
  match e with
  | EvRelease _ | EvCreateBuffer _ _ | EvGetDesc _ | EvLog _ => True
  | _ => False
  end.

Definition copy_out_event (e : event) : Prop :=
  match e with EvMemcpyFromMapped _ _ _ _ => True | _ => False end.

Definition copy_in_event (e : event) : Prop :=
  match e with EvMemcpyToMapped _ _ _ => True | _ => False end.

Definition not_copy_out (e : event) : Prop :=
  match e with EvMemcpyFromMapped _ _ _ _ => False | _ => True end.

Definition not_copy_in (e : event) : Prop :=
  match e with EvMemcpyToMapped _ _ _ => False | _ => True end.

Definition log_event (e : event) : Prop :=
  match e with EvLog _ => True | _ => False end.

(** The state after [clearStagingTextures()]. *)
Definition cleared11 {W} (drv : Driver W) (st : St D3D11.GraphicsDeviceD3D11 W)
  : St D3D11.GraphicsDeviceD3D11 W :=
  mkSt (D3D11.set_staging_textures (this st) [])
       (released drv (D3D11.m_staging_textures (this st)) (gpu st))
       (trace st ++ release_events (D3D11.m_staging_textures (this st))).

Definition cleared9 {W} (drv : Driver W) (st : St D3D9.GraphicsDeviceD3D9 W)
  : St D3D9.GraphicsDeviceD3D9 W :=
  mkSt (D3D9.set_staging_textures (this st) [])
       (released drv (D3D9.m_staging_textures (this st)) (gpu st))
       (trace st ++ release_events (D3D9.m_staging_textures (this st))).

(** The description [getStagingTexture] hands to [CreateTexture2D]. *)
Definition staging_desc (width height : Z) (format : TextureFormat) : D3D11_TEXTURE2D_DESC :=
  mkTexDesc (wrap_u32 width) (wrap_u32 height) 1 1 (D3D11.GetInternalFormatD3D11 format)
            D3D11_USAGE_STAGING 0 (Z.lor D3D11_CPU_ACCESS_READ D3D11_CPU_ACCESS_WRITE) 0.

(** What the driver has to guarantee of [mapped_load]: it answers with as
    many bytes as it was asked for. *)
Definition load_exact {W} (drv : Driver W) : Prop :=
  forall res off len w bytes,
    mapped_load drv res off len w = Some bytes -> Z.of_nat (length bytes) = len.

(** The log of a D3D11 read through a staging resource: events that are
    neither maps nor copies nor syncs, or such events followed by the copy
    into the staging resource, the sync, the map of the staging resource
    and again such events. *)
Definition staged_read_shape (src : handle) (evs : list event) : Prop :=
  Forall quiet evs \/
  exists pre staging n ok post,
    evs = pre ++ EvCopyResource staging src :: EvEnd :: poll_events n
              ++ EvMap staging D3D11_MAP_READ ok :: post /\
    Forall quiet pre /\ Forall quiet post.

(** The log of the D3D9 [readTexture]: the sync comes before the copy into
    the staging surface, and the lock of that surface comes right after the
    copy. *)
Definition d3d9_read_shape (evs : list event) : Prop :=
  exists pre tail, evs = pre ++ tail /\ Forall quiet pre /\
    (tail = [] \/
     exists s_ok mid tail2,
       tail = EvIssue :: EvGetData9 s_ok :: mid ++ tail2 /\ Forall log_event mid /\
       (tail2 = [] \/
        exists src dst copied post,
          tail2 = EvGetRenderTargetData src dst copied :: post /\
          ((copied = false /\ Forall quiet post) \/
           (copied = true /\
            exists ok post',
              post = EvLockRect dst D3DLOCK_READONLY ok :: post' /\ Forall quiet post')))).

(** [steps R m]: every run of [m] relates its start state to its end state
    by [R], for a relation that is a preorder and does not look at the
    driver state or the log. *)
Class Framed {Dev W} (R : St Dev W -> St Dev W -> Prop) : Prop := {
  framed_refl : forall s, R s s;
  framed_trans : forall s1 s2 s3, R s1 s2 -> R s2 s3 -> R s1 s3;
  framed_frame : forall s w tr, R s (mkSt (this s) w tr)
}.

Definition steps {Dev W A} (R : St Dev W -> St Dev W -> Prop) (m : M (St Dev W) A) : Prop :=
  forall st, R st (final (m st)).

Definition cache_bounded11 {W} (s s' : St D3D11.GraphicsDeviceD3D11 W) : Prop :=
  map_size (D3D11.m_staging_textures (this s)) <= 32 ->
  map_size (D3D11.m_staging_textures (this s')) <= 32.

Definition cache_bounded9 {W} (s s' : St D3D9.GraphicsDeviceD3D9 W) : Prop :=
  map_size (D3D9.m_staging_textures (this s)) <= 32 ->
  map_size (D3D9.m_staging_textures (this s')) <= 32.


(** ** Protocols on the log

    A protocol reads a log event by event from a state [x]; [None]: the
    log breaks the protocol. *)
Fixpoint run_protocol {X} (step : X -> event -> option X) (x : X) (evs : list event)
  : option X :=
  match evs with
  | [] => Some x
  | e :: rest =>
      match step x e with
      | Some x' => run_protocol step x' rest
      | None => None
      end
  end.

(** A run from [st] follows a protocol from [x] when its events keep to the
    protocol and, if the run returns, bring the protocol back to [x]. *)
Definition follows {X Dev W A} (step : X -> event -> option X) (x : X)
    (st : St Dev W) (o : outcome (St Dev W) A) : Prop :=
  match run_protocol step x (emitted st o) with
  | Some x' => match o with Ret _ _ => x' = x | Stuck _ _ => True end
  | None => False
  end.

(** [tracks step pre m post]: every run of [m] only appends to the log,
    what it appends keeps to the protocol from [pre], and a run that
    returns [v] leaves the protocol in a state [x'] with [post v x']. *)
Definition tracks {X Dev W A} (step : X -> event -> option X) (pre : X)
    (m : M (St Dev W) A) (post : A -> X -> Prop) : Prop :=
  forall st, exists evs x',
    trace (final (m st)) = trace st ++ evs /\
    run_protocol step pre evs = Some x' /\
    match m st with Ret v _ => post v x' | Stuck _ _ => True end.

(** Mapped memory: a resource is mapped by a [Map] or [LockRect] that
    succeeds and until its [Unmap] or [UnlockRect].  While a resource is
    mapped the log holds nothing but copies from and to its memory; while
    none is mapped the log holds no copy and no unmap. *)
Inductive mapping := Unmapped | Mapped (res : option handle).

Definition mapping_step (m : mapping) (e : event) : option mapping :=
  match m with
  | Unmapped =>
      match e with
      | EvMap res _ true => Some (Mapped res)
      | EvLockRect surf _ true => Some (Mapped (Some surf))
      | EvUnmap _ | EvUnlockRect _
      | EvMemcpyFromMapped _ _ _ _ | EvMemcpyToMapped _ _ _ => None
      | _ => Some Unmapped
      end
  | Mapped held =>
      match e with
      | EvUnmap res => if bool_decide (res = held) then Some Unmapped else None
      | EvUnlockRect surf => if bool_decide (Some surf = held) then Some Unmapped else None
      | EvMemcpyFromMapped res _ _ _ | EvMemcpyToMapped res _ _ =>
          if bool_decide (res = held) then Some m else None
      | _ => None
      end
  end.

(** The surface that [GetSurfaceLevel] hands out carries a reference: it
    is held until its [Release].  While it is held, no other surface level
    is taken and nothing else is released. *)
Inductive level := NoLevel | Level (surf : handle).



#[export] Instance byte_eq_decision : EqDecision byte := Byte.byte_eq_dec.

(** At most one store into mapped memory: the first [size] bytes of
    [data], at offset 0. *)
Definition one_piece_step (data : buffer) (size : Z) (stored : bool) (e : event)
  : option bool :=
  match e with
  | EvMemcpyToMapped _ off bytes =>
      if negb stored && (off =? 0) && bool_decide (buf_read data 0 size = Some bytes)
      then Some true else None
  | _ => Some stored
  end.

Definition create_event (e : event) : Prop :=
  match e with EvCreateOffscreenPlainSurface _ _ _ _ => True | _ => False end.

(** The description [getStagingBuffer] hands to [CreateBuffer]. *)
Definition staging_buffer_desc (type : BufferType) (size : Z) : D3D11_BUFFER_DESC :=
  mkBufDesc (wrap_u32 size) D3D11_USAGE_STAGING (D3D11.staging_bind_flags type)
            (Z.lor D3D11_CPU_ACCESS_WRITE D3D11_CPU_ACCESS_READ).

(** The buffers that the slots of [m_staging_buffers] hold, and the driver
    after the release of a list of objects. *)
Definition held_buffers (slots : list (option handle)) : list handle := omap id slots.

Definition released_handles {W} (drv : Driver W) (hs : list handle) (w : W) : W :=
  fold_left (fun w h => Release drv h w) hs w.

(** The formats that [GetInternalFormatD3D9] and [GetInternalFormatD3D11]
    know. *)
Definition d3d9_formats : list TextureFormat :=
  [RGBAu8; RGBAf16; RGf16; Rf16; RGBAf32; RGf32; Rf32].

Definition d3d11_formats : list TextureFormat :=
  d3d9_formats ++ [RGBAi32; RGi32; Ri32].

(** What a round trip through mapped memory asks of the driver: a load
    returns what was stored, and [Unmap] and [Map] leave the memory of the
    resources as it is. *)
Record coherent {W} (drv : Driver W) : Prop := {
  load_after_store : forall res off bytes w w',
    mapped_store drv res off bytes w = Some w' ->
    mapped_load drv res off (Z.of_nat (length bytes)) w' = Some bytes;
  load_after_Unmap : forall res r off len w,
    mapped_load drv res off len (Unmap drv r w) = mapped_load drv res off len w;
  load_after_Map : forall res r how off len w,
    mapped_load drv res off len (Map drv r how w).2 = mapped_load drv res off len w
}.


(** [returns m Q]: every value that a run of [m] returns satisfies [Q]. *)
Definition returns {S A} (m : M S A) (Q : A -> Prop) : Prop :=
  forall st v st', m st = Ret v st' -> Q v.

(** What a read may answer for a destination [dst]: [OK], or an error in
    [errors] together with the destination as it was. *)
Definition read_answer (errors : list Error) (dst : option buffer)
    (res : Error * option buffer) : Prop :=
  res.1 = OK \/ (In res.1 errors /\ res.2 = dst).


(** ** Concrete runs on the reference driver *)

Module Scenario.
Import RefDriver.

Definition read_write : Z := Z.lor D3D11_CPU_ACCESS_READ D3D11_CPU_ACCESS_WRITE.

(** A driver state whose only resource, with handle 1, is [tex]. *)
Definition world (align : Z) (lost : bool) (tex : Resource) : World :=
  mkWorld {[ 1%positive := tex ]} 2%positive align lost 2%nat.

Definition dev9 : D3D9.GraphicsDeviceD3D9 :=
  D3D9.GraphicsDeviceD3D9_new (Some 100%positive) (Some 101%positive).

Definition dev11 : D3D11.GraphicsDeviceD3D11 :=
  D3D11.GraphicsDeviceD3D11_new (Some 100%positive) (Some 101%positive) (Some 102%positive).

Definition start9 (align : Z) (tex : Resource) : St D3D9.GraphicsDeviceD3D9 World :=
  mkSt dev9 (world align false tex) [].

Definition start11 (align : Z) (lost : bool) (tex : Resource)
  : St D3D11.GraphicsDeviceD3D11 World :=
  mkSt dev11 (world align lost tex) [].

Definition data4 : buffer := ["001"; "002"; "003"; "004"]%byte.
Definition data8 : buffer := ["001"; "002"; "003"; "004"; "005"; "006"; "007"; "008"]%byte.

(** [writeTexture] of [data] into texture 1, then [readTexture] of texture 1
    into a zeroed buffer of the same size. *)
Definition write_then_read9 (format : TextureFormat) (width height : Z) (data : buffer)
  : M (St D3D9.GraphicsDeviceD3D9 World) (Error * (Error * option buffer)) :=
  e <- D3D9.writeTexture driver GetTexelSize_table (Some 1%positive) width height format
                         (Some data) (Z.of_nat (length data));;
  res <- D3D9.readTexture driver GetTexelSize_table (Some (zeros (Z.of_nat (length data))))
                          (Z.of_nat (length data)) (Some 1%positive) width height format;;
  ret (e, res).

Definition write_then_read11 (format : TextureFormat) (width height : Z) (data : buffer)
  : M (St D3D11.GraphicsDeviceD3D11 World) (Error * (Error * option buffer)) :=
  e <- D3D11.writeTexture driver GetTexelSize_table (Some 1%positive) width height format
                          (Some data) (Z.of_nat (length data));;
  res <- D3D11.readTexture driver GetTexelSize_table (Some (zeros (Z.of_nat (length data))))
                           (Z.of_nat (length data)) (Some 1%positive) width height format;;
  ret (e, res).

(** Requests for staging textures of the widths [widths], one after the other. *)
Fixpoint request11 (widths : list Z) : M (St D3D11.GraphicsDeviceD3D11 World) unit :=
  match widths with
  | [] => ret tt
  | width :: rest => D3D11.getStagingTexture driver width 1 Rf32;;; request11 rest
  end.

Fixpoint request9 (widths : list Z) : M (St D3D9.GraphicsDeviceD3D9 World) unit :=
  match widths with
  | [] => ret tt
  | width :: rest => D3D9.findOrCreateStagingTexture driver width 1 Rf32;;; request9 rest
  end.

Definition widths (n : nat) : list Z := map Z.of_nat (seq 1 n).

Definition startV : St VulkanDevice.GraphicsDeviceVulkan World :=
  mkSt VulkanDevice.mkDev (world 1 false (make_resource 1 1 4 0 1 0)) [].

Definition tex_1x1 : Resource := make_resource 1 1 4 DXGI_FORMAT_R32_FLOAT 1 read_write.

(** The device after 32 requests for 32 sizes. *)
Definition full11 : St D3D11.GraphicsDeviceD3D11 World :=
  final (request11 (widths 32) (start11 1 false tex_1x1)).

Definition full9 : St D3D9.GraphicsDeviceD3D9 World :=
  final (request9 (widths 32) (start9 1 tex_1x1)).

(** A texture of 1 x 2 texels of two bytes whose rows start at multiples
    of 4 bytes: the rows [1 2] and [3 4], each followed by two bytes of
    padding. *)
Definition padded_tex : Resource :=
  mkRes 1 2 2 DXGI_FORMAT_R16_FLOAT 4 read_write 1
        ["001"; "002"; "009"; "009"; "003"; "004"; "009"; "009"]%byte.

(** A buffer of four bytes and a texture of 1 x 2 texels of two bytes with
    tight rows, both CPU-readable and CPU-writable. *)
Definition buf_4 : Resource := make_resource 4 1 1 0 1 read_write.

Definition tight_tex : Resource := make_resource 1 2 2 DXGI_FORMAT_R16_FLOAT 1 read_write.

Definition devmp : MpD3D9.mpGraphicsDeviceD3D9 :=
  MpD3D9.mpGraphicsDeviceD3D9_new (Some 100%positive).

Definition startmp (align : Z) (tex : Resource) : St MpD3D9.mpGraphicsDeviceD3D9 World :=
  mkSt devmp (world align false tex) [].

(** Requests for staging surfaces of the heights [heights]. *)
Fixpoint requestmp (heights : list Z) : M (St MpD3D9.mpGraphicsDeviceD3D9 World) unit :=
  match heights with
  | [] => ret tt
  | height :: rest => MpD3D9.findOrCreateStagingTexture driver 4 height;;; requestmp rest
  end.

End Scenario.

(** * Properties *)

(** ** Machine integers and the cache key *)

Lemma wrap_int_small z : - 2 ^ 31 <= z < 2 ^ 31 -> wrap_int z = z.
Proof. intros H. unfold wrap_int. rewrite Z.mod_small; lia. Qed.

Lemma wrap_u64_small z : 0 <= z < 2 ^ 64 -> wrap_u64 z = z.
Proof. intros H. unfold wrap_u64. apply Z.mod_small; lia. Qed.

Lemma wrap_u32_small z : 0 <= z < 2 ^ 32 -> wrap_u32 z = z.
Proof. intros H. unfold wrap_u32. apply Z.mod_small; lia. Qed.

Lemma staging_hash_in_range width height fmt :
  0 <= width < 2 ^ 16 -> 0 <= height < 2 ^ 15 -> 0 <= fmt < 2 ^ 32 ->
  staging_hash width height fmt = width + height * 2 ^ 16 + fmt * 2 ^ 32.
Proof.
  intros Hw Hh Hf. unfold staging_hash, int_add, int_shl.
  rewrite !Z.shiftl_mul_pow2 by lia.
  rewrite (wrap_u64_small fmt) by lia.
  rewrite (wrap_int_small (height * 2 ^ 16)) by lia.
  rewrite (wrap_int_small (width + _)) by lia.
  rewrite (wrap_u64_small (fmt * 2 ^ 32)) by lia.
  apply wrap_u64_small. lia.
Qed.

Lemma map_size_insert m k v : map_size (map_insert m k v) <= map_size m + 1.
Proof.
  unfold map_size. induction m as [|[k' v'] rest IH]; simpl; [lia|].
  destruct (k <? k'); simpl; [lia|]. destruct (k' =? k); simpl; lia.
Qed.

(** ** Texel channel order *)

Section Swap.
Context {T : Type}.
Implicit Types (data dst src : list (RGBA T)) (p : RGBA T).

Lemma swap_r_b_involutive p : swap_r_b (swap_r_b p) = p.
Proof. by destruct p. Qed.

Lemma BGRA_RGBA_loop_lookup data (i todo : nat) :
  (i + todo <= length data)%nat ->
  exists out, BGRA_RGBA_loop data i todo = Some out /\
    length out = length data /\
    forall j : nat, out !! j =
      if decide (i <= j < i + todo)%nat then swap_r_b <$> data !! j else data !! j.
Proof.
  revert data i. induction todo as [|k IH]; intros data i Hlen; simpl.
  - exists data. split; [done|]. split; [done|]. intros j. case_decide; [lia | done].
  - destruct (lookup_lt_is_Some_2 data i) as [p Hp]; [lia|]. rewrite Hp.
    destruct (IH (<[i := swap_r_b p]> data) (S i)) as (out & Hout & Hl & Hj).
    { rewrite length_insert. lia. }
    exists out. split; [done|]. split; [by rewrite Hl, length_insert|].
    intros j. rewrite Hj. destruct (decide (j = i)) as [->|Hne].
    + rewrite list_lookup_insert_eq by lia. rewrite Hp. simpl.
      repeat case_decide; try lia; done.
    + rewrite list_lookup_insert_ne by done.
      repeat case_decide; try lia; done.
Qed.

Lemma prefix_mapped_eq (f : RGBA T -> RGBA T) (n : nat) (out l1 l2 : list (RGBA T)) :
  (n <= length l1)%nat ->
  (forall j : nat, out !! j = if decide (0 <= j < 0 + n)%nat then f <$> l1 !! j else l2 !! j) ->
  out = map f (take n l1) ++ drop n l2.
Proof.
  intros Hn Hj. apply list_eq. intros j. rewrite Hj.
  destruct (decide (j < n)%nat) as [Hlt|Hge].
  - rewrite decide_True by lia.
    rewrite lookup_app_l by (rewrite length_map, length_take; lia).
    rewrite list_lookup_fmap. by rewrite lookup_take_lt by lia.
  - rewrite decide_False by lia.
    rewrite lookup_app_r by (rewrite length_map, length_take; lia).
    rewrite length_map, length_take, lookup_drop. f_equal. lia.
Qed.

Lemma BGRA_RGBA_conversion_Some data (n : Z) :
  n <= Z.of_nat (length data) ->
  BGRA_RGBA_conversion data n =
    Some (map swap_r_b (take (Z.to_nat n) data) ++ drop (Z.to_nat n) data).
Proof.
  intros Hn. unfold BGRA_RGBA_conversion.
  destruct (BGRA_RGBA_loop_lookup data 0 (Z.to_nat n)) as (out & -> & Hl & Hj); [lia|].
  f_equal. apply prefix_mapped_eq; [lia | done].
Qed.

Lemma copy_with_BGRA_RGBA_loop_lookup dst src (i todo : nat) :
  (i + todo <= length dst)%nat -> (i + todo <= length src)%nat ->
  exists out, copy_with_BGRA_RGBA_loop dst src i todo = Some out /\
    length out = length dst /\
    forall j : nat, out !! j =
      if decide (i <= j < i + todo)%nat then swap_r_b <$> src !! j else dst !! j.
Proof.
  revert dst i. induction todo as [|k IH]; intros dst i Hd Hs; simpl.
  - exists dst. split; [done|]. split; [done|]. intros j. case_decide; [lia | done].
  - destruct (lookup_lt_is_Some_2 dst i) as [p Hp]; [lia|]. rewrite Hp.
    destruct (lookup_lt_is_Some_2 src i) as [s Hsrc]; [lia|]. rewrite Hsrc.
    destruct (IH (<[i := mkRGBA (b s) (g s) (r s) (a s)]> dst) (S i))
      as (out & Hout & Hl & Hj).
    { rewrite length_insert. lia. } { lia. }
    exists out. split; [done|]. split; [by rewrite Hl, length_insert|].
    intros j. rewrite Hj. destruct (decide (j = i)) as [->|Hne].
    + rewrite list_lookup_insert_eq by lia. rewrite Hsrc. simpl.
      repeat case_decide; try lia; done.
    + rewrite list_lookup_insert_ne by done.
      repeat case_decide; try lia; done.
Qed.

Lemma copy_with_BGRA_RGBA_conversion_Some dst src (n : Z) :
  n <= Z.of_nat (length dst) -> n <= Z.of_nat (length src) ->
  copy_with_BGRA_RGBA_conversion dst src n =
    Some (map swap_r_b (take (Z.to_nat n) src) ++ drop (Z.to_nat n) dst).
Proof.
  intros Hd Hs. unfold copy_with_BGRA_RGBA_conversion.
  destruct (copy_with_BGRA_RGBA_loop_lookup dst src 0 (Z.to_nat n))
    as (out & -> & Hl & Hj); [lia|lia|].
  f_equal. apply prefix_mapped_eq; [lia | done].
Qed.

(** A conversion that ran stayed inside its arrays. *)
Lemma BGRA_RGBA_loop_inv data (i todo : nat) out :
  BGRA_RGBA_loop data i todo = Some out -> todo = O \/ (i + todo <= length data)%nat.
Proof.
  revert data i. induction todo as [|k IH]; intros data i H; [by left|right].
  simpl in H. destruct (data !! i) as [p|] eqn:Hp; [|done].
  apply lookup_lt_Some in Hp. apply IH in H. rewrite length_insert in H. lia.
Qed.

Lemma copy_with_BGRA_RGBA_loop_inv dst src (i todo : nat) out :
  copy_with_BGRA_RGBA_loop dst src i todo = Some out ->
  todo = O \/ ((i + todo <= length dst)%nat /\ (i + todo <= length src)%nat).
Proof.
  revert dst i. induction todo as [|k IH]; intros dst i H; [by left|right].
  simpl in H. destruct (dst !! i) as [p|] eqn:Hp; [|done].
  destruct (src !! i) as [s|] eqn:Hs; [|done].
  apply lookup_lt_Some in Hp. apply lookup_lt_Some in Hs.
  apply IH in H. rewrite length_insert in H. lia.
Qed.

End Swap.

Lemma texels_of_bytes_length {T} (l : list T) :
  length (texels_of_bytes l) = (length l / 4)%nat.
Proof.
  remember (length l) as n eqn:Hn. revert l Hn.
  induction n as [n IH] using lt_wf_ind. intros l Hn.
  destruct l as [|x [|y [|z [|w rest]]]]; subst; try done.
  cbn [texels_of_bytes length].
  rewrite (IH (length rest)); [|simpl; lia|done].
  replace (S (S (S (S (length rest))))) with (1 * 4 + length rest)%nat by lia.
  rewrite Nat.div_add_l by lia. lia.
Qed.

Lemma bytes_of_texels_of_bytes {T} (l : list T) :
  bytes_of_texels (texels_of_bytes l) ++ tail_bytes l = l.
Proof.
  unfold tail_bytes. remember (length l) as n eqn:Hn. revert l Hn.
  induction n as [n IH] using lt_wf_ind. intros l Hn.
  destruct l as [|x [|y [|z [|w rest]]]]; subst; try done.
  cbn [texels_of_bytes length bytes_of_texels flat_map app r g b a].
  replace (4 * S (length (texels_of_bytes rest)))%nat
    with (4 + 4 * length (texels_of_bytes rest))%nat by lia.
  cbn [drop Nat.add].
  do 4 f_equal.
  by apply (IH (length rest)); [simpl; lia|].
Qed.

Lemma bytes_of_texels_length {T} (l : list (RGBA T)) :
  length (bytes_of_texels l) = (4 * length l)%nat.
Proof. induction l as [|p l IH]; simpl; lia. Qed.

Lemma texels_of_bytes_of_texels {T} (l : list (RGBA T)) :
  texels_of_bytes (bytes_of_texels l) = l.
Proof. induction l as [|[x y z w] l IH]; simpl; [done|]. by rewrite IH. Qed.

(** ** Running device methods *)

Ltac prims :=
  unfold deref, defined, size_t_div in *;
  unfold bind, ret, halt, get_this, set_this, log, query, call, call_, access, ask,
         set_gpu in *.

Ltac break_match :=
  match goal with
  | |- context [match ?x with _ => _ end] =>
      lazymatch x with
      | context [match _ with _ => _ end] => fail
      | _ => destruct x eqn:?
      end
  end.

Lemma St_eta {Dev W} (st : St Dev W) : mkSt (this st) (gpu st) (trace st) = st.
Proof. by destruct st. Qed.

Lemma emitted_app {Dev W A} (st : St Dev W) (o : outcome (St Dev W) A) evs :
  trace (final o) = trace st ++ evs -> emitted st o = evs.
Proof. intros H. unfold emitted. rewrite H. by rewrite drop_app_length. Qed.

Section Emits.
Context {Dev W : Type} (P : event -> Prop).
Local Abbreviation Prog := (M (St Dev W)).

Lemma emits_silent {A} (m : Prog A) :
  (forall st, trace (final (m st)) = trace st) -> emits P m.
Proof. intros H st. exists []. rewrite H, app_nil_r. by split. Qed.

Lemma emits_ret {A} (x : A) : emits P (ret x : Prog A).
Proof. by apply emits_silent. Qed.

Lemma emits_halt {A} why : emits P (halt why : Prog A).
Proof. by apply emits_silent. Qed.

Lemma emits_get_this : emits P (get_this : Prog Dev).
Proof. by apply emits_silent. Qed.

Lemma emits_set_this d : emits P (set_this d : Prog unit).
Proof. by apply emits_silent. Qed.

Lemma emits_set_gpu w : emits P (set_gpu w : Prog unit).
Proof. by apply emits_silent. Qed.

Lemma emits_access {A} (f : W -> option A) : emits P (access f : Prog A).
Proof. apply emits_silent. intros st. unfold access. by destruct (f _). Qed.

Lemma emits_ask {A} (f : W -> A * W) : emits P (ask f : Prog A).
Proof. apply emits_silent. intros st. unfold ask. by destruct (f _). Qed.

Lemma emits_defined {A} (o : option A) why : emits P (defined o why : Prog A).
Proof. apply emits_silent. intros st. by destruct o. Qed.

Lemma emits_deref p : emits P (deref p : Prog handle).
Proof. apply emits_silent. intros st. by destruct p. Qed.

Lemma emits_size_t_div x y : emits P (size_t_div x y : Prog Z).
Proof. apply emits_silent. intros st. unfold size_t_div. by destruct (_ =? _). Qed.

Lemma emits_log e : P e -> emits P (log e : Prog unit).
Proof. intros H st. exists [e]. split; [done|]. by constructor. Qed.

Lemma emits_query {A} e (f : W -> A) : P e -> emits P (query e f : Prog A).
Proof. intros H st. exists [e]. split; [done|]. by constructor. Qed.

Lemma emits_call_ e (f : W -> W) : P e -> emits P (call_ e f : Prog unit).
Proof. intros H st. exists [e]. split; [done|]. by constructor. Qed.

Lemma emits_call {A} (e : A -> event) (f : W -> A * W) :
  (forall x, P (e x)) -> emits P (call e f : Prog A).
Proof.
  intros H st. unfold call. destruct (f _) as [x w]. exists [e x].
  split; [done|]. by constructor.
Qed.

Lemma emits_bind {A B} (m : Prog A) (k : A -> Prog B) :
  emits P m -> (forall x, emits P (k x)) -> emits P (bind m k).
Proof.
  intros Hm Hk st. unfold bind. destruct (Hm st) as (e1 & H1 & F1).
  destruct (m st) as [x s1|why s1]; simpl in H1.
  - destruct (Hk x s1) as (e2 & H2 & F2). exists (e1 ++ e2).
    rewrite H2, H1, app_assoc. split; [done|]. by apply Forall_app.
  - exists e1. by split.
Qed.

Lemma emits_weaken {A} (Q : event -> Prop) (m : Prog A) :
  (forall e, Q e -> P e) -> emits Q m -> emits P m.
Proof.
  intros HQ Hm st. destruct (Hm st) as (evs & H & F). exists evs. split; [done|].
  eapply Forall_impl; eauto.
Qed.
End Emits.

Ltac emits_step :=
  lazymatch goal with
  | |- emits _ (bind _ _) => apply emits_bind; [|intros ?]
  | |- emits _ (ret _) => apply emits_ret
  | |- emits _ (halt _) => apply emits_halt
  | |- emits _ get_this => apply emits_get_this
  | |- emits _ (set_this _) => apply emits_set_this
  | |- emits _ (set_gpu _) => apply emits_set_gpu
  | |- emits _ (access _) => apply emits_access
  | |- emits _ (ask _) => apply emits_ask
  | |- emits _ (defined _ _) => apply emits_defined
  | |- emits _ (deref _) => apply emits_deref
  | |- emits _ (size_t_div _ _) => apply emits_size_t_div
  | |- emits _ (log _) => apply emits_log
  | |- emits _ (query _ _) => apply emits_query
  | |- emits _ (call_ _ _) => apply emits_call_
  | |- emits _ (call _ _) => apply emits_call; intros ?
  | |- emits _ (match ?x with _ => _ end) => destruct x
  | |- emits _ (let _ := _ in _) => cbv zeta
  end.

Ltac emits_tac := repeat first [emits_step | done].

(** What the copies between caller memory and mapped memory append. *)
Section Copies.
Context {Dev W : Type} (drv : Driver W) (P : event -> Prop).

Lemma emits_memcpy_from_mapped dst doff res soff size :
  (forall x y z u, P (EvMemcpyFromMapped x y z u)) ->
  emits (Dev:=Dev) P (memcpy_from_mapped drv dst doff res soff size).
Proof. intros H. unfold memcpy_from_mapped. emits_tac. Qed.

Lemma emits_memcpy_to_mapped res doff src soff size :
  (forall x y z, P (EvMemcpyToMapped x y z)) ->
  emits (Dev:=Dev) P (memcpy_to_mapped drv res doff src soff size).
Proof. intros H. unfold memcpy_to_mapped. emits_tac. Qed.

Lemma emits_read_rows rows dst doff res soff size dp sp :
  (forall x y z u, P (EvMemcpyFromMapped x y z u)) ->
  emits (Dev:=Dev) P (read_rows drv rows dst doff res soff size dp sp).
Proof.
  intros H. revert dst doff soff. induction rows as [|k IH]; intros; simpl.
  - emits_tac.
  - apply emits_bind; [by apply emits_memcpy_from_mapped | intros; apply IH].
Qed.

Lemma emits_write_rows rows res doff src soff size dp sp :
  (forall x y z, P (EvMemcpyToMapped x y z)) ->
  emits (Dev:=Dev) P (write_rows drv rows res doff src soff size dp sp).
Proof.
  intros H. revert doff soff. induction rows as [|k IH]; intros; simpl.
  - emits_tac.
  - apply emits_bind; [by apply emits_memcpy_to_mapped | intros; apply IH].
Qed.

(** A copy out of mapped memory that returns has left the device and the
    driver state alone, and the log holds what it wrote to caller memory. *)
Lemma memcpy_from_mapped_ret dst doff res soff size (st st' : St Dev W) dst' :
  memcpy_from_mapped drv dst doff res soff size st = Ret dst' st' ->
  exists d bytes d',
    dst = Some d /\ buf_write d doff bytes = Some d' /\ dst' = Some d' /\
    st' = mkSt (this st) (gpu st) (trace st ++ [EvMemcpyFromMapped res soff doff bytes]).
Proof.
  unfold memcpy_from_mapped. prims. intros H.
  destruct dst as [d|]; [|done].
  destruct (mapped_load drv res soff size (gpu st)) as [bytes|]; [|done].
  destruct (buf_write d doff bytes) as [d'|] eqn:Hw; [|done].
  inversion H; subst. by exists d, bytes, d'.
Qed.

Lemma read_rows_ret rows d doff res soff size dp sp (st st' : St Dev W) dst' :
  read_rows drv rows (Some d) doff res soff size dp sp st = Ret dst' st' ->
  exists evs d',
    dst' = Some d' /\ replay_reads evs d = Some d' /\ Forall copy_out_event evs /\
    st' = mkSt (this st) (gpu st) (trace st ++ evs).
Proof.
  revert d doff soff st. induction rows as [|k IH]; intros d doff soff st; simpl.
  - intros H. inversion H; subst. exists [], d. rewrite app_nil_r, St_eta. by repeat split.
  - unfold bind at 1.
    destruct (memcpy_from_mapped drv (Some d) doff res soff size st) as [x s1|] eqn:E; [|done].
    apply memcpy_from_mapped_ret in E as (d0 & bytes & d1 & Hd & Hw & -> & ->).
    inversion Hd; subst d0. intros H. apply IH in H as (evs & d' & -> & Hr & F & ->).
    exists (EvMemcpyFromMapped res soff doff bytes :: evs), d'. simpl. rewrite Hw.
    split; [done|]. split; [done|]. split; [by constructor|].
    by rewrite <- app_assoc.
Qed.
End Copies.

Lemma replay_reads_app l1 l2 d :
  replay_reads (l1 ++ l2) d =
  match replay_reads l1 d with Some d' => replay_reads l2 d' | None => None end.
Proof.
  revert d. induction l1 as [|e l1 IH]; intros d; simpl; [done|].
  destruct e; try apply IH. destruct (buf_write d dst_off bytes); [apply IH | done].
Qed.

Lemma replay_reads_skip l d : Forall not_copy_out l -> replay_reads l d = Some d.
Proof.
  induction 1 as [|e l He _ IH]; simpl; [done|]. by destruct e.
Qed.

Lemma stores_app l1 l2 : stores (l1 ++ l2) = stores l1 ++ stores l2.
Proof. unfold stores. apply omap_app. Qed.

Lemma stores_skip l : Forall not_copy_in l -> stores l = [].
Proof.
  induction 1 as [|e l He _ IH]; simpl; [done|]. destruct e; try done.
Qed.

Lemma monitor_app l1 l2 p :
  monitor p (l1 ++ l2) =
  match monitor p l1 with Some p' => monitor p' l2 | None => None end.
Proof.
  revert p. induction l1 as [|e l1 IH]; intros p; simpl; [done|].
  destruct (monitor_step p e); [apply IH | done].
Qed.

Lemma monitor_quiet l p : Forall quiet l -> monitor p l = Some p.
Proof.
  induction 1 as [|e l He _ IH]; simpl; [done|].
  destruct e; try done; simpl; try apply IH.
Qed.

Lemma poll_events_quiet n : Forall quiet (poll_events n).
Proof. induction n; simpl; repeat constructor; done. Qed.

Lemma release_events_cache entries : Forall cache_event (release_events entries).
Proof. unfold release_events. induction entries; simpl; by constructor. Qed.

Lemma cache_event_quiet e : cache_event e -> quiet e.
Proof. by destruct e. Qed.

Lemma copy_out_event_quiet e : copy_out_event e -> quiet e.
Proof. by destruct e. Qed.

(** ** The staging-texture caches *)

Section Cache11.
Import D3D11.
Context {W : Type} (drv : Driver W).
Implicit Types st : St GraphicsDeviceD3D11 W.

Lemma release_all_run11 entries st :
  release_all drv entries st =
  Ret tt (mkSt (this st) (released drv entries (gpu st)) (trace st ++ release_events entries)).
Proof.
  revert st. induction entries as [|[k tex] rest IH]; intros st; simpl.
  - unfold ret, released, release_events. simpl. by rewrite app_nil_r, St_eta.
  - prims. rewrite IH. simpl. unfold released, release_events. simpl.
    by rewrite <- app_assoc.
Qed.

Lemma clearStagingTextures_run11 st : clearStagingTextures drv st = Ret tt (cleared11 drv st).
Proof. unfold clearStagingTextures. prims. by rewrite release_all_run11. Qed.

Lemma poll_run n st :
  poll n st = Ret tt (mkSt (this st) (gpu st) (trace st ++ poll_events n)).
Proof.
  revert st. induction n as [|k IH]; intros st; simpl; prims; [done|].
  rewrite IH. simpl. by rewrite <- !app_assoc.
Qed.

Lemma sync_run11 st :
  sync drv st =
  match m_context (this st) with
  | None => Stuck NullDeref st
  | Some _ =>
      let '(n, w) := GetData_polls drv (End_query drv (gpu st)) in
      Ret tt (mkSt (this st) w (trace st ++ EvEnd :: poll_events n))
  end.
Proof.
  unfold sync. prims. destruct (m_context (this st)); [|done]. simpl.
  destruct (GetData_polls drv _) as [n w]. rewrite poll_run. simpl.
  by rewrite <- app_assoc.
Qed.

Lemma getStagingTexture_run width height format st :
  getStagingTexture drv width height format st =
  let st1 := if map_size (m_staging_textures (this st)) >=? D3D11MaxStagingTextures
             then cleared11 drv st else st in
  let hash := staging_hash width height (GetInternalFormatD3D11 format) in
  match map_find (m_staging_textures (this st1)) hash with
  | Some tex => Ret (Some tex) st1
  | None =>
      match m_device (this st1) with
      | None => Stuck NullDeref st1
      | Some _ =>
          let '(created, w) := CreateTexture2D drv (staging_desc width height format) (gpu st1) in
          Ret created
              (mkSt match created with
                    | Some tex => set_staging_textures (this st1)
                                    (map_insert (m_staging_textures (this st1)) hash tex)
                    | None => this st1
                    end
                    w (trace st1 ++ [EvCreateTexture2D (staging_desc width height format) created]))
      end
  end.
Proof.
  unfold getStagingTexture. unfold bind at 1. unfold get_this at 1.
  unfold bind at 1.
  destruct (map_size _ >=? _).
  - rewrite clearStagingTextures_run11. prims. simpl.
    destruct (m_device (this st)); [|done].
    unfold staging_desc. destruct (CreateTexture2D drv _ _) as [[tex|] w]; reflexivity.
  - prims. cbv zeta. destruct (map_find _ _); [done|].
    destruct (m_device (this st)); [|done].
    unfold staging_desc. destruct (CreateTexture2D drv _ _) as [[tex|] w]; reflexivity.
Qed.

Lemma emits_getStagingTexture width height format :
  emits cache_event (getStagingTexture drv width height format).
Proof.
  intros st. rewrite getStagingTexture_run. cbv zeta.
  assert (Hst1 : exists evs, trace (if map_size (m_staging_textures (this st))
                                        >=? D3D11MaxStagingTextures
                                     then cleared11 drv st else st) = trace st ++ evs
                             /\ Forall cache_event evs).
  { destruct (_ >=? _); simpl.
    - eexists. split; [done|]. apply release_events_cache.
    - exists []. by rewrite app_nil_r. }
  destruct Hst1 as (evs & Ht & F).
  destruct (map_find _ _); simpl; [by exists evs|].
  destruct (m_device _); simpl; [|by exists evs].
  destruct (CreateTexture2D drv _ _) as [created w]. simpl.
  eexists. rewrite Ht, <- app_assoc. split; [done|].
  apply Forall_app. split; [done|]. by repeat constructor.
Qed.

(** The cache of the D3D11 device: at most 32 entries stay at most 32, and
    a full cache is released entry by entry before anything else happens. *)
Lemma getStagingTexture_bound width height format st :
  let o := getStagingTexture drv width height format st in
  let cache := m_staging_textures (this st) in
  let cache' := m_staging_textures (this (final o)) in
  (map_size cache <= 32 -> map_size cache' <= 32) /\
  (32 <= map_size cache ->
   exists evs, emitted st o = release_events cache ++ evs /\
     ((cache' = [] /\
       (evs = [] \/ evs = [EvCreateTexture2D (staging_desc width height format) None])) \/
      (exists tex,
          cache' = [(staging_hash width height (GetInternalFormatD3D11 format), tex)] /\
          evs = [EvCreateTexture2D (staging_desc width height format) (Some tex)] /\
          returned o = Some (Some tex)))).
Proof.
  cbv zeta. rewrite getStagingTexture_run. cbv zeta. unfold D3D11MaxStagingTextures.
  destruct (Z.geb_spec (map_size (m_staging_textures (this st))) 32) as [Hfull|Hroom].
  - simpl. destruct (m_device (this st)); simpl.
    + destruct (CreateTexture2D drv _ _) as [[tex|] w]; simpl.
      * split; [unfold map_size; simpl; lia|]. intros _. eexists. split.
        { apply emitted_app. simpl. by rewrite <- app_assoc. }
        right. by exists tex.
      * split; [unfold map_size; simpl; lia|]. intros _. eexists. split.
        { apply emitted_app. simpl. by rewrite <- app_assoc. }
        left. split; [done | by right].
    + split; [unfold map_size; simpl; lia|]. intros _. exists []. split.
      { apply emitted_app. simpl. by rewrite app_nil_r. }
      left. split; [done | by left].
  - split; [|lia]. intros _.
    destruct (map_find _ _); simpl; [lia|].
    destruct (m_device (this st)); simpl; [|lia].
    destruct (CreateTexture2D drv _ _) as [[tex|] w]; simpl; [|lia].
    pose proof (map_size_insert (m_staging_textures (this st))
                  (staging_hash width height (GetInternalFormatD3D11 format)) tex). lia.
Qed.
End Cache11.

Section Cache9.
Import D3D9.
Context {W : Type} (drv : Driver W).
Implicit Types st : St GraphicsDeviceD3D9 W.

Lemma release_all_run9 entries st :
  release_all drv entries st =
  Ret tt (mkSt (this st) (released drv entries (gpu st)) (trace st ++ release_events entries)).
Proof.
  revert st. induction entries as [|[k tex] rest IH]; intros st; simpl.
  - unfold ret, released, release_events. simpl. by rewrite app_nil_r, St_eta.
  - prims. rewrite IH. simpl. unfold released, release_events. simpl.
    by rewrite <- app_assoc.
Qed.

Lemma clearStagingTextures_run9 st : clearStagingTextures drv st = Ret tt (cleared9 drv st).
Proof. unfold clearStagingTextures. prims. by rewrite release_all_run9. Qed.

Lemma findOrCreateStagingTexture_run width height format st :
  findOrCreateStagingTexture drv width height format st =
  let st1 := if map_size (m_staging_textures (this st)) >=? D3D9MaxStagingTextures
             then cleared9 drv st else st in
  let internal_format := GetInternalFormatD3D9 format in
  let hash := staging_hash width height internal_format in
  if internal_format =? D3DFMT_UNKNOWN then Ret None st1 else
  match map_find (m_staging_textures (this st1)) hash with
  | Some surf => Ret (Some surf) st1
  | None =>
      match m_device (this st1) with
      | None => Stuck NullDeref st1
      | Some _ =>
          let '(created, w) := CreateOffscreenPlainSurface drv width height internal_format
                                 D3DPOOL_SYSTEMMEM (gpu st1) in
          Ret created
              (mkSt match created with
                    | Some surf => set_staging_textures (this st1)
                                     (map_insert (m_staging_textures (this st1)) hash surf)
                    | None => this st1
                    end
                    w (trace st1 ++ [EvCreateOffscreenPlainSurface width height
                                       internal_format created]))
      end
  end.
Proof.
  unfold findOrCreateStagingTexture. unfold bind at 1. unfold get_this at 1.
  unfold bind at 1. cbv zeta.
  destruct (map_size _ >=? _).
  - rewrite clearStagingTextures_run9. destruct (_ =? D3DFMT_UNKNOWN); [done|].
    prims. simpl. destruct (m_device (this st)); [|done].
    destruct (CreateOffscreenPlainSurface drv _ _ _ _ _) as [[surf|] w]; reflexivity.
  - destruct (_ =? D3DFMT_UNKNOWN); [done|].
    prims. destruct (map_find _ _); [done|].
    destruct (m_device (this st)); [|done].
    destruct (CreateOffscreenPlainSurface drv _ _ _ _ _) as [[surf|] w]; reflexivity.
Qed.

Lemma emits_findOrCreateStagingTexture width height format :
  emits cache_event (findOrCreateStagingTexture drv width height format).
Proof.
  intros st. rewrite findOrCreateStagingTexture_run. cbv zeta.
  assert (Hst1 : exists evs, trace (if map_size (m_staging_textures (this st))
                                        >=? D3D9MaxStagingTextures
                                     then cleared9 drv st else st) = trace st ++ evs
                             /\ Forall cache_event evs).
  { destruct (_ >=? _); simpl.
    - eexists. split; [done|]. apply release_events_cache.
    - exists []. by rewrite app_nil_r. }
  destruct Hst1 as (evs & Ht & F).
  destruct (_ =? D3DFMT_UNKNOWN); simpl; [by exists evs|].
  destruct (map_find _ _); simpl; [by exists evs|].
  destruct (m_device _); simpl; [|by exists evs].
  destruct (CreateOffscreenPlainSurface drv _ _ _ _ _) as [created w]. simpl.
  eexists. rewrite Ht, <- app_assoc. split; [done|].
  apply Forall_app. split; [done|]. by repeat constructor.
Qed.

Lemma findOrCreateStagingTexture_bound width height format st :
  let o := findOrCreateStagingTexture drv width height format st in
  let cache := m_staging_textures (this st) in
  let cache' := m_staging_textures (this (final o)) in
  let internal_format := GetInternalFormatD3D9 format in
  (map_size cache <= 32 -> map_size cache' <= 32) /\
  (32 <= map_size cache ->
   exists evs, emitted st o = release_events cache ++ evs /\
     ((cache' = [] /\
       (evs = [] \/
        evs = [EvCreateOffscreenPlainSurface width height internal_format None])) \/
      (exists surf,
          cache' = [(staging_hash width height internal_format, surf)] /\
          evs = [EvCreateOffscreenPlainSurface width height internal_format (Some surf)] /\
          returned o = Some (Some surf)))).
Proof.
  cbv zeta. rewrite findOrCreateStagingTexture_run. cbv zeta. unfold D3D9MaxStagingTextures.
  destruct (Z.geb_spec (map_size (m_staging_textures (this st))) 32) as [Hfull|Hroom].
  - destruct (_ =? D3DFMT_UNKNOWN); simpl.
    { split; [unfold map_size; simpl; lia|]. intros _. exists []. split.
      { apply emitted_app. simpl. by rewrite app_nil_r. }
      left. split; [done | by left]. }
    destruct (m_device (this st)); simpl.
    + destruct (CreateOffscreenPlainSurface drv _ _ _ _ _) as [[surf|] w]; simpl.
      * split; [unfold map_size; simpl; lia|]. intros _. eexists. split.
        { apply emitted_app. simpl. by rewrite <- app_assoc. }
        right. by exists surf.
      * split; [unfold map_size; simpl; lia|]. intros _. eexists. split.
        { apply emitted_app. simpl. by rewrite <- app_assoc. }
        left. split; [done | by right].
    + split; [unfold map_size; simpl; lia|]. intros _. exists []. split.
      { apply emitted_app. simpl. by rewrite app_nil_r. }
      left. split; [done | by left].
  - split; [|lia]. intros _.
    destruct (_ =? D3DFMT_UNKNOWN); simpl; [lia|].
    destruct (map_find _ _); simpl; [lia|].
    destruct (m_device (this st)); simpl; [|lia].
    destruct (CreateOffscreenPlainSurface drv _ _ _ _ _) as [[surf|] w]; simpl; [|lia].
    pose proof (map_size_insert (m_staging_textures (this st))
                  (staging_hash width height (GetInternalFormatD3D9 format)) surf). lia.
Qed.
End Cache9.

(** ** The bound of the caches under the public methods *)

Section Steps.
Context {Dev W : Type} (R : St Dev W -> St Dev W -> Prop) `{!Framed R}.
Local Abbreviation Prog := (M (St Dev W)).

Lemma steps_ret {A} (x : A) : steps R (ret x : Prog A).
Proof. intros st. apply framed_refl. Qed.

Lemma steps_halt {A} why : steps R (halt why : Prog A).
Proof. intros st. apply framed_refl. Qed.

Lemma steps_get_this : steps R (get_this : Prog Dev).
Proof. intros st. apply framed_refl. Qed.

Lemma steps_set_gpu w : steps R (set_gpu w : Prog unit).
Proof. intros st. apply framed_frame. Qed.

Lemma steps_access {A} (f : W -> option A) : steps R (access f : Prog A).
Proof. intros st. unfold access. destruct (f _); apply framed_refl. Qed.

Lemma steps_ask {A} (f : W -> A * W) : steps R (ask f : Prog A).
Proof. intros st. unfold ask. destruct (f _). apply framed_frame. Qed.

Lemma steps_defined {A} (o : option A) why : steps R (defined o why : Prog A).
Proof. intros st. destruct o; apply framed_refl. Qed.

Lemma steps_deref p : steps R (deref p : Prog handle).
Proof. intros st. destruct p; apply framed_refl. Qed.

Lemma steps_size_t_div x y : steps R (size_t_div x y : Prog Z).
Proof. intros st. unfold size_t_div. destruct (_ =? _); apply framed_refl. Qed.

Lemma steps_log e : steps R (log e : Prog unit).
Proof. intros st. apply framed_frame. Qed.

Lemma steps_query {A} e (f : W -> A) : steps R (query e f : Prog A).
Proof. intros st. apply framed_frame. Qed.

Lemma steps_call_ e (f : W -> W) : steps R (call_ e f : Prog unit).
Proof. intros st. apply framed_frame. Qed.

Lemma steps_call {A} (e : A -> event) (f : W -> A * W) : steps R (call e f : Prog A).
Proof. intros st. unfold call. destruct (f _). apply framed_frame. Qed.

Lemma steps_bind {A B} (m : Prog A) (k : A -> Prog B) :
  steps R m -> (forall x, steps R (k x)) -> steps R (bind m k).
Proof.
  intros Hm Hk st. unfold bind. specialize (Hm st).
  destruct (m st) as [x s1|why s1]; simpl in Hm; [|done].
  eapply framed_trans; [exact Hm | apply Hk].
Qed.
End Steps.

Ltac steps_step :=
  lazymatch goal with
  | |- steps _ (bind _ _) => apply steps_bind; [exact _ | | intros ?]
  | |- steps _ (ret _) => apply steps_ret
  | |- steps _ (halt _) => apply steps_halt
  | |- steps _ get_this => apply steps_get_this
  | |- steps _ (set_gpu _) => apply steps_set_gpu
  | |- steps _ (access _) => apply steps_access
  | |- steps _ (ask _) => apply steps_ask
  | |- steps _ (defined _ _) => apply steps_defined
  | |- steps _ (deref _) => apply steps_deref
  | |- steps _ (size_t_div _ _) => apply steps_size_t_div
  | |- steps _ (log _) => apply steps_log
  | |- steps _ (query _ _) => apply steps_query
  | |- steps _ (call_ _ _) => apply steps_call_
  | |- steps _ (call _ _) => apply steps_call
  | |- steps _ (match ?x with _ => _ end) => destruct x
  | |- steps _ (let _ := _ in _) => cbv zeta
  end.

Ltac steps_tac := repeat first [steps_step | exact _ | done].

Section StepsCopies.
Context {Dev W : Type} (drv : Driver W) (R : St Dev W -> St Dev W -> Prop) `{!Framed R}.

Lemma steps_memcpy_from_mapped dst doff res soff size :
  steps R (memcpy_from_mapped drv dst doff res soff size).
Proof. unfold memcpy_from_mapped. steps_tac. Qed.

Lemma steps_memcpy_to_mapped res doff src soff size :
  steps R (memcpy_to_mapped drv res doff src soff size).
Proof. unfold memcpy_to_mapped. steps_tac. Qed.

Lemma steps_read_rows rows dst doff res soff size dp sp :
  steps R (read_rows drv rows dst doff res soff size dp sp).
Proof.
  revert dst doff soff. induction rows as [|k IH]; intros; simpl; [steps_tac|].
  apply steps_bind; [exact _ | by apply steps_memcpy_from_mapped | intros; apply IH].
Qed.

Lemma steps_write_rows rows res doff src soff size dp sp :
  steps R (write_rows drv rows res doff src soff size dp sp).
Proof.
  revert doff soff. induction rows as [|k IH]; intros; simpl; [steps_tac|].
  apply steps_bind; [exact _ | by apply steps_memcpy_to_mapped | intros; apply IH].
Qed.
End StepsCopies.

Ltac steps_all :=
  repeat first [ steps_step | exact _
               | apply steps_memcpy_from_mapped | apply steps_memcpy_to_mapped
               | apply steps_read_rows | apply steps_write_rows
               | solve [eauto] | done ].

#[export] Instance cache_bounded11_framed {W} : Framed (@cache_bounded11 W).
Proof. split; unfold cache_bounded11; intros; simpl; auto. Qed.

#[export] Instance cache_bounded9_framed {W} : Framed (@cache_bounded9 W).
Proof. split; unfold cache_bounded9; intros; simpl; auto. Qed.

Section Invariant.
Context {W : Type} (drv : Driver W) (GetTexelSize : TextureFormat -> Z).

Lemma steps_getStagingTexture width height format :
  steps cache_bounded11 (D3D11.getStagingTexture drv width height format).
Proof. intros st. exact (proj1 (getStagingTexture_bound drv width height format st)). Qed.

Lemma steps_poll n : steps (W:=W) cache_bounded11 (D3D11.poll n).
Proof. induction n; simpl; steps_all. Qed.

Lemma steps_sync11 : steps cache_bounded11 (D3D11.sync drv).
Proof. unfold D3D11.sync. pose proof steps_poll. steps_all. Qed.

Lemma steps_getStagingBuffer type size_required :
  steps cache_bounded11 (D3D11.getStagingBuffer drv type size_required).
Proof.
  intros st. unfold cache_bounded11.
  assert (D3D11.m_staging_textures (this (final (D3D11.getStagingBuffer drv type size_required st)))
          = D3D11.m_staging_textures (this st)) as ->; [|done].
  unfold D3D11.getStagingBuffer. prims.
  repeat (break_match; simpl; try done).
Qed.

Lemma steps_d3d11_readTexture dst dst_size src_tex width height format :
  steps cache_bounded11 (D3D11.readTexture drv GetTexelSize dst dst_size src_tex width height format).
Proof.
  unfold D3D11.readTexture, D3D11.proc_read_texture.
  pose proof steps_getStagingTexture. pose proof steps_sync11.
  steps_all.
Qed.

Lemma steps_d3d11_writeTexture dst_tex width height format src src_size :
  steps cache_bounded11 (D3D11.writeTexture drv GetTexelSize dst_tex width height format src src_size).
Proof. unfold D3D11.writeTexture. steps_all. Qed.

Lemma steps_d3d11_readBuffer dst src_buf read_size type :
  steps cache_bounded11 (D3D11.readBuffer drv dst src_buf read_size type).
Proof.
  unfold D3D11.readBuffer, D3D11.proc_read_buffer.
  pose proof steps_getStagingBuffer. pose proof steps_sync11.
  steps_all.
Qed.

Lemma steps_d3d11_writeBuffer dst_buf src write_size type :
  steps cache_bounded11 (D3D11.writeBuffer drv dst_buf src write_size type).
Proof. unfold D3D11.writeBuffer. steps_all. Qed.

Lemma steps_findOrCreateStagingTexture width height format :
  steps cache_bounded9 (D3D9.findOrCreateStagingTexture drv width height format).
Proof. intros st. exact (proj1 (findOrCreateStagingTexture_bound drv width height format st)). Qed.

Lemma steps_sync9 : steps cache_bounded9 (D3D9.sync drv).
Proof. unfold D3D9.sync. steps_all. Qed.

Lemma steps_d3d9_readTexture o_buf bufsize tex_ width height format :
  steps cache_bounded9 (D3D9.readTexture drv GetTexelSize o_buf bufsize tex_ width height format).
Proof.
  unfold D3D9.readTexture, D3D9.BGRA_RGBA_conversion_in_place.
  pose proof steps_findOrCreateStagingTexture. pose proof steps_sync9.
  steps_all.
Qed.

Lemma steps_d3d9_writeTexture o_tex width height format buf bufsize :
  steps cache_bounded9 (D3D9.writeTexture drv GetTexelSize o_tex width height format buf bufsize).
Proof.
  unfold D3D9.writeTexture, D3D9.copy_with_BGRA_RGBA_conversion_to_locked.
  pose proof steps_findOrCreateStagingTexture.
  steps_all.
Qed.
End Invariant.

(** C5: the staging-texture cache never holds more than 32 entries: a call
    of [getStagingTexture] (D3D11) or [findOrCreateStagingTexture] (D3D9)
    on a cache of at most 32 entries leaves at most 32; on a cache that
    holds 32 entries or more it first releases every cached texture, in
    the order of the map, and only then looks up and creates, so that
    afterwards the cache is empty or holds the one texture just created.
    The cache of a new device is empty and the four transfer methods keep
    the bound of 32. *)
Theorem staging_texture_cache_never_exceeds_32 {W} (drv : Driver W)
    (GetTexelSize : TextureFormat -> Z) (width height : Z) (format : TextureFormat) :
  (forall st : St D3D11.GraphicsDeviceD3D11 W,
      let o := D3D11.getStagingTexture drv width height format st in
      let cache := D3D11.m_staging_textures (this st) in
      let cache' := D3D11.m_staging_textures (this (final o)) in
      (map_size cache <= 32 -> map_size cache' <= 32) /\
      (32 <= map_size cache ->
       exists evs, emitted st o = release_events cache ++ evs /\
         ((cache' = [] /\
           (evs = [] \/ evs = [EvCreateTexture2D (staging_desc width height format) None])) \/
          (exists tex,
              cache' = [(staging_hash width height (D3D11.GetInternalFormatD3D11 format), tex)] /\
              evs = [EvCreateTexture2D (staging_desc width height format) (Some tex)] /\
              returned o = Some (Some tex))))) /\
  (forall st : St D3D9.GraphicsDeviceD3D9 W,
      let o := D3D9.findOrCreateStagingTexture drv width height format st in
      let cache := D3D9.m_staging_textures (this st) in
      let cache' := D3D9.m_staging_textures (this (final o)) in
      let internal_format := D3D9.GetInternalFormatD3D9 format in
      (map_size cache <= 32 -> map_size cache' <= 32) /\
      (32 <= map_size cache ->
       exists evs, emitted st o = release_events cache ++ evs /\
         ((cache' = [] /\
           (evs = [] \/
            evs = [EvCreateOffscreenPlainSurface width height internal_format None])) \/
          (exists surf,
              cache' = [(staging_hash width height internal_format, surf)] /\
              evs = [EvCreateOffscreenPlainSurface width height internal_format (Some surf)] /\
              returned o = Some (Some surf))))) /\
  (forall device ctx q dst src tex buf size type,
      D3D11.m_staging_textures (D3D11.GraphicsDeviceD3D11_new device ctx q) = [] /\
      steps (W:=W) cache_bounded11
        (D3D11.readTexture drv GetTexelSize dst size tex width height format) /\
      steps (W:=W) cache_bounded11
        (D3D11.writeTexture drv GetTexelSize tex width height format src size) /\
      steps (W:=W) cache_bounded11 (D3D11.readBuffer drv dst buf size type) /\
      steps (W:=W) cache_bounded11 (D3D11.writeBuffer drv buf src size type)) /\
  (forall device q dst src tex buf size type,
      D3D9.m_staging_textures (D3D9.GraphicsDeviceD3D9_new device q) = [] /\
      steps (W:=W) cache_bounded9
        (D3D9.readTexture drv GetTexelSize dst size tex width height format) /\
      steps (W:=W) cache_bounded9
        (D3D9.writeTexture drv GetTexelSize tex width height format src size) /\
      steps (W:=W) cache_bounded9 (D3D9.readBuffer dst buf size type) /\
      steps (W:=W) cache_bounded9 (D3D9.writeBuffer buf src size type)).
Proof.
  split; [|split; [|split]].
  - intros st. apply getStagingTexture_bound.
  - intros st. apply findOrCreateStagingTexture_bound.
  - intros. split; [done|]. split; [apply steps_d3d11_readTexture|].
    split; [apply steps_d3d11_writeTexture|].
    split; [apply steps_d3d11_readBuffer | apply steps_d3d11_writeBuffer].
  - intros. split; [done|]. split; [apply steps_d3d9_readTexture|].
    split; [apply steps_d3d9_writeTexture|]. split; intros st Hb; exact Hb.
Qed.

Lemma full11_size : map_size (D3D11.m_staging_textures (this Scenario.full11)) = 32.
Proof. vm_compute. reflexivity. Qed.

Lemma full9_size : map_size (D3D9.m_staging_textures (this Scenario.full9)) = 32.
Proof. vm_compute. reflexivity. Qed.

(** The 33rd size on the reference driver: the 32 cached textures are
    released, the cache then holds the new texture alone. *)
Lemma staging_texture_cache_33rd_request :
  (let o := D3D11.getStagingTexture RefDriver.driver 33 1 Rf32 Scenario.full11 in
   map_size (D3D11.m_staging_textures (this (final o))) <= 32 /\
   exists evs,
     emitted Scenario.full11 o
     = release_events (D3D11.m_staging_textures (this Scenario.full11)) ++ evs /\
     ((D3D11.m_staging_textures (this (final o)) = [] /\
       (evs = [] \/ evs = [EvCreateTexture2D (staging_desc 33 1 Rf32) None])) \/
      (exists tex,
          D3D11.m_staging_textures (this (final o))
          = [(staging_hash 33 1 (D3D11.GetInternalFormatD3D11 Rf32), tex)] /\
          evs = [EvCreateTexture2D (staging_desc 33 1 Rf32) (Some tex)] /\
          returned o = Some (Some tex)))) /\
  (let o := D3D9.findOrCreateStagingTexture RefDriver.driver 33 1 Rf32 Scenario.full9 in
   map_size (D3D9.m_staging_textures (this (final o))) <= 32 /\
   exists evs,
     emitted Scenario.full9 o
     = release_events (D3D9.m_staging_textures (this Scenario.full9)) ++ evs /\
     ((D3D9.m_staging_textures (this (final o)) = [] /\
       (evs = [] \/
        evs = [EvCreateOffscreenPlainSurface 33 1 (D3D9.GetInternalFormatD3D9 Rf32) None])) \/
      (exists surf,
          D3D9.m_staging_textures (this (final o))
          = [(staging_hash 33 1 (D3D9.GetInternalFormatD3D9 Rf32), surf)] /\
          evs = [EvCreateOffscreenPlainSurface 33 1 (D3D9.GetInternalFormatD3D9 Rf32)
                   (Some surf)] /\
          returned o = Some (Some surf)))).
Proof.
  destruct (staging_texture_cache_never_exceeds_32 RefDriver.driver GetTexelSize_table 33 1 Rf32)
    as (H11 & H9 & _).
  split.
  - destruct (H11 Scenario.full11) as [Hle Hfull]. split.
    + apply Hle. rewrite full11_size. lia.
    + apply Hfull. rewrite full11_size. lia.
  - destruct (H9 Scenario.full9) as [Hle Hfull]. split.
    + apply Hle. rewrite full9_size. lia.
    + apply Hfull. rewrite full9_size. lia.
Defined.

(** After the 33rd size, the first size is created anew. *)
Example staging_texture_recreated_after_clear :
  let st33 := final (D3D11.getStagingTexture RefDriver.driver 33 1 Rf32 Scenario.full11) in
  map_find (D3D11.m_staging_textures (this Scenario.full11))
           (staging_hash 1 1 (D3D11.GetInternalFormatD3D11 Rf32)) = Some 2%positive /\
  D3D11.m_staging_textures (this st33)
  = [(staging_hash 33 1 (D3D11.GetInternalFormatD3D11 Rf32), 34%positive)] /\
  emitted st33 (D3D11.getStagingTexture RefDriver.driver 1 1 Rf32 st33)
  = [EvCreateTexture2D (staging_desc 1 1 Rf32) (Some 35%positive)].
Proof. vm_compute. repeat split. Qed.

(** ** The cache key *)

Lemma map_find_insert_ne m k v k' :
  k' <> k -> map_find (map_insert m k v) k' = map_find m k'.
Proof.
  intros Hne. induction m as [|[k0 v0] rest IH]; simpl.
  - by destruct (Z.eqb_spec k k'); [subst|].
  - destruct (k <? k0); simpl.
    + by destruct (Z.eqb_spec k k'); [subst|].
    + destruct (Z.eqb_spec k0 k); simpl; [done|].
      by destruct (k0 =? k').
Qed.

Lemma map_find_insert_new m k v :
  map_find m k = None -> map_find (map_insert m k v) k = Some v.
Proof.
  induction m as [|[k0 v0] rest IH]; simpl; intros H.
  - by rewrite Z.eqb_refl.
  - destruct (Z.eqb_spec k0 k); [done|].
    destruct (k <? k0); simpl.
    + by rewrite Z.eqb_refl.
    + destruct (Z.eqb_spec k0 k); [done | by apply IH].
Qed.

Lemma staging_hash_injective w1 h1 f1 w2 h2 f2 :
  0 <= w1 < 2 ^ 16 -> 0 <= h1 < 2 ^ 16 -> 0 <= f1 < 2 ^ 32 ->
  0 <= w2 < 2 ^ 16 -> 0 <= h2 < 2 ^ 16 -> 0 <= f2 < 2 ^ 32 ->
  staging_hash w1 h1 f1 = staging_hash w2 h2 f2 -> w1 = w2 /\ h1 = h2 /\ f1 = f2.
Proof.
  intros Hw1 Hh1 Hf1 Hw2 Hh2 Hf2.
  unfold staging_hash, int_add, int_shl, wrap_int, wrap_u64.
  rewrite !Z.shiftl_mul_pow2 by lia.
  change (2 ^ 16) with 65536 in *. change (2 ^ 31) with 2147483648 in *.
  change (2 ^ 32) with 4294967296 in *. change (2 ^ 64) with 18446744073709551616 in *.
  intros H. Z.div_mod_to_equations. lia.
Qed.

(** C6 (as amended): on requests with [0 <= width < 2^16],
    [0 <= height < 2^16] and a native format code below [2^32] the cache
    key is injective: two such requests with one key have the same width,
    height and native format.  So when a request misses the cache, a
    texture is inserted for another request and the first request then hits,
    the two requests are the same and the hit is the texture inserted.
    (From a height of [2^15] on, [height << 16] no longer fits [int]; it is
    taken to wrap around.) *)
Theorem staging_hash_injective_in_range w1 h1 f1 w2 h2 f2 :
  0 <= w1 < 2 ^ 16 -> 0 <= h1 < 2 ^ 16 -> 0 <= f1 < 2 ^ 32 ->
  0 <= w2 < 2 ^ 16 -> 0 <= h2 < 2 ^ 16 -> 0 <= f2 < 2 ^ 32 ->
  (staging_hash w1 h1 f1 = staging_hash w2 h2 f2 -> w1 = w2 /\ h1 = h2 /\ f1 = f2) /\
  (forall (cache : stdmap) (tex tex' : positive),
      map_find cache (staging_hash w2 h2 f2) = None ->
      map_find (map_insert cache (staging_hash w1 h1 f1) tex) (staging_hash w2 h2 f2)
      = Some tex' ->
      (w1 = w2 /\ h1 = h2 /\ f1 = f2) /\ tex' = tex).
Proof.
  intros Hw1 Hh1 Hf1 Hw2 Hh2 Hf2.
  pose proof (staging_hash_injective w1 h1 f1 w2 h2 f2 Hw1 Hh1 Hf1 Hw2 Hh2 Hf2) as Hinj.
  split; [exact Hinj|].
  intros cache tex tex' Hmiss Hhit.
  destruct (Z.eq_dec (staging_hash w2 h2 f2) (staging_hash w1 h1 f1)) as [Heq|Hne].
  - split; [by apply Hinj|]. rewrite Heq in Hmiss, Hhit.
    rewrite map_find_insert_new in Hhit by done. by inversion Hhit.
  - rewrite map_find_insert_ne in Hhit by done. congruence.
Qed.

Lemma staging_hash_injective_in_range_witness :
  (640 = 640 /\ 480 = 480 /\ DXGI_FORMAT_R32_FLOAT = DXGI_FORMAT_R32_FLOAT) /\
  ((640 = 640 /\ 480 = 480 /\ DXGI_FORMAT_R32_FLOAT = DXGI_FORMAT_R32_FLOAT) /\
   7%positive = 7%positive).
Proof.
  assert (H : (staging_hash 640 480 DXGI_FORMAT_R32_FLOAT
               = staging_hash 640 480 DXGI_FORMAT_R32_FLOAT ->
               640 = 640 /\ 480 = 480 /\ DXGI_FORMAT_R32_FLOAT = DXGI_FORMAT_R32_FLOAT) /\
              (forall (cache : stdmap) (tex tex' : positive),
                  map_find cache (staging_hash 640 480 DXGI_FORMAT_R32_FLOAT) = None ->
                  map_find (map_insert cache (staging_hash 640 480 DXGI_FORMAT_R32_FLOAT) tex)
                           (staging_hash 640 480 DXGI_FORMAT_R32_FLOAT) = Some tex' ->
                  (640 = 640 /\ 480 = 480 /\ DXGI_FORMAT_R32_FLOAT = DXGI_FORMAT_R32_FLOAT)
                  /\ tex' = tex)).
  { apply (staging_hash_injective_in_range 640 480 DXGI_FORMAT_R32_FLOAT
                                           640 480 DXGI_FORMAT_R32_FLOAT);
      unfold DXGI_FORMAT_R32_FLOAT; lia. }
  destruct H as [Hinj Hhit].
  split; [apply Hinj; reflexivity | apply (Hhit [] 7%positive 7%positive); reflexivity].
Defined.

(** C6 (as stated) fails: the requests (65537, 1) and (1, 2) for one format
    have one key. *)
Lemma staging_hash_collision :
  ~ (forall w1 h1 f1 w2 h2 f2,
        staging_hash w1 h1 f1 = staging_hash w2 h2 f2 -> (w1, h1, f1) = (w2, h2, f2)).
Proof.
  intros H. specialize (H 65537 1 D3DFMT_R32F 1 2 D3DFMT_R32F eq_refl). discriminate.
Qed.

(** The lower bounds are needed as well: a width of -1 borrows from the
    height. *)
Example staging_hash_collision_negative_width :
  staging_hash (-1) 1 D3DFMT_R32F = staging_hash 65535 0 D3DFMT_R32F.
Proof. reflexivity. Qed.

(** On the reference driver the request (65537, 1) hits the surface cached
    for (1, 2), which is one texel wide. *)
Example staging_cache_hit_of_other_size :
  let st := Scenario.start9 1 Scenario.tex_1x1 in
  let o1 := D3D9.findOrCreateStagingTexture RefDriver.driver 1 2 Rf32 st in
  let o2 := D3D9.findOrCreateStagingTexture RefDriver.driver 65537 1 Rf32 (final o1) in
  returned o1 = Some (Some 2%positive) /\
  returned o2 = Some (Some 2%positive) /\
  emitted (final o1) o2 = [] /\
  tex_Width (RefDriver.texture_desc 2%positive (gpu (final o2))) = 1.
Proof. vm_compute. repeat split. Qed.

(** ** Return values *)

Section Returns.
Context {W : Type} (drv : Driver W) (GetTexelSize : TextureFormat -> Z).

Lemma size_t_div_defined {Dev} (x y : Z) (st : St Dev W) :
  wrap_u64 y <> 0 -> size_t_div x y st = Ret (wrap_u64 x / wrap_u64 y) st.
Proof.
  intros H. unfold size_t_div. by destruct (Z.eqb_spec (wrap_u64 y) 0).
Qed.

Lemma size_t_div_zero {Dev} (x y : Z) (st : St Dev W) :
  wrap_u64 y = 0 -> size_t_div x y st = Stuck DivByZero st.
Proof. intros H. unfold size_t_div. by rewrite H. Qed.

Lemma d3d9_writeTexture_only_Unknown o_tex width height format buf bufsize
    (st st' : St D3D9.GraphicsDeviceD3D9 W) e :
  D3D9.writeTexture drv GetTexelSize o_tex width height format buf bufsize st = Ret e st' ->
  e = Unknown.
Proof.
  unfold D3D9.writeTexture. prims.
  repeat (break_match; simpl; try discriminate); intros H; inversion H; reflexivity.
Qed.

(** A failed [Map] in the D3D11 [writeTexture] is logged and the method
    goes on to return [OK]. *)
Lemma d3d11_writeTexture_Map_failed dst_tex width height format src src_size
    (st : St D3D11.GraphicsDeviceD3D11 W) ctx w :
  D3D11.m_context (this st) = Some ctx ->
  Z.land (tex_CPUAccessFlags (Texture2D_GetDesc drv dst_tex (gpu st)))
         D3D11_CPU_ACCESS_WRITE <> 0 ->
  wrap_u64 (GetTexelSize format) <> 0 ->
  Map drv (Some dst_tex) D3D11_MAP_WRITE_DISCARD (gpu st) = (None, w) ->
  D3D11.writeTexture drv GetTexelSize (Some dst_tex) width height format (Some src) src_size st
  = Ret OK (mkSt (this st) w
              (trace st ++ [EvGetDesc dst_tex;
                            EvMap (Some dst_tex) D3D11_MAP_WRITE_DISCARD false;
                            EvLog "GraphicsDeviceD3D11::writeTexture(): Map() failed."])).
Proof.
  intros Hctx Hflag Hsize Hmap. unfold D3D11.writeTexture.
  unfold bind at 1. unfold query at 1. unfold bind at 1.
  rewrite size_t_div_defined by done. cbv beta iota.
  prims. simpl. rewrite Hctx.
  destruct (Z.eqb_spec (Z.land (tex_CPUAccessFlags (Texture2D_GetDesc drv dst_tex (gpu st)))
                               D3D11_CPU_ACCESS_WRITE) 0) as [E|_]; [done|].
  simpl. rewrite Hmap. simpl. by rewrite <- !app_assoc.
Qed.

(** The three other D3D11 transfers answer a failed [Map] with [Unknown]. *)
Lemma d3d11_readTexture_Map_failed dst dst_size src_tex width height format
    (st : St D3D11.GraphicsDeviceD3D11 W) ctx w :
  D3D11.m_context (this st) = Some ctx ->
  Z.land (tex_CPUAccessFlags (Texture2D_GetDesc drv src_tex (gpu st)))
         D3D11_CPU_ACCESS_READ <> 0 ->
  Map drv (Some src_tex) D3D11_MAP_READ (gpu st) = (None, w) ->
  returned (D3D11.readTexture drv GetTexelSize dst dst_size (Some src_tex) width height format st)
  = Some (Unknown, dst).
Proof.
  intros Hctx Hflag Hmap. unfold D3D11.readTexture, D3D11.proc_read_texture.
  prims. simpl. rewrite Hctx.
  destruct (Z.eqb_spec (Z.land (tex_CPUAccessFlags (Texture2D_GetDesc drv src_tex (gpu st)))
                               D3D11_CPU_ACCESS_READ) 0) as [E|_]; [done|].
  simpl. rewrite Hctx. simpl. by rewrite Hmap.
Qed.

Lemma d3d11_readBuffer_Map_failed dst src_buf read_size type
    (st : St D3D11.GraphicsDeviceD3D11 W) ctx w :
  D3D11.m_context (this st) = Some ctx ->
  read_size <> 0 ->
  Z.land (buf_CPUAccessFlags (Buffer_GetDesc drv src_buf (gpu st)))
         D3D11_CPU_ACCESS_READ <> 0 ->
  Map drv (Some src_buf) D3D11_MAP_READ (gpu st) = (None, w) ->
  returned (D3D11.readBuffer drv (Some dst) (Some src_buf) read_size type st)
  = Some (Unknown, Some dst).
Proof.
  intros Hctx Hsize Hflag Hmap. unfold D3D11.readBuffer, D3D11.proc_read_buffer.
  destruct (Z.eqb_spec read_size 0) as [|_]; [done|].
  prims. simpl.
  destruct (Z.eqb_spec (Z.land (buf_CPUAccessFlags (Buffer_GetDesc drv src_buf (gpu st)))
                               D3D11_CPU_ACCESS_READ) 0) as [E|_]; [done|].
  simpl. rewrite Hctx. simpl. by rewrite Hmap.
Qed.

Lemma d3d11_writeBuffer_Map_failed dst_buf src write_size type
    (st : St D3D11.GraphicsDeviceD3D11 W) ctx w :
  D3D11.m_context (this st) = Some ctx ->
  write_size <> 0 ->
  Z.land (buf_CPUAccessFlags (Buffer_GetDesc drv dst_buf (gpu st)))
         D3D11_CPU_ACCESS_WRITE <> 0 ->
  Map drv (Some dst_buf) D3D11_MAP_WRITE_DISCARD (gpu st) = (None, w) ->
  returned (D3D11.writeBuffer drv (Some dst_buf) (Some src) write_size type st) = Some Unknown.
Proof.
  intros Hctx Hsize Hflag Hmap. unfold D3D11.writeBuffer.
  destruct (Z.eqb_spec write_size 0) as [|_]; [done|].
  prims. simpl. rewrite Hctx.
  destruct (Z.eqb_spec (Z.land (buf_CPUAccessFlags (Buffer_GetDesc drv dst_buf (gpu st)))
                               D3D11_CPU_ACCESS_WRITE) 0) as [E|_]; [done|].
  simpl. by rewrite Hmap.
Qed.
End Returns.

(** C2: the D3D9 [writeTexture] returns [Unknown] whenever it returns, also
    when the lock, the copy and [UpdateSurface] succeed: no input makes it
    return [OK]. *)
Theorem d3d9_writeTexture_returns_Unknown {W} (drv : Driver W)
    (GetTexelSize : TextureFormat -> Z) o_tex width height format buf bufsize
    (st st' : St D3D9.GraphicsDeviceD3D9 W) (e : Error) :
  D3D9.writeTexture drv GetTexelSize o_tex width height format buf bufsize st = Ret e st' ->
  e = Unknown /\ e <> OK.
Proof.
  intros H. apply d3d9_writeTexture_only_Unknown in H. by subst.
Qed.

(** A run on the reference driver in which every driver call succeeds. *)
Lemma d3d9_writeTexture_returns_Unknown_witness :
  let st := Scenario.start9 1 (RefDriver.make_resource 1 2 2 D3DFMT_R16F 1 0) in
  let o := D3D9.writeTexture RefDriver.driver GetTexelSize_table (Some 1%positive) 1 2 Rf16
                             (Some Scenario.data4) 4 st in
  emitted st o
  = [EvCreateOffscreenPlainSurface 1 2 D3DFMT_R16F (Some 2%positive);
     EvGetSurfaceLevel 1%positive (Some 1%positive);
     EvLockRect 2%positive D3DLOCK_DISCARD true;
     EvMemcpyToMapped (Some 2%positive) 0 Scenario.data4;
     EvUnlockRect 2%positive;
     EvUpdateSurface 2%positive 1%positive true;
     EvRelease 1%positive] /\
  returned o = Some Unknown /\ Unknown <> OK.
Proof.
  cbv zeta. split; [vm_compute; reflexivity|].
  set (st := Scenario.start9 1 (RefDriver.make_resource 1 2 2 D3DFMT_R16F 1 0)).
  set (o := D3D9.writeTexture RefDriver.driver GetTexelSize_table (Some 1%positive) 1 2 Rf16
                              (Some Scenario.data4) 4 st).
  assert (Ho : o = Ret Unknown (final o)) by (vm_compute; reflexivity).
  destruct (d3d9_writeTexture_returns_Unknown RefDriver.driver GetTexelSize_table
              (Some 1%positive) 1 2 Rf16 (Some Scenario.data4) 4 st (final o) Unknown Ho)
    as [_ Hne].
  split; [by rewrite Ho | exact Hne].
Defined.



(** ** Null pointers and empty transfers *)

(** C3 (as amended): on the D3D11 device, [writeTexture] with a null
    texture or a null source, [readTexture] with a null texture or without
    a device context, and [readBuffer] and [writeBuffer] of a size other
    than zero with a null destination or source return [InvalidParameter]
    and leave the device, the driver and the log as they were: nothing is
    dereferenced.  The buffer methods of the D3D9 device and every method of
    the Vulkan device return [NotAvailable] whatever the pointers. *)
Theorem null_pointer_arguments {W} (drv : Driver W) (GetTexelSize : TextureFormat -> Z)
    (dst src : option buffer) (tex buf : option handle) (width height size : Z)
    (format : TextureFormat) (type : BufferType)
    (st11 : St D3D11.GraphicsDeviceD3D11 W) (st9 : St D3D9.GraphicsDeviceD3D9 W)
    (stV : St VulkanDevice.GraphicsDeviceVulkan W) :
  (tex = None \/ src = None ->
   D3D11.writeTexture drv GetTexelSize tex width height format src size st11
   = Ret InvalidParameter st11) /\
  (D3D11.m_context (this st11) = None \/ tex = None ->
   D3D11.readTexture drv GetTexelSize dst size tex width height format st11
   = Ret (InvalidParameter, dst) st11) /\
  (size <> 0 -> dst = None \/ buf = None ->
   D3D11.readBuffer drv dst buf size type st11 = Ret (InvalidParameter, dst) st11) /\
  (size <> 0 -> buf = None \/ src = None ->
   D3D11.writeBuffer drv buf src size type st11 = Ret InvalidParameter st11) /\
  (D3D9.readBuffer dst buf size type st9 = Ret (NotAvailable, dst) st9 /\
   D3D9.writeBuffer buf src size type st9 = Ret NotAvailable st9) /\
  (VulkanDevice.readTexture dst size tex width height format stV = Ret (NotAvailable, dst) stV /\
   VulkanDevice.writeTexture tex width height format src size stV = Ret NotAvailable stV /\
   VulkanDevice.readBuffer dst buf size type stV = Ret (NotAvailable, dst) stV /\
   VulkanDevice.writeBuffer buf src size type stV = Ret NotAvailable stV).
Proof.
  repeat split.
  - intros [-> | ->]; unfold D3D11.writeTexture; [done | by destruct tex].
  - intros [H | ->]; unfold D3D11.readTexture; prims.
    + by rewrite H.
    + by destruct (D3D11.m_context (this st11)).
  - intros Hsize [-> | ->]; unfold D3D11.readBuffer;
      destruct (Z.eqb_spec size 0); try done. by destruct dst.
  - intros Hsize [-> | ->]; unfold D3D11.writeBuffer;
      destruct (Z.eqb_spec size 0); try done. by destruct buf.
Qed.

Lemma null_pointer_arguments_witness :
  let st11 := Scenario.start11 1 false Scenario.tex_1x1 in
  D3D11.writeTexture RefDriver.driver GetTexelSize_table None 1 1 Rf32 None 16 st11
  = Ret InvalidParameter st11 /\
  D3D11.readTexture RefDriver.driver GetTexelSize_table None 16 None 1 1 Rf32 st11
  = Ret (InvalidParameter, None) st11 /\
  D3D11.readBuffer RefDriver.driver None None 16 Vertex st11 = Ret (InvalidParameter, None) st11 /\
  D3D11.writeBuffer RefDriver.driver None None 16 Vertex st11 = Ret InvalidParameter st11.
Proof.
  cbv zeta.
  destruct (null_pointer_arguments RefDriver.driver GetTexelSize_table None None None None
              1 1 16 Rf32 Vertex (Scenario.start11 1 false Scenario.tex_1x1)
              (Scenario.start9 1 Scenario.tex_1x1) Scenario.startV)
    as (H1 & H2 & H3 & H4 & _).
  split; [apply H1; by left|]. split; [apply H2; by right|].
  split; [apply H3; [lia | by left] | apply H4; [lia | by left]].
Defined.

(** C3 (as stated) fails: not every backend answers a null pointer with
    [InvalidParameter].  The D3D9 [readBuffer] with null pointers returns
    [NotAvailable], and the D3D11 [readBuffer] of size 0 returns [OK]. *)
Lemma null_pointer_not_always_InvalidParameter :
  ~ (forall c, In c (backends RefDriver.driver GetTexelSize_table) ->
     forall (st : St (Obj c) RefDriver.World) dst src size type,
       dst = None \/ src = None ->
       returned (v_readBuffer c dst src size type st) = Some (InvalidParameter, dst)).
Proof.
  intros H.
  specialize (H (class_D3D9 RefDriver.driver GetTexelSize_table)
                (or_intror (or_introl eq_refl))
                (Scenario.start9 1 Scenario.tex_1x1) None None 16 Vertex (or_introl eq_refl)).
  discriminate H.
Qed.

Example d3d11_readBuffer_null_and_empty :
  returned (D3D11.readBuffer RefDriver.driver None None 0 Vertex
              (Scenario.start11 1 false Scenario.tex_1x1)) = Some (OK, None).
Proof. reflexivity. Qed.

(** The D3D11 [readTexture] does not test its destination: with a null
    destination and a readable texture it maps the texture and stops at the
    copy. *)
Example d3d11_readTexture_null_destination :
  let st := Scenario.start11 1 false Scenario.tex_1x1 in
  let o := D3D11.readTexture RefDriver.driver GetTexelSize_table None 4 (Some 1%positive)
                             1 1 Rf32 st in
  why_stuck o = Some NullDeref /\
  emitted st o = [EvGetDesc 1%positive; EvMap (Some 1%positive) D3D11_MAP_READ true].
Proof. vm_compute. by split. Qed.

(** C4 (as amended): [readBuffer] and [writeBuffer] of size zero return [OK]
    on the D3D11 device and [NotAvailable] on the D3D9 and Vulkan devices;
    on all three the destination memory, the device, the driver and the log
    stay as they were. *)
Theorem zero_length_buffer_transfer {W} (drv : Driver W)
    (dst src : option buffer) (buf : option handle) (type : BufferType)
    (st11 : St D3D11.GraphicsDeviceD3D11 W) (st9 : St D3D9.GraphicsDeviceD3D9 W)
    (stV : St VulkanDevice.GraphicsDeviceVulkan W) :
  D3D11.readBuffer drv dst buf 0 type st11 = Ret (OK, dst) st11 /\
  D3D11.writeBuffer drv buf src 0 type st11 = Ret OK st11 /\
  D3D9.readBuffer dst buf 0 type st9 = Ret (NotAvailable, dst) st9 /\
  D3D9.writeBuffer buf src 0 type st9 = Ret NotAvailable st9 /\
  VulkanDevice.readBuffer dst buf 0 type stV = Ret (NotAvailable, dst) stV /\
  VulkanDevice.writeBuffer buf src 0 type stV = Ret NotAvailable stV.
Proof. by repeat split. Qed.

(** C4 (as stated) fails: the D3D9 [readBuffer] of size zero returns
    [NotAvailable], not [OK]. *)
Lemma zero_length_buffer_transfer_not_OK_everywhere :
  ~ (forall c, In c (backends RefDriver.driver GetTexelSize_table) ->
     forall (st : St (Obj c) RefDriver.World) dst src type,
       returned (v_readBuffer c dst src 0 type st) = Some (OK, dst)).
Proof.
  intros H.
  specialize (H (class_D3D9 RefDriver.driver GetTexelSize_table)
                (or_intror (or_introl eq_refl))
                (Scenario.start9 1 Scenario.tex_1x1) (Some []) (Some 1%positive) Vertex).
  discriminate H.
Qed.

(** ** Failed maps *)

(** C9: the claim fails on the D3D11 [writeTexture].  On the reference
    driver with a lost device, [Map] of the CPU-writable texture 1 fails;
    the method logs the failure and returns [OK]. *)
Theorem d3d11_writeTexture_returns_OK_when_Map_fails :
  let st := Scenario.start11 1 true Scenario.tex_1x1 in
  let o := D3D11.writeTexture RefDriver.driver GetTexelSize_table (Some 1%positive) 1 1 Rf32
                              (Some Scenario.data4) 4 st in
  emitted st o
  = [EvGetDesc 1%positive;
     EvMap (Some 1%positive) D3D11_MAP_WRITE_DISCARD false;
     EvLog "GraphicsDeviceD3D11::writeTexture(): Map() failed."] /\
  returned o = Some OK.
Proof. vm_compute. by split. Qed.

(** On the same state the other three transfers return [Unknown]. *)
Example d3d11_other_transfers_return_Unknown_when_Map_fails :
  let st := Scenario.start11 1 true Scenario.tex_1x1 in
  returned (D3D11.readTexture RefDriver.driver GetTexelSize_table (Some Scenario.data4) 4
              (Some 1%positive) 1 1 Rf32 st) = Some (Unknown, Some Scenario.data4) /\
  returned (D3D11.readBuffer RefDriver.driver (Some Scenario.data4) (Some 1%positive) 4
              Vertex st) = Some (Unknown, Some Scenario.data4) /\
  returned (D3D11.writeBuffer RefDriver.driver (Some 1%positive) (Some Scenario.data4) 4
              Vertex st) = Some Unknown.
Proof. vm_compute. by repeat split. Qed.

(** ** The order of copy, sync and map *)

Section Order.
Context {W : Type} (drv : Driver W) (GetTexelSize : TextureFormat -> Z).

Lemma bind_assoc {S A B C} (m : M S A) (k : A -> M S B) (k2 : B -> M S C) st :
  bind (bind m k) k2 st = bind m (fun x => bind (k x) k2) st.
Proof. unfold bind. by destruct (m st). Qed.

Lemma bind_call_trace {Dev A B} (P : event -> Prop) (e : A -> event) (f : W -> A * W)
    (k : A -> M (St Dev W) B) (st : St Dev W) :
  (forall x, emits P (k x)) ->
  exists x post, fst (f (gpu st)) = x /\
    trace (final (bind (call e f) k st)) = trace st ++ e x :: post /\ Forall P post.
Proof.
  intros H. unfold bind, call. destruct (f (gpu st)) as [x w]. simpl.
  destruct (H x (mkSt (this st) w (trace st ++ [e x]))) as (evs & Ht & F).
  exists x, evs. split; [done|]. rewrite Ht. simpl. by rewrite <- app_assoc.
Qed.

Lemma emits_proc_read_tail11 dst dst_size tex width height format
    (mapped : option D3D11_MAPPED_SUBRESOURCE) :
  emits (Dev:=D3D11.GraphicsDeviceD3D11) (W:=W) quiet
    match mapped with
    | None =>
        log (EvLog "GraphicsDeviceD3D11::readTexture(): Map() failed.");;;
        ret (Unknown, dst)
    | Some m =>
        let dst_pitch := int_mul width (GetTexelSize format) in
        let src_pitch := wrap_int (RowPitch m) in
        dst' <- (if dst_pitch =? src_pitch
                 then memcpy_from_mapped drv dst 0 tex 0 (wrap_u64 dst_size)
                 else read_rows drv (Z.to_nat height) dst 0 tex 0
                                (wrap_u64 dst_pitch) dst_pitch src_pitch);;
        call_ (EvUnmap tex) (Unmap drv tex);;;
        ret (OK, dst')
    end.
Proof.
  destruct mapped; cbv zeta; emits_tac.
  - by apply emits_memcpy_from_mapped.
  - by apply emits_read_rows.
Qed.

Lemma proc_read_texture_shape dst dst_size tex width height format
    (st : St D3D11.GraphicsDeviceD3D11 W) ctx :
  D3D11.m_context (this st) = Some ctx ->
  exists ok post,
    trace (final (D3D11.proc_read_texture drv GetTexelSize dst dst_size tex width height format st))
    = trace st ++ EvMap tex D3D11_MAP_READ ok :: post /\ Forall quiet post.
Proof.
  intros Hctx. unfold D3D11.proc_read_texture.
  unfold bind at 1. unfold get_this at 1. unfold bind at 1. rewrite Hctx. simpl.
  destruct (bind_call_trace quiet (fun m => EvMap tex D3D11_MAP_READ (negb (is_null m)))
              (Map drv tex D3D11_MAP_READ)
              (fun mapped => match mapped with
    | None =>
        log (EvLog "GraphicsDeviceD3D11::readTexture(): Map() failed.");;;
        ret (Unknown, dst)
    | Some m =>
        let dst_pitch := int_mul width (GetTexelSize format) in
        let src_pitch := wrap_int (RowPitch m) in
        dst' <- (if dst_pitch =? src_pitch
                 then memcpy_from_mapped drv dst 0 tex 0 (wrap_u64 dst_size)
                 else read_rows drv (Z.to_nat height) dst 0 tex 0
                                (wrap_u64 dst_pitch) dst_pitch src_pitch);;
        call_ (EvUnmap tex) (Unmap drv tex);;;
        ret (OK, dst')
    end) st) as (x & post & _ & Ht & F).
  { intros mapped. apply emits_proc_read_tail11. }
  eauto.
Qed.

Lemma getStagingTexture_context width height format (st : St D3D11.GraphicsDeviceD3D11 W) :
  D3D11.m_context (this (final (D3D11.getStagingTexture drv width height format st)))
  = D3D11.m_context (this st).
Proof.
  rewrite getStagingTexture_run. cbv zeta.
  destruct (_ >=? _); simpl; repeat (break_match; simpl; try done).
Qed.

Lemma d3d11_readTexture_staging_trace dst dst_size src_tex width height format
    (st : St D3D11.GraphicsDeviceD3D11 W) ctx :
  D3D11.m_context (this st) = Some ctx ->
  Z.land (tex_CPUAccessFlags (Texture2D_GetDesc drv src_tex (gpu st))) D3D11_CPU_ACCESS_READ = 0 ->
  exists evs,
    trace (final (D3D11.readTexture drv GetTexelSize dst dst_size (Some src_tex)
                    width height format st)) = trace st ++ evs /\
    staged_read_shape src_tex evs.
Proof.
  intros Hctx Hflag. unfold D3D11.readTexture.
  unfold bind at 1. unfold get_this at 1. rewrite Hctx.
  unfold bind at 1. unfold query at 1. rewrite Hflag. cbn [Z.eqb negb].
  set (st1 := mkSt (this st) (gpu st) (trace st ++ [EvGetDesc src_tex])).
  unfold bind at 1.
  pose proof (emits_getStagingTexture drv width height format st1) as (evs1 & Ht1 & F1).
  pose proof (getStagingTexture_context width height format st1) as Hc1.
  destruct (D3D11.getStagingTexture drv width height format st1) as [staging s2|why s2];
    simpl in Ht1, Hc1.
  - unfold bind at 1. unfold call_ at 1. unfold bind at 1.
    rewrite sync_run11. cbn [this gpu trace]. rewrite Hc1, Hctx.
    destruct (GetData_polls drv _) as [n w].
    set (s4 := mkSt _ _ _).
    destruct (proc_read_texture_shape dst dst_size staging width height format s4 ctx)
      as (ok & post & Ht & F).
    { subst s4. simpl. by rewrite Hc1. }
    exists ((EvGetDesc src_tex :: evs1) ++ EvCopyResource staging src_tex :: EvEnd
              :: poll_events n ++ EvMap staging D3D11_MAP_READ ok :: post).
    split.
    + rewrite Ht. subst s4 st1. simpl. rewrite Ht1. simpl.
      rewrite <- ?app_assoc. simpl. by rewrite <- ?app_assoc.
    + right. exists (EvGetDesc src_tex :: evs1), staging, n, ok, post.
      split; [done|]. split; [|done].
      constructor; [done|]. eapply Forall_impl; [exact F1 | apply cache_event_quiet].
  - exists (EvGetDesc src_tex :: evs1). split.
    + simpl. rewrite Ht1. subst st1. simpl. by rewrite <- app_assoc.
    + left. constructor; [done|]. eapply Forall_impl; [exact F1 | apply cache_event_quiet].
Qed.

Lemma staged_read_shape_monitor src evs :
  staged_read_shape src evs -> sync_between_copy_and_read evs = true.
Proof.
  unfold sync_between_copy_and_read.
  intros [F | (pre & staging & n & ok & post & -> & Fpre & Fpost)].
  - by rewrite monitor_quiet.
  - rewrite monitor_app, (monitor_quiet pre) by done.
    change (EvCopyResource staging src :: EvEnd :: poll_events n ++ EvMap staging D3D11_MAP_READ ok :: post)
      with ([EvCopyResource staging src; EvEnd] ++ (poll_events n ++ EvMap staging D3D11_MAP_READ ok :: post)).
    rewrite monitor_app.
    assert (monitor [] [EvCopyResource staging src; EvEnd] = Some []) as -> by (by destruct staging).
    rewrite monitor_app, (monitor_quiet (poll_events n)) by apply poll_events_quiet.
    simpl. destruct staging; simpl; by rewrite monitor_quiet.
Qed.


Lemma emits_getStagingBuffer type size_required :
  emits staging_buffer_event (D3D11.getStagingBuffer drv type size_required).
Proof. unfold D3D11.getStagingBuffer. emits_tac. Qed.

Lemma getStagingBuffer_context type size_required (st : St D3D11.GraphicsDeviceD3D11 W) :
  D3D11.m_context (this (final (D3D11.getStagingBuffer drv type size_required st)))
  = D3D11.m_context (this st).
Proof.
  unfold D3D11.getStagingBuffer. prims.
  repeat (break_match; simpl; try done).
Qed.

Lemma staging_buffer_event_quiet e : staging_buffer_event e -> quiet e.
Proof. by destruct e. Qed.

Lemma emits_proc_read_tail_buffer dst (buf : option handle) size
    (mapped : option D3D11_MAPPED_SUBRESOURCE) :
  emits (Dev:=D3D11.GraphicsDeviceD3D11) (W:=W) quiet
    match mapped with
    | None =>
        log (EvLog "GraphicsDeviceD3D11::readBuffer(): Map() failed.");;;
        ret (Unknown, dst)
    | Some _ =>
        dst' <- memcpy_from_mapped drv dst 0 buf 0 (wrap_u64 size);;
        call_ (EvUnmap buf) (Unmap drv buf);;;
        ret (OK, dst')
    end.
Proof.
  destruct mapped; emits_tac. by apply emits_memcpy_from_mapped.
Qed.

Lemma proc_read_buffer_shape dst buf size (st : St D3D11.GraphicsDeviceD3D11 W) ctx :
  D3D11.m_context (this st) = Some ctx ->
  exists ok post,
    trace (final (D3D11.proc_read_buffer drv dst buf size st))
    = trace st ++ EvMap buf D3D11_MAP_READ ok :: post /\ Forall quiet post.
Proof.
  intros Hctx. unfold D3D11.proc_read_buffer.
  unfold bind at 1. unfold get_this at 1. unfold bind at 1. rewrite Hctx. simpl.
  destruct (bind_call_trace quiet (fun m => EvMap buf D3D11_MAP_READ (negb (is_null m)))
              (Map drv buf D3D11_MAP_READ)
              (fun mapped : option D3D11_MAPPED_SUBRESOURCE =>
                 match mapped with
                 | None =>
                     log (EvLog "GraphicsDeviceD3D11::readBuffer(): Map() failed.");;;
                     ret (Unknown, dst)
                 | Some _ =>
                     dst' <- memcpy_from_mapped drv dst 0 buf 0 (wrap_u64 size);;
                     call_ (EvUnmap buf) (Unmap drv buf);;;
                     ret (OK, dst')
                 end) st) as (x & post & _ & Ht & F).
  { intros mapped. apply emits_proc_read_tail_buffer. }
  eauto.
Qed.

Lemma d3d11_readBuffer_staging_trace dst src_buf read_size type
    (st : St D3D11.GraphicsDeviceD3D11 W) :
  read_size <> 0 ->
  Z.land (buf_CPUAccessFlags (Buffer_GetDesc drv src_buf (gpu st))) D3D11_CPU_ACCESS_READ = 0 ->
  exists evs,
    trace (final (D3D11.readBuffer drv (Some dst) (Some src_buf) read_size type st))
    = trace st ++ evs /\
    staged_read_shape src_buf evs.
Proof.
  intros Hsize Hflag. unfold D3D11.readBuffer.
  destruct (Z.eqb_spec read_size 0) as [|_]; [done|].
  unfold bind at 1. unfold query at 1. rewrite Hflag. cbn [Z.eqb negb].
  set (st1 := mkSt (this st) (gpu st) (trace st ++ [EvGetDesc src_buf])).
  unfold bind at 1.
  pose proof (emits_getStagingBuffer type read_size st1) as (evs1 & Ht1 & F1).
  pose proof (getStagingBuffer_context type read_size st1) as Hc1.
  assert (Fpre : Forall quiet (EvGetDesc src_buf :: evs1)).
  { constructor; [done|]. eapply Forall_impl; [exact F1 | apply staging_buffer_event_quiet]. }
  destruct (D3D11.getStagingBuffer drv type read_size st1) as [staging s2|why s2];
    simpl in Ht1, Hc1.
  - unfold bind at 1. unfold get_this at 1. unfold bind at 1.
    destruct (D3D11.m_context (this s2)) as [ctx|] eqn:Hctx; simpl.
    + unfold bind at 1. unfold call_ at 1. unfold bind at 1.
      rewrite sync_run11. cbn [this gpu trace]. rewrite Hctx.
      destruct (GetData_polls drv _) as [n w].
      set (s4 := mkSt _ _ _).
      destruct (proc_read_buffer_shape (Some dst) staging read_size s4 ctx)
        as (ok & post & Ht & F); [done|].
      exists ((EvGetDesc src_buf :: evs1) ++ EvCopyResource staging src_buf :: EvEnd
                :: poll_events n ++ EvMap staging D3D11_MAP_READ ok :: post).
      split.
      * rewrite Ht. subst s4 st1. simpl. rewrite Ht1. simpl.
        rewrite <- ?app_assoc. simpl. by rewrite <- ?app_assoc.
      * right. by exists (EvGetDesc src_buf :: evs1), staging, n, ok, post.
    + exists (EvGetDesc src_buf :: evs1). split; [|by left].
      rewrite Ht1. subst st1. simpl. by rewrite <- app_assoc.
  - exists (EvGetDesc src_buf :: evs1). split; [|by left].
    simpl. rewrite Ht1. subst st1. simpl. by rewrite <- app_assoc.
Qed.


Lemma sync_run9 (st : St D3D9.GraphicsDeviceD3D9 W) :
  D3D9.sync drv st =
  match D3D9.m_query_event (this st) with
  | None => Stuck NullDeref st
  | Some _ =>
      let '(s_ok, w) := GetData9 drv (Issue drv (gpu st)) in
      Ret tt (mkSt (this st) w
                (trace st ++ EvIssue :: EvGetData9 s_ok
                   :: (if s_ok then [] else [EvLog "GetData() failed"])))
  end.
Proof.
  unfold D3D9.sync. prims. destruct (D3D9.m_query_event (this st)); [|done]. simpl.
  destruct (GetData9 drv _) as [[|] w]; simpl; by rewrite <- ?app_assoc.
Qed.

Lemma emits_BGRA_RGBA_conversion_in_place P o_buf n :
  emits (W:=W) P (D3D9.BGRA_RGBA_conversion_in_place o_buf n).
Proof. unfold D3D9.BGRA_RGBA_conversion_in_place. emits_tac. Qed.

Lemma d3d9_readTexture_trace o_buf bufsize tex_ width height format
    (st : St D3D9.GraphicsDeviceD3D9 W) :
  exists evs,
    trace (final (D3D9.readTexture drv GetTexelSize o_buf bufsize tex_ width height format st))
    = trace st ++ evs /\
    d3d9_read_shape evs.
Proof.
  unfold D3D9.readTexture. unfold bind at 1.
  pose proof (emits_findOrCreateStagingTexture drv width height format st) as (evs1 & Ht1 & F1).
  assert (Fq : Forall quiet evs1) by (eapply Forall_impl; [exact F1 | apply cache_event_quiet]).
  assert (Hquiet : forall evs, Forall quiet evs -> d3d9_read_shape evs).
  { intros evs F. exists evs, []. rewrite app_nil_r. split; [done|]. split; [done | by left]. }
  destruct (D3D9.findOrCreateStagingTexture drv width height format st) as [[surf_dst|] s1|why s1];
    simpl in Ht1; [| by exists evs1; split; [|apply Hquiet] ..].
  unfold bind at 1. destruct tex_ as [tex|]; simpl; [|by exists evs1; split; [|apply Hquiet]].
  unfold bind at 1. unfold call at 1.
  destruct (GetSurfaceLevel drv tex 0 (gpu s1)) as [[surf_src|] w2]; simpl.
  2:{ exists (evs1 ++ [EvGetSurfaceLevel tex None]). split.
      - by rewrite Ht1, <- app_assoc.
      - apply Hquiet. apply Forall_app. split; [done|]. by repeat constructor. }
  assert (Fpre : Forall quiet (evs1 ++ [EvGetSurfaceLevel tex (Some surf_src)])).
  { apply Forall_app. split; [done|]. by repeat constructor. }
  unfold bind at 1. rewrite sync_run9. cbn [this gpu trace].
  destruct (D3D9.m_query_event (this s1)); simpl.
  2:{ exists (evs1 ++ [EvGetSurfaceLevel tex (Some surf_src)]). split.
      - by rewrite Ht1, <- app_assoc.
      - by apply Hquiet. }
  destruct (GetData9 drv _) as [s_ok w3].
  set (mid := if s_ok then [] else [EvLog "GetData() failed"]).
  assert (Fmid : Forall log_event mid) by (subst mid; destruct s_ok; by repeat constructor).
  unfold bind at 1. unfold get_this at 1. cbn [this gpu trace].
  unfold bind at 1. destruct (D3D9.m_device (this s1)); simpl.
  2:{ exists ((evs1 ++ [EvGetSurfaceLevel tex (Some surf_src)])
                ++ EvIssue :: EvGetData9 s_ok :: mid ++ []). split.
      - rewrite Ht1, app_nil_r. by rewrite <- ?app_assoc.
      - eexists _, _. split; [done|]. split; [done|]. right.
        exists s_ok, mid, []. split; [done|]. split; [done | by left]. }
  unfold bind at 1. unfold call at 1. cbn [this gpu trace].
  destruct (GetRenderTargetData drv surf_src surf_dst w3) as [copied w4].
  set (s4 := mkSt _ _ _).
  assert (Hs4 : trace s4 = trace st ++ (evs1 ++ [EvGetSurfaceLevel tex (Some surf_src)])
                  ++ EvIssue :: EvGetData9 s_ok :: mid
                  ++ [EvGetRenderTargetData surf_src surf_dst copied]).
  { subst s4. simpl. rewrite Ht1. rewrite <- ?app_assoc. simpl. by rewrite <- ?app_assoc. }
  destruct copied.
  - rewrite bind_assoc.
    match goal with
    | |- context [bind (call ?e ?f) ?k s4] =>
        destruct (bind_call_trace quiet e f k s4) as (x & post & _ & Ht & F)
    end.
    { intros locked. emits_tac.
      - by apply emits_memcpy_from_mapped.
      - by apply emits_read_rows.
      - apply emits_BGRA_RGBA_conversion_in_place. }
    exists ((evs1 ++ [EvGetSurfaceLevel tex (Some surf_src)])
              ++ EvIssue :: EvGetData9 s_ok :: mid
              ++ EvGetRenderTargetData surf_src surf_dst true
                 :: EvLockRect surf_dst D3DLOCK_READONLY (negb (is_null x)) :: post).
    split.
    + rewrite Ht, Hs4. rewrite <- ?app_assoc. simpl. by rewrite <- ?app_assoc.
    + exists (evs1 ++ [EvGetSurfaceLevel tex (Some surf_src)]). eexists.
      split; [done|]. split; [exact Fpre|]. right.
      exists s_ok, mid. eexists. split; [done|]. split; [done|]. right.
      exists surf_src, surf_dst, true. eexists.
      split; [done|]. right. split; [done|]. by eexists _, _.
  - unfold bind, ret, call_. simpl.
    exists ((evs1 ++ [EvGetSurfaceLevel tex (Some surf_src)])
              ++ EvIssue :: EvGetData9 s_ok :: mid
              ++ [EvGetRenderTargetData surf_src surf_dst false; EvRelease surf_src]).
    split.
    + rewrite Ht1. rewrite <- ?app_assoc. simpl. by rewrite <- ?app_assoc.
    + exists (evs1 ++ [EvGetSurfaceLevel tex (Some surf_src)]). eexists.
      split; [done|]. split; [exact Fpre|]. right.
      exists s_ok, mid. eexists. split; [done|]. split; [done|]. right.
      exists surf_src, surf_dst, false. eexists.
      split; [done|]. left. split; [done|]. by repeat constructor.
Qed.

Lemma log_event_quiet e : log_event e -> quiet e.
Proof. by destruct e. Qed.

End Order.

Lemma quiet_not_copy l src dst copied :
  Forall quiet l -> ~ In (EvGetRenderTargetData src dst copied) l.
Proof.
  intros F H. rewrite Forall_forall in F. apply list_elem_of_In in H.
  by specialize (F _ H).
Qed.

Lemma d3d9_read_shape_unsynced evs :
  d3d9_read_shape evs ->
  (exists src dst, In (EvGetRenderTargetData src dst true) evs) ->
  sync_between_copy_and_read evs = false.
Proof.
  intros (pre & tail & -> & Fpre & Htail) (s & d & Hin).
  apply in_app_or in Hin as [Hin|Hin]; [by apply quiet_not_copy in Hin|].
  destruct Htail as [-> | (s_ok & mid & tail2 & -> & Fmid & Htail2)]; [done|].
  assert (Fmidq : Forall quiet mid).
  { eapply Forall_impl; [exact Fmid | apply log_event_quiet]. }
  destruct Hin as [Hin|[Hin|Hin]]; [done..|].
  apply in_app_or in Hin as [Hin|Hin]; [by apply quiet_not_copy in Hin|].
  destruct Htail2 as [-> | (src & dst & copied & post & -> & Hpost)]; [done|].
  destruct Hpost as [[-> Fpost] | [-> (ok & post' & -> & Fpost)]].
  - destruct Hin as [Hin|Hin]; [done | by apply quiet_not_copy in Hin].
  - unfold sync_between_copy_and_read.
    rewrite monitor_app, (monitor_quiet pre) by done. cbn [monitor monitor_step].
    rewrite monitor_app, (monitor_quiet mid) by done. cbn [monitor monitor_step].
    rewrite bool_decide_eq_true_2 by apply list_elem_of_here. done.
Qed.

(** C7 (as amended): on the D3D11 device, a [readTexture] or [readBuffer]
    whose source is not CPU-readable either stops before it maps anything,
    or copies the source into the staging resource, calls sync() ([End],
    then the polls of [GetData]) and only then maps the staging resource
    for reading.  The D3D9 [readTexture] calls sync() before the copy
    [GetRenderTargetData] and locks the staging surface right after the
    copy: whenever that copy succeeds, no sync() lies between the copy and
    the lock. *)
Theorem sync_order_of_staged_reads {W} (drv : Driver W) (GetTexelSize : TextureFormat -> Z)
    (dst o_buf : option buffer) (dst_bytes : buffer) (src ctx : handle) (tex_ : option handle)
    (dst_size width height read_size : Z) (format : TextureFormat) (type : BufferType)
    (st11 : St D3D11.GraphicsDeviceD3D11 W) (st9 : St D3D9.GraphicsDeviceD3D9 W) :
  (D3D11.m_context (this st11) = Some ctx ->
   Z.land (tex_CPUAccessFlags (Texture2D_GetDesc drv src (gpu st11))) D3D11_CPU_ACCESS_READ = 0 ->
   let evs := emitted st11 (D3D11.readTexture drv GetTexelSize dst dst_size (Some src)
                              width height format st11) in
   staged_read_shape src evs /\ sync_between_copy_and_read evs = true) /\
  (read_size <> 0 ->
   Z.land (buf_CPUAccessFlags (Buffer_GetDesc drv src (gpu st11))) D3D11_CPU_ACCESS_READ = 0 ->
   let evs := emitted st11 (D3D11.readBuffer drv (Some dst_bytes) (Some src) read_size type
                              st11) in
   staged_read_shape src evs /\ sync_between_copy_and_read evs = true) /\
  (let evs := emitted st9 (D3D9.readTexture drv GetTexelSize o_buf dst_size tex_
                             width height format st9) in
   d3d9_read_shape evs /\
   ((exists s d, In (EvGetRenderTargetData s d true) evs) ->
    sync_between_copy_and_read evs = false)).
Proof.
  split; [|split].
  - intros Hctx Hflag.
    destruct (d3d11_readTexture_staging_trace drv GetTexelSize dst dst_size src width height
                format st11 ctx Hctx Hflag) as (evs & Ht & Hshape).
    cbv zeta. rewrite (emitted_app _ _ _ Ht). split; [done|].
    by apply (staged_read_shape_monitor src).
  - intros Hsize Hflag.
    destruct (d3d11_readBuffer_staging_trace drv dst_bytes src read_size type st11 Hsize Hflag)
      as (evs & Ht & Hshape).
    cbv zeta. rewrite (emitted_app _ _ _ Ht). split; [done|].
    by apply (staged_read_shape_monitor src).
  - destruct (d3d9_readTexture_trace drv GetTexelSize o_buf dst_size tex_ width height format st9)
      as (evs & Ht & Hshape).
    cbv zeta. rewrite (emitted_app _ _ _ Ht). split; [done|].
    by apply d3d9_read_shape_unsynced.
Qed.

Lemma sync_order_of_staged_reads_witness :
  let tex := RefDriver.make_resource 1 1 4 DXGI_FORMAT_R32_FLOAT 1 0 in
  let st11 := Scenario.start11 1 false tex in
  let st9 := Scenario.start9 1 (RefDriver.make_resource 1 1 4 D3DFMT_R32F 1 0) in
  (let evs := emitted st11 (D3D11.readTexture RefDriver.driver GetTexelSize_table
                              (Some (RefDriver.zeros 4)) 4 (Some 1%positive) 1 1 Rf32 st11) in
   staged_read_shape 1%positive evs /\ sync_between_copy_and_read evs = true) /\
  (let evs := emitted st11 (D3D11.readBuffer RefDriver.driver (Some (RefDriver.zeros 4))
                              (Some 1%positive) 4 Vertex st11) in
   staged_read_shape 1%positive evs /\ sync_between_copy_and_read evs = true) /\
  (let evs := emitted st9 (D3D9.readTexture RefDriver.driver GetTexelSize_table
                             (Some (RefDriver.zeros 4)) 4 (Some 1%positive) 1 1 Rf32 st9) in
   sync_between_copy_and_read evs = false).
Proof.
  cbv zeta.
  destruct (sync_order_of_staged_reads RefDriver.driver GetTexelSize_table
              (Some (RefDriver.zeros 4)) (Some (RefDriver.zeros 4)) (RefDriver.zeros 4)
              1%positive 101%positive (Some 1%positive) 4 1 1 4 Rf32 Vertex
              (Scenario.start11 1 false (RefDriver.make_resource 1 1 4 DXGI_FORMAT_R32_FLOAT 1 0))
              (Scenario.start9 1 (RefDriver.make_resource 1 1 4 D3DFMT_R32F 1 0)))
    as (H1 & H2 & _ & H3).
  split; [apply H1; reflexivity|]. split; [apply H2; [lia | reflexivity]|].
  apply H3. exists 1%positive, 2%positive. vm_compute. tauto.
Defined.

(** C7 (as stated) fails on the D3D9 device: in this run on the reference
    driver, sync() ([Issue], [GetData]) comes before the copy into the
    staging surface 2, and the surface is locked for reading right after
    the copy. *)
Lemma d3d9_readTexture_locks_without_sync :
  let st := Scenario.start9 1 (RefDriver.make_resource 1 1 4 D3DFMT_R32F 1 0) in
  let o := D3D9.readTexture RefDriver.driver GetTexelSize_table (Some (RefDriver.zeros 4)) 4
                            (Some 1%positive) 1 1 Rf32 st in
  emitted st o
  = [EvCreateOffscreenPlainSurface 1 1 D3DFMT_R32F (Some 2%positive);
     EvGetSurfaceLevel 1%positive (Some 1%positive);
     EvIssue; EvGetData9 true;
     EvGetRenderTargetData 1%positive 2%positive true;
     EvLockRect 2%positive D3DLOCK_READONLY true;
     EvMemcpyFromMapped (Some 2%positive) 0 0 (RefDriver.zeros 4);
     EvUnlockRect 2%positive;
     EvRelease 1%positive] /\
  sync_between_copy_and_read (emitted st o) = false /\
  ~ (forall c, In c (backends RefDriver.driver GetTexelSize_table) ->
     forall (st : St (Obj c) RefDriver.World) dst size tex width height format,
       sync_between_copy_and_read
         (emitted st (v_readTexture c dst size tex width height format st)) = true).
Proof.
  cbv zeta. split; [vm_compute; reflexivity|]. split; [vm_compute; reflexivity|].
  intros H.
  specialize (H (class_D3D9 RefDriver.driver GetTexelSize_table)
                (or_intror (or_introl eq_refl))
                (Scenario.start9 1 (RefDriver.make_resource 1 1 4 D3DFMT_R32F 1 0))
                (Some (RefDriver.zeros 4)) 4 (Some 1%positive) 1 1 Rf32).
  vm_compute in H. discriminate H.
Qed.

(** ** The exchange of red and blue on the D3D9 device *)

Lemma texels_of_bytes_app {T} (l : list (RGBA T)) (t : list T) :
  texels_of_bytes (bytes_of_texels l ++ t) = l ++ texels_of_bytes t.
Proof. induction l as [|[x y z w] l IH]; simpl; [done|]. by rewrite IH. Qed.

Lemma BGRA_RGBA_conversion_bytes_texels bytes n out :
  BGRA_RGBA_conversion_bytes bytes n = Some out ->
  take (Z.to_nat n) (texels_of_bytes out)
  = map swap_r_b (take (Z.to_nat n) (texels_of_bytes bytes)).
Proof.
  unfold BGRA_RGBA_conversion_bytes.
  destruct (BGRA_RGBA_conversion (texels_of_bytes bytes) n) as [texels|] eqn:E; [|done].
  intros H. inversion H; subst out. clear H.
  pose proof E as Hinv. unfold BGRA_RGBA_conversion in Hinv.
  apply BGRA_RGBA_loop_inv in Hinv as [Hz | Hlen].
  - rewrite Hz. done.
  - simpl in Hlen. rewrite BGRA_RGBA_conversion_Some in E by lia.
    inversion E; subst texels. rewrite texels_of_bytes_app.
    rewrite <- app_assoc.
    rewrite take_app_le by (rewrite length_map, length_take; lia).
    rewrite take_ge by (rewrite length_map, length_take; lia). done.
Qed.

Lemma two_swaps_cancel {T} (dst src : list (RGBA T)) (n : Z) :
  n <= Z.of_nat (length dst) -> n <= Z.of_nat (length src) ->
  exists staged out,
    copy_with_BGRA_RGBA_conversion dst src n = Some staged /\
    take (Z.to_nat n) staged = map swap_r_b (take (Z.to_nat n) src) /\
    BGRA_RGBA_conversion staged n = Some out /\
    take (Z.to_nat n) out = take (Z.to_nat n) src.
Proof.
  intros Hd Hs. rewrite copy_with_BGRA_RGBA_conversion_Some by done.
  eexists _, _. split; [done|].
  assert (Hl : length (map swap_r_b (take (Z.to_nat n) src)) = Z.to_nat n).
  { rewrite length_map, length_take. lia. }
  assert (Ht : take (Z.to_nat n) (map swap_r_b (take (Z.to_nat n) src) ++ drop (Z.to_nat n) dst)
               = map swap_r_b (take (Z.to_nat n) src)).
  { rewrite take_app_le by lia. by rewrite take_ge by lia. }
  split; [exact Ht|].
  rewrite BGRA_RGBA_conversion_Some by (rewrite length_app, Hl; lia).
  split; [done|]. rewrite Ht.
  rewrite take_app_le by (rewrite !length_map, length_take; lia).
  rewrite take_ge by (rewrite !length_map, length_take; lia).
  rewrite map_map. rewrite <- (map_id (take (Z.to_nat n) src)) at 2.
  apply map_ext. intros p. apply swap_r_b_involutive.
Qed.

Lemma buf_read_length data off len bytes :
  buf_read data off len = Some bytes -> Z.of_nat (length bytes) = len.
Proof.
  unfold buf_read. destruct (_ && _) eqn:E; [|done]. intros H. inversion H; subst.
  rewrite !andb_true_iff in E. destruct E as [[H1 H2] H3].
  rewrite length_take, length_drop. lia.
Qed.

Lemma refdriver_load_exact : load_exact RefDriver.driver.
Proof.
  intros res off len w bytes. simpl. unfold RefDriver.load.
  destruct res as [h|]; [|done]. simpl.
  destruct (RefDriver.resources w !! h) as [d|]; [|done]. simpl.
  apply buf_read_length.
Qed.

Section Channels.
Context {W : Type} (drv : Driver W) (GetTexelSize : TextureFormat -> Z).

Lemma copy_with_to_locked_ret surf src n (st st' : St D3D9.GraphicsDeviceD3D9 W) :
  load_exact drv ->
  D3D9.copy_with_BGRA_RGBA_conversion_to_locked drv surf (Some src) n st = Ret tt st' ->
  exists evs, trace st' = trace st ++ evs /\
    (evs = [] \/
     evs = [EvMemcpyToMapped (Some surf) 0
              (bytes_of_texels (map swap_r_b (take (Z.to_nat n) (texels_of_bytes src))))]).
Proof.
  intros Hload. unfold D3D9.copy_with_BGRA_RGBA_conversion_to_locked.
  destruct (Z.leb_spec n 0) as [Hn|Hn].
  { intros H. inversion H; subst. exists []. rewrite app_nil_r. by split; [|left]. }
  prims. simpl.
  destruct (mapped_load drv (Some surf) 0 (4 * n) (gpu st)) as [dst|] eqn:Hl; [|done].
  apply Hload in Hl.
  destruct (copy_with_BGRA_RGBA_conversion (texels_of_bytes dst) (texels_of_bytes src) n)
    as [texels|] eqn:Hc; [|done].
  assert (Hlen : length (texels_of_bytes dst) = Z.to_nat n).
  { rewrite texels_of_bytes_length.
    replace (length dst) with (Z.to_nat n * 4)%nat by lia.
    by rewrite Nat.div_mul. }
  pose proof Hc as Hinv. unfold copy_with_BGRA_RGBA_conversion in Hinv.
  apply copy_with_BGRA_RGBA_loop_inv in Hinv as [Hz | [_ Hsrc]]; [lia|].
  rewrite copy_with_BGRA_RGBA_conversion_Some in Hc by lia.
  rewrite <- Hlen, drop_all, app_nil_r, Hlen in Hc. inversion Hc; subst texels.
  destruct (mapped_store drv _ _ _ _); [|done].
  intros H. inversion H; subst. simpl. eexists. split; [done|]. by right.
Qed.


Lemma cache_event_not_copy_in e : cache_event e -> not_copy_in e.
Proof. by destruct e. Qed.

Lemma cache_event_not_copy_out e : cache_event e -> not_copy_out e.
Proof. by destruct e. Qed.

Ltac norm_trace :=
  repeat match goal with H : trace _ = _ |- _ => rewrite H; clear H end;
  cbn [trace this gpu]; rewrite <- ?app_assoc; cbn [app]; rewrite <- ?app_assoc.

Lemma d3d9_writeTexture_RGBAu8_stores o_tex width height src bufsize
    (st : St D3D9.GraphicsDeviceD3D9 W) :
  load_exact drv ->
  match D3D9.writeTexture drv GetTexelSize o_tex width height RGBAu8 (Some src) bufsize st with
  | Ret _ st' =>
      exists evs, trace st' = trace st ++ evs /\
        (stores evs = [] \/
         exists surf,
           stores evs
           = [(Some surf, 0,
               bytes_of_texels
                 (map swap_r_b
                    (take (Z.to_nat (wrap_int (wrap_u64 bufsize / 4))) (texels_of_bytes src))))])
  | Stuck _ _ => True
  end.
Proof.
  intros Hload. unfold D3D9.writeTexture. cbv zeta.
  unfold bind at 1. unfold size_t_div. destruct (_ =? 0); [done|]. unfold ret at 1.
  unfold bind at 1.
  pose proof (emits_findOrCreateStagingTexture drv width height RGBAu8 st) as (evs1 & Ht1 & F1).
  assert (Hs1 : stores evs1 = []).
  { apply stores_skip. eapply Forall_impl; [exact F1 | apply cache_event_not_copy_in]. }
  destruct (D3D9.findOrCreateStagingTexture drv width height RGBAu8 st)
    as [[surf_src|] s1|why s1]; simpl in Ht1; [| | done].
  2:{ exists evs1. split; [done | by left]. }
  unfold bind at 1. destruct o_tex as [tex|]; [|done]. cbn [deref]. unfold ret at 1.
  unfold bind at 1. unfold call at 1.
  destruct (GetSurfaceLevel drv tex 0 (gpu s1)) as [[surf_dst|] w2].
  2:{ eexists. split; [norm_trace; reflexivity|]. left.
      by rewrite stores_app, Hs1. }
  unfold bind at 1. unfold call at 1. cbn [this gpu trace].
  destruct (LockRect drv surf_src D3DLOCK_DISCARD w2) as [[l|] w3].
  2:{ unfold bind, ret, call_. cbn [final this gpu trace].
      eexists. split; [norm_trace; reflexivity|]. left.
      by rewrite stores_app, Hs1. }
  change (RGBAu8 =? RGBAu8) with true. cbv iota.
  rewrite !bind_assoc. unfold bind at 1.
  set (s3 := mkSt _ _ _).
  destruct (D3D9.copy_with_BGRA_RGBA_conversion_to_locked drv surf_src (Some src) _ s3)
    as [[] s4|] eqn:E; [|done].
  apply (copy_with_to_locked_ret _ _ _ _ _ Hload) in E as (evs4 & Ht4 & Hevs4).
  subst s3. cbn [trace] in Ht4.
  rewrite !bind_assoc. unfold bind at 1. unfold call_ at 1.
  rewrite !bind_assoc. unfold bind at 1. unfold get_this at 1.
  rewrite !bind_assoc. unfold bind at 1. cbn [this gpu trace].
  destruct (D3D9.m_device (this s4)); [|done]. cbn [deref]. unfold ret at 1.
  rewrite !bind_assoc. unfold bind at 1. unfold call at 1. cbn [this gpu trace].
  destruct (UpdateSurface drv surf_src surf_dst _) as [updated w5].
  assert (Hst : forall ok, stores (evs1 ++ EvGetSurfaceLevel tex (Some surf_dst)
                          :: EvLockRect surf_src D3DLOCK_DISCARD ok
                          :: evs4 ++ [EvUnlockRect surf_src;
                                      EvUpdateSurface surf_src surf_dst updated;
                                      EvRelease surf_dst])
                = stores evs4).
  { intros ok. unfold stores in *. rewrite omap_app, Hs1. simpl. rewrite omap_app. simpl.
    by rewrite app_nil_r. }
  destruct updated; unfold bind, ret, call_; cbn [final this gpu trace].
  all: eexists; split; [norm_trace; reflexivity|]; rewrite Hst.
  all: destruct Hevs4 as [-> | ->]; [by left | right; by eexists].
Qed.


Lemma BGRA_RGBA_conversion_bytes_none bytes n :
  n <= 0 -> BGRA_RGBA_conversion_bytes bytes n = Some bytes.
Proof.
  intros Hn. unfold BGRA_RGBA_conversion_bytes, BGRA_RGBA_conversion.
  replace (Z.to_nat n) with O by lia. simpl. by rewrite bytes_of_texels_of_bytes.
Qed.

Lemma copy_out_event_not_copy_in e : copy_out_event e -> not_copy_in e.
Proof. by destruct e. Qed.

(** The copy of [readTexture] out of the locked surface, in one piece or
    row by row. *)
Lemma d3d9_read_copy_ret (d : buffer) surf (same_pitch : bool) bufsize rows size dp sp
    (s s' : St D3D9.GraphicsDeviceD3D9 W) buf :
  (if same_pitch
   then memcpy_from_mapped drv (Some d) 0 (Some surf) 0 bufsize
   else read_rows drv rows (Some d) 0 (Some surf) 0 size dp sp) s = Ret buf s' ->
  exists evs d',
    buf = Some d' /\ replay_reads evs d = Some d' /\
    s' = mkSt (this s) (gpu s) (trace s ++ evs).
Proof.
  destruct same_pitch; intros H.
  - apply memcpy_from_mapped_ret in H as (d0 & bytes & d' & Hd & Hw & -> & ->).
    inversion Hd; subst d0. eexists _, d'. split; [done|]. split; [|done].
    simpl. by rewrite Hw.
  - apply read_rows_ret in H as (evs & d' & -> & Hr & _ & ->). by exists evs, d'.
Qed.

Lemma d3d9_readTexture_RGBAu8_result (d : buffer) bufsize tex_ width height
    (st : St D3D9.GraphicsDeviceD3D9 W) :
  match D3D9.readTexture drv GetTexelSize (Some d) bufsize tex_ width height RGBAu8 st with
  | Ret (OK, out) st' =>
      exists evs copied out_bytes,
        trace st' = trace st ++ evs /\
        replay_reads evs d = Some copied /\
        BGRA_RGBA_conversion_bytes copied (wrap_int (wrap_u64 bufsize / 4)) = Some out_bytes /\
        out = Some out_bytes
  | _ => True
  end.
Proof.
  unfold D3D9.readTexture. unfold bind at 1.
  pose proof (emits_findOrCreateStagingTexture drv width height RGBAu8 st) as (evs1 & Ht1 & F1).
  assert (Hr1 : forall x, replay_reads evs1 x = Some x).
  { intros x. apply replay_reads_skip.
    eapply Forall_impl; [exact F1 | apply cache_event_not_copy_out]. }
  destruct (D3D9.findOrCreateStagingTexture drv width height RGBAu8 st)
    as [[surf_dst|] s1|why s1]; simpl in Ht1; [| done..].
  unfold bind at 1. destruct tex_ as [tex|]; [|done]. cbn [deref]. unfold ret at 1.
  unfold bind at 1. unfold call at 1.
  destruct (GetSurfaceLevel drv tex 0 (gpu s1)) as [[surf_src|] w2]; [|done].
  unfold bind at 1. rewrite sync_run9. cbn [this gpu trace].
  destruct (D3D9.m_query_event (this s1)); [|done].
  destruct (GetData9 drv _) as [s_ok w3].
  unfold bind at 1. unfold get_this at 1. cbn [this gpu trace].
  unfold bind at 1. destruct (D3D9.m_device (this s1)); [|done]. cbn [deref]. unfold ret at 1.
  unfold bind at 1. unfold call at 1. cbn [this gpu trace].
  destruct (GetRenderTargetData drv surf_src surf_dst w3) as [[|] w4]; [|done].
  rewrite !bind_assoc. unfold bind at 1. unfold call at 1. cbn [this gpu trace].
  destruct (LockRect drv surf_dst D3DLOCK_READONLY w4) as [[l|] w5]; [|done].
  cbv zeta. rewrite !bind_assoc. unfold bind at 1.
  set (s5 := mkSt _ _ _).
  match goal with
  | |- context [(if ?c then memcpy_from_mapped _ _ _ _ _ ?sz else read_rows _ ?rows _ _ _ _ ?size ?dp ?sp) s5] =>
      destruct ((if c then memcpy_from_mapped drv (Some d) 0 (Some surf_dst) 0 sz
                 else read_rows drv rows (Some d) 0 (Some surf_dst) 0 size dp sp) s5)
        as [buf s6|] eqn:E; [|done];
      apply d3d9_read_copy_ret in E as (evs5 & copied & -> & Hcopy & ->)
  end.
  rewrite !bind_assoc. unfold bind at 1. unfold call_ at 1. cbn [this gpu trace].
  rewrite !bind_assoc. change (RGBAu8 =? RGBAu8) with true. cbv iota.
  unfold bind at 1. unfold D3D9.BGRA_RGBA_conversion_in_place.
  assert (Hrep : replay_reads
                   (evs1 ++ EvGetSurfaceLevel tex (Some surf_src) :: EvIssue :: EvGetData9 s_ok
                      :: (if s_ok then [] else [EvLog "GetData() failed"])
                      ++ EvGetRenderTargetData surf_src surf_dst true
                      :: EvLockRect surf_dst D3DLOCK_READONLY true
                      :: evs5 ++ [EvUnlockRect surf_dst; EvRelease surf_src]) d
                 = Some copied).
  { rewrite replay_reads_app, Hr1. cbn [replay_reads].
    destruct s_ok; cbn [app replay_reads]; rewrite replay_reads_app, Hcopy; done. }
  destruct (Z.leb_spec (wrap_int (wrap_u64 bufsize / 4)) 0) as [Hn|Hn].
  - unfold bind, ret, call_. cbn [final this gpu trace].
    eexists _, copied, copied. split; [subst s5; norm_trace; reflexivity|].
    split; [exact Hrep|]. split; [by apply BGRA_RGBA_conversion_bytes_none | done].
  - unfold bind at 1. cbn [defined]. unfold ret at 1. unfold bind at 1.
    destruct (BGRA_RGBA_conversion_bytes copied _) as [out_bytes|] eqn:Hconv; [|done].
    cbn [defined]. unfold bind, ret, call_. cbn [final this gpu trace].
    eexists _, copied, out_bytes. split; [subst s5; norm_trace; reflexivity|].
    split; [exact Hrep|]. by split.
Qed.

Lemma memcpy_to_mapped_ret {Dev} res doff (src : buffer) soff size (st st' : St Dev W) :
  memcpy_to_mapped drv res doff (Some src) soff size st = Ret tt st' ->
  exists bytes, buf_read src soff size = Some bytes /\
    trace st' = trace st ++ [EvMemcpyToMapped res doff bytes].
Proof.
  unfold memcpy_to_mapped. prims. simpl.
  destruct (buf_read src soff size) as [bytes|]; [|done].
  destruct (mapped_store drv res doff bytes (gpu st)); [|done].
  intros H. inversion H; subst. by exists bytes.
Qed.

(** Whatever pitch the lock reports, the D3D9 [writeTexture] of a format
    other than [RGBAu8] stores the source in one piece at the start of the
    staging surface. *)
Lemma d3d9_writeTexture_stores_in_one_piece o_tex width height format (src : buffer) bufsize
    (st : St D3D9.GraphicsDeviceD3D9 W) :
  format <> RGBAu8 ->
  match D3D9.writeTexture drv GetTexelSize o_tex width height format (Some src) bufsize st with
  | Ret _ st' =>
      exists evs, trace st' = trace st ++ evs /\
        (stores evs = [] \/
         exists surf bytes,
           stores evs = [(Some surf, 0, bytes)] /\
           buf_read src 0 (wrap_u64 bufsize) = Some bytes)
  | Stuck _ _ => True
  end.
Proof.
  intros Hfmt. unfold D3D9.writeTexture. cbv zeta.
  unfold bind at 1. unfold size_t_div. destruct (_ =? 0); [done|]. unfold ret at 1.
  unfold bind at 1.
  pose proof (emits_findOrCreateStagingTexture drv width height format st) as (evs1 & Ht1 & F1).
  assert (Hs1 : stores evs1 = []).
  { apply stores_skip. eapply Forall_impl; [exact F1 | apply cache_event_not_copy_in]. }
  destruct (D3D9.findOrCreateStagingTexture drv width height format st)
    as [[surf_src|] s1|why s1]; simpl in Ht1; [| | done].
  2:{ exists evs1. split; [done | by left]. }
  unfold bind at 1. destruct o_tex as [tex|]; [|done]. cbn [deref]. unfold ret at 1.
  unfold bind at 1. unfold call at 1.
  destruct (GetSurfaceLevel drv tex 0 (gpu s1)) as [[surf_dst|] w2].
  2:{ eexists. split; [norm_trace; reflexivity|]. left.
      by rewrite stores_app, Hs1. }
  unfold bind at 1. unfold call at 1. cbn [this gpu trace].
  destruct (LockRect drv surf_src D3DLOCK_DISCARD w2) as [[l|] w3].
  2:{ unfold bind, ret, call_. cbn [final this gpu trace].
      eexists. split; [norm_trace; reflexivity|]. left.
      by rewrite stores_app, Hs1. }
  destruct (Z.eqb_spec format RGBAu8) as [|_]; [done|].
  rewrite !bind_assoc. unfold bind at 1.
  set (s3 := mkSt _ _ _).
  destruct (memcpy_to_mapped drv (Some surf_src) 0 (Some src) 0 (wrap_u64 bufsize) s3)
    as [[] s4|] eqn:E; [|done].
  apply memcpy_to_mapped_ret in E as (bytes & Hread & Ht4).
  subst s3. cbn [trace] in Ht4.
  rewrite !bind_assoc. unfold bind at 1. unfold call_ at 1.
  rewrite !bind_assoc. unfold bind at 1. unfold get_this at 1.
  rewrite !bind_assoc. unfold bind at 1. cbn [this gpu trace].
  destruct (D3D9.m_device (this s4)); [|done]. cbn [deref]. unfold ret at 1.
  rewrite !bind_assoc. unfold bind at 1. unfold call at 1. cbn [this gpu trace].
  destruct (UpdateSurface drv surf_src surf_dst _) as [updated w5].
  assert (Hst : forall ok, stores (evs1 ++ EvGetSurfaceLevel tex (Some surf_dst)
                          :: EvLockRect surf_src D3DLOCK_DISCARD ok
                          :: EvMemcpyToMapped (Some surf_src) 0 bytes
                          :: [EvUnlockRect surf_src;
                              EvUpdateSurface surf_src surf_dst updated;
                              EvRelease surf_dst])
                = [(Some surf_src, 0, bytes)]).
  { intros ok. unfold stores in *. rewrite omap_app, Hs1. done. }
  destruct updated; unfold bind, ret, call_; cbn [final this gpu trace].
  all: eexists; split; [norm_trace; reflexivity|]; rewrite Hst.
  all: right; by eexists _, _.
Qed.
End Channels.

(** C8: on the D3D9 device and for [RGBAu8], [readTexture] exchanges red
    and blue in place over the texels of the destination after the copy out
    of the staging surface; [writeTexture] stores the source texels with red
    and blue exchanged into the staging surface; and the two exchanges
    cancel on every texel. *)
Theorem red_and_blue_are_exchanged_twice {W} (drv : Driver W)
    (GetTexelSize : TextureFormat -> Z) :
  (forall (T : Type) (dst src : list (RGBA T)) (n : Z),
      n <= Z.of_nat (length dst) -> n <= Z.of_nat (length src) ->
      exists staged out,
        copy_with_BGRA_RGBA_conversion dst src n = Some staged /\
        take (Z.to_nat n) staged = map swap_r_b (take (Z.to_nat n) src) /\
        BGRA_RGBA_conversion staged n = Some out /\
        take (Z.to_nat n) out = take (Z.to_nat n) src) /\
  (load_exact drv ->
   forall o_tex width height (src : buffer) bufsize (st st' : St D3D9.GraphicsDeviceD3D9 W) e,
     D3D9.writeTexture drv GetTexelSize o_tex width height RGBAu8 (Some src) bufsize st
     = Ret e st' ->
     let n := Z.to_nat (wrap_int (wrap_u64 bufsize / 4)) in
     stores (emitted st (Ret e st')) = [] \/
     exists surf,
       stores (emitted st (Ret e st'))
       = [(Some surf, 0, bytes_of_texels (map swap_r_b (take n (texels_of_bytes src))))]) /\
  (forall (d : buffer) bufsize tex_ width height (st st' : St D3D9.GraphicsDeviceD3D9 W) out,
     D3D9.readTexture drv GetTexelSize (Some d) bufsize tex_ width height RGBAu8 st
     = Ret (OK, out) st' ->
     let n := wrap_int (wrap_u64 bufsize / 4) in
     exists copied out_bytes,
       replay_reads (emitted st (Ret (OK, out) st')) d = Some copied /\
       BGRA_RGBA_conversion_bytes copied n = Some out_bytes /\
       out = Some out_bytes /\
       take (Z.to_nat n) (texels_of_bytes out_bytes)
       = map swap_r_b (take (Z.to_nat n) (texels_of_bytes copied))).
Proof.
  split; [|split].
  - intros T dst src n. apply two_swaps_cancel.
  - intros Hload o_tex width height src bufsize st st' e H.
    pose proof (d3d9_writeTexture_RGBAu8_stores drv GetTexelSize o_tex width height src bufsize
                  st Hload) as Hs.
    rewrite H in Hs. destruct Hs as (evs & Ht & Hs).
    cbv zeta. by rewrite (emitted_app st (Ret e st') evs Ht).
  - intros d bufsize tex_ width height st st' out H.
    pose proof (d3d9_readTexture_RGBAu8_result drv GetTexelSize d bufsize tex_ width height st)
      as Hr.
    rewrite H in Hr. destruct Hr as (evs & copied & out_bytes & Ht & Hrep & Hconv & ->).
    cbv zeta. erewrite (emitted_app st _ evs); [|exact Ht].
    exists copied, out_bytes. repeat split; try done.
    by apply BGRA_RGBA_conversion_bytes_texels.
Qed.

(** On the reference driver: the texels [1 2 3 4] and [5 6 7 8] are stored
    as [3 2 1 4] and [7 6 5 8], and a read of a surface that holds
    [3 2 1 4] and [7 6 5 8] returns [1 2 3 4] and [5 6 7 8]. *)
Lemma red_and_blue_are_exchanged_twice_witness :
  let swapped := ["003"; "002"; "001"; "004"; "007"; "006"; "005"; "008"]%byte in
  let st := Scenario.start9 1 (RefDriver.make_resource 2 1 4 D3DFMT_A8R8G8B8 1 0) in
  let o := D3D9.writeTexture RefDriver.driver GetTexelSize_table (Some 1%positive) 2 1 RGBAu8
                             (Some Scenario.data8) 8 st in
  let o' := D3D9.readTexture RefDriver.driver GetTexelSize_table (Some (RefDriver.zeros 8)) 8
                             (Some 1%positive) 2 1 RGBAu8 (final o) in
  (exists staged out : list (RGBA byte),
      copy_with_BGRA_RGBA_conversion (texels_of_bytes (RefDriver.zeros 8))
                                     (texels_of_bytes Scenario.data8) 2 = Some staged /\
      take 2 staged = map swap_r_b (take 2 (texels_of_bytes Scenario.data8)) /\
      BGRA_RGBA_conversion staged 2 = Some out /\
      take 2 out = take 2 (texels_of_bytes Scenario.data8)) /\
  stores (emitted st o) = [(Some 2%positive, 0, swapped)] /\
  (exists copied out_bytes,
      replay_reads (emitted (final o) o') (RefDriver.zeros 8) = Some copied /\
      BGRA_RGBA_conversion_bytes copied 2 = Some out_bytes /\
      returned o' = Some (OK, Some out_bytes) /\
      copied = swapped /\ out_bytes = Scenario.data8).
Proof.
  cbv zeta.
  destruct (red_and_blue_are_exchanged_twice RefDriver.driver GetTexelSize_table)
    as (Hpure & Hwrite & Hread).
  split; [|split].
  - apply (Hpure byte (texels_of_bytes (RefDriver.zeros 8)) (texels_of_bytes Scenario.data8) 2);
      vm_compute; discriminate.
  - set (st := Scenario.start9 1 (RefDriver.make_resource 2 1 4 D3DFMT_A8R8G8B8 1 0)).
    set (o := D3D9.writeTexture RefDriver.driver GetTexelSize_table (Some 1%positive) 2 1 RGBAu8
                                (Some Scenario.data8) 8 st).
    assert (Ho : o = Ret Unknown (final o)) by (vm_compute; reflexivity).
    destruct (Hwrite refdriver_load_exact (Some 1%positive) 2 1 Scenario.data8 8 st (final o)
                Unknown Ho) as [Hs | (surf & Hs)].
    + rewrite <- Ho in Hs. vm_compute in Hs. discriminate Hs.
    + vm_compute. reflexivity.
  - set (st := final (D3D9.writeTexture RefDriver.driver GetTexelSize_table (Some 1%positive)
                        2 1 RGBAu8 (Some Scenario.data8) 8
                        (Scenario.start9 1 (RefDriver.make_resource 2 1 4 D3DFMT_A8R8G8B8 1 0)))).
    set (o' := D3D9.readTexture RefDriver.driver GetTexelSize_table (Some (RefDriver.zeros 8)) 8
                                (Some 1%positive) 2 1 RGBAu8 st).
    assert (Ho : o' = Ret (OK, Some Scenario.data8) (final o')) by (vm_compute; reflexivity).
    destruct (Hread (RefDriver.zeros 8) 8 (Some 1%positive) 2 1 st (final o')
                (Some Scenario.data8) Ho) as (copied & out_bytes & Hrep & Hconv & Hout & _).
    rewrite <- Ho in Hrep. exists copied, out_bytes.
    split; [exact Hrep|]. split; [exact Hconv|].
    inversion Hout; subst out_bytes. split; [by rewrite Ho|].
    split; [|done]. vm_compute in Hrep. by inversion Hrep.
Defined.

(** ** Write, then read *)

Section Padded.
Context {W : Type} (drv : Driver W) (GetTexelSize : TextureFormat -> Z).

Lemma buf_read_Some_bound data off len bytes :
  buf_read data off len = Some bytes -> off + len <= Z.of_nat (length data).
Proof.
  unfold buf_read. destruct (_ && _) eqn:E; [|done]. intros _.
  rewrite !andb_true_iff in E. lia.
Qed.

(** A row loop whose last row ends past the source stops there at the
    latest. *)
Lemma write_rows_past_the_source {Dev} rows res doff (src : buffer) soff size dp sp
    (st : St Dev W) :
  (1 <= rows)%nat -> 0 <= sp ->
  soff + (Z.of_nat rows - 1) * sp + size > Z.of_nat (length src) ->
  why_stuck (write_rows drv rows res doff (Some src) soff size dp sp st) = Some OutOfBounds.
Proof.
  revert doff soff st. induction rows as [|k IH]; intros doff soff st Hrows Hsp Hlast; [lia|].
  simpl. unfold bind at 1. unfold memcpy_to_mapped. prims. simpl.
  destruct (buf_read src soff size) as [bytes|] eqn:Hread; [|done].
  apply buf_read_Some_bound in Hread.
  destruct (mapped_store drv res doff bytes (gpu st)) as [w|]; [|done]. simpl.
  destruct k as [|k']; [lia|].
  apply IH; [lia | done | lia].
Qed.

(** On any driver: when the map of a CPU-writable texture reports a row
    pitch above width x texel size, the D3D11 [writeTexture] of a source of
    width x height texels reads past the end of the source. *)
Lemma d3d11_writeTexture_padded_rows dst_tex width height format (src : buffer) src_size
    (st : St D3D11.GraphicsDeviceD3D11 W) ctx m w :
  D3D11.m_context (this st) = Some ctx ->
  Z.land (tex_CPUAccessFlags (Texture2D_GetDesc drv dst_tex (gpu st)))
         D3D11_CPU_ACCESS_WRITE <> 0 ->
  Map drv (Some dst_tex) D3D11_MAP_WRITE_DISCARD (gpu st) = (Some m, w) ->
  0 < GetTexelSize format -> 0 < width -> 0 < height ->
  width * GetTexelSize format < RowPitch m < 2 ^ 31 ->
  Z.of_nat (length src) = width * height * GetTexelSize format ->
  why_stuck (D3D11.writeTexture drv GetTexelSize (Some dst_tex) width height format
               (Some src) src_size st) = Some OutOfBounds.
Proof.
  intros Hctx Hflag Hmap Hpsize Hwidth Hheight Hpitch Hlen. unfold D3D11.writeTexture.
  unfold bind at 1. unfold query at 1. unfold bind at 1.
  rewrite size_t_div_defined by (rewrite wrap_u64_small; lia). cbv beta iota.
  unfold bind at 1. unfold get_this at 1. cbn [this gpu trace].
  destruct (Z.eqb_spec (Z.land (tex_CPUAccessFlags (Texture2D_GetDesc drv dst_tex (gpu st)))
                               D3D11_CPU_ACCESS_WRITE) 0) as [E|_]; [done|].
  cbn [negb]. rewrite Hctx. rewrite !bind_assoc. unfold bind at 1. cbn [deref]. unfold ret at 1.
  rewrite !bind_assoc. unfold bind at 1. unfold call at 1. cbn [this gpu trace]. rewrite Hmap.
  assert (Hsp : int_mul width (GetTexelSize format) = width * GetTexelSize format).
  { unfold int_mul. apply wrap_int_small. nia. }
  rewrite Hsp, (wrap_int_small (RowPitch m)) by lia.
  destruct (Z.eqb_spec (RowPitch m) (width * GetTexelSize format)) as [E|_]; [lia|].
  rewrite wrap_u64_small by lia.
  rewrite !bind_assoc. unfold bind at 1.
  match goal with
  | |- context [write_rows drv ?rows ?res ?doff _ ?soff ?size ?dp ?sp ?s] =>
      pose proof (write_rows_past_the_source rows res doff src soff size dp sp s) as Hw
  end.
  destruct (write_rows drv _ _ _ _ _ _ _ _ _) as [x s'|why s'].
  - exfalso. simpl in Hw. discriminate Hw; [lia | nia | nia].
  - simpl in *. apply Hw; [lia | nia | nia].
Qed.
End Padded.

(** C1: the claim fails where the driver pads the rows of a resource.
    A texture of 1 x 2 texels of [Rf16] on a driver that starts rows at
    multiples of 4 bytes: the D3D9 [writeTexture] copies the 4 source bytes
    in one piece into the locked staging surface, [readTexture] copies row
    by row, and the bytes that come back are not the bytes written; the
    D3D11 [writeTexture] into a CPU-writable texture copies 4 bytes for each
    row from a source that advances by 2, and reads past the end of the
    source at the second row. *)
Theorem texture_roundtrip_fails_with_padded_rows :
  let tex9 := RefDriver.make_resource 1 2 2 D3DFMT_R16F 4 0 in
  let tex11 := RefDriver.make_resource 1 2 2 DXGI_FORMAT_R16_FLOAT 4 Scenario.read_write in
  returned (Scenario.write_then_read9 Rf16 1 2 Scenario.data4 (Scenario.start9 4 tex9))
  = Some (Unknown, (OK, Some ["001"; "002"; "000"; "000"]%byte)) /\
  ["001"; "002"; "000"; "000"]%byte <> Scenario.data4 /\
  why_stuck (D3D11.writeTexture RefDriver.driver GetTexelSize_table (Some 1%positive) 1 2 Rf16
               (Some Scenario.data4) 4 (Scenario.start11 4 false tex11))
  = Some OutOfBounds.
Proof. vm_compute. by repeat split. Qed.

(** Without padding the bytes come back, on the direct path and through
    staging resources, also where the texels are exchanged on the way. *)
Example texture_roundtrip_with_tight_rows :
  returned (Scenario.write_then_read9 Rf16 1 2 Scenario.data4
              (Scenario.start9 1 (RefDriver.make_resource 1 2 2 D3DFMT_R16F 1 0)))
  = Some (Unknown, (OK, Some Scenario.data4)) /\
  returned (Scenario.write_then_read9 RGBAu8 2 1 Scenario.data8
              (Scenario.start9 1 (RefDriver.make_resource 2 1 4 D3DFMT_A8R8G8B8 1 0)))
  = Some (Unknown, (OK, Some Scenario.data8)) /\
  returned (Scenario.write_then_read11 Rf16 1 2 Scenario.data4
              (Scenario.start11 1 false
                 (RefDriver.make_resource 1 2 2 DXGI_FORMAT_R16_FLOAT 1 Scenario.read_write)))
  = Some (OK, (OK, Some Scenario.data4)) /\
  returned (Scenario.write_then_read11 Rf16 1 2 Scenario.data4
              (Scenario.start11 1 false
                 (RefDriver.make_resource 1 2 2 DXGI_FORMAT_R16_FLOAT 1 0)))
  = Some (OK, (OK, Some Scenario.data4)) /\
  returned (Scenario.write_then_read11 Rf16 1 2 Scenario.data4
              (Scenario.start11 4 false
                 (RefDriver.make_resource 1 2 2 DXGI_FORMAT_R16_FLOAT 4 0)))
  = Some (OK, (OK, Some Scenario.data4)).
Proof. vm_compute. by repeat split. Qed.


(** * Resources, protocols and edge cases *)

(** ** Protocols on the log *)

Lemma run_protocol_app {X} (step : X -> event -> option X) x l1 l2 :
  run_protocol step x (l1 ++ l2) =
  match run_protocol step x l1 with
  | Some x' => run_protocol step x' l2
  | None => None
  end.
Proof.
  revert x. induction l1 as [|e l1 IH]; intros x; simpl; [done|].
  destruct (step x e); [apply IH | done].
Qed.

Section Tracks.
Context {X Dev W : Type} (step : X -> event -> option X).
Local Abbreviation Prog := (M (St Dev W)).
Implicit Types x : X.

Lemma tracks_silent {A} x (m : Prog A) :
  (forall st, trace (final (m st)) = trace st) -> tracks step x m (fun _ x' => x' = x).
Proof.
  intros H st. exists [], x. rewrite H, app_nil_r. split; [done|]. split; [done|].
  by destruct (m st).
Qed.

Lemma tracks_ret {A} x (v : A) : tracks step x (ret v : Prog A) (fun _ x' => x' = x).
Proof. by apply tracks_silent. Qed.

Lemma tracks_halt {A} x why : tracks step x (halt why : Prog A) (fun _ x' => x' = x).
Proof. by apply tracks_silent. Qed.

Lemma tracks_get_this x : tracks step x (get_this : Prog Dev) (fun _ x' => x' = x).
Proof. by apply tracks_silent. Qed.

Lemma tracks_set_this x d : tracks step x (set_this d : Prog unit) (fun _ x' => x' = x).
Proof. by apply tracks_silent. Qed.

Lemma tracks_set_gpu x w : tracks step x (set_gpu w : Prog unit) (fun _ x' => x' = x).
Proof. by apply tracks_silent. Qed.

Lemma tracks_access {A} x (f : W -> option A) :
  tracks step x (access f : Prog A) (fun _ x' => x' = x).
Proof. apply tracks_silent. intros st. unfold access. by destruct (f _). Qed.

Lemma tracks_ask {A} x (f : W -> A * W) : tracks step x (ask f : Prog A) (fun _ x' => x' = x).
Proof. apply tracks_silent. intros st. unfold ask. by destruct (f _). Qed.

Lemma tracks_defined {A} x (o : option A) why :
  tracks step x (defined o why : Prog A) (fun _ x' => x' = x).
Proof. apply tracks_silent. intros st. by destruct o. Qed.

Lemma tracks_deref x p : tracks step x (deref p : Prog handle) (fun _ x' => x' = x).
Proof. apply tracks_silent. intros st. by destruct p. Qed.

Lemma tracks_size_t_div x a b :
  tracks step x (size_t_div a b : Prog Z) (fun _ x' => x' = x).
Proof. apply tracks_silent. intros st. unfold size_t_div. by destruct (_ =? _). Qed.

Lemma tracks_log x e x1 :
  step x e = Some x1 -> tracks step x (log e : Prog unit) (fun _ x' => x' = x1).
Proof. intros H st. exists [e], x1. simpl. by rewrite H. Qed.

Lemma tracks_query {A} x e (f : W -> A) x1 :
  step x e = Some x1 -> tracks step x (query e f : Prog A) (fun _ x' => x' = x1).
Proof. intros H st. exists [e], x1. simpl. by rewrite H. Qed.

Lemma tracks_call_ x e (f : W -> W) x1 :
  step x e = Some x1 -> tracks step x (call_ e f : Prog unit) (fun _ x' => x' = x1).
Proof. intros H st. exists [e], x1. simpl. by rewrite H. Qed.

Lemma tracks_call {A} x (e : A -> event) (f : W -> A * W) (g : A -> X) :
  (forall v, step x (e v) = Some (g v)) ->
  tracks step x (call e f : Prog A) (fun v x' => x' = g v).
Proof.
  intros H st. unfold call. destruct (f (gpu st)) as [v w]. exists [e v], (g v).
  simpl. by rewrite H.
Qed.

Lemma tracks_call_const {A} x (e : A -> event) (f : W -> A * W) x1 :
  (forall v, step x (e v) = Some x1) ->
  tracks step x (call e f : Prog A) (fun _ x' => x' = x1).
Proof. apply (tracks_call x e f (fun _ => x1)). Qed.

Lemma tracks_bind {A B} x (m : Prog A) (g : A -> X) (k : A -> Prog B) R :
  tracks step x m (fun v x' => x' = g v) ->
  (forall v, tracks step (g v) (k v) R) ->
  tracks step x (bind m k) R.
Proof.
  intros Hm Hk st. unfold bind. destruct (Hm st) as (e1 & x1 & H1 & P1 & Q1).
  destruct (m st) as [v s1|why s1]; simpl in H1.
  - subst x1. destruct (Hk v s1) as (e2 & x2 & H2 & P2 & Q2).
    exists (e1 ++ e2), x2. rewrite H2, H1, app_assoc. split; [done|].
    by rewrite run_protocol_app, P1.
  - by exists e1, x1.
Qed.

Lemma tracks_seq {A B} x (m : Prog A) x1 (k : A -> Prog B) R :
  tracks step x m (fun _ x' => x' = x1) ->
  (forall v, tracks step x1 (k v) R) ->
  tracks step x (bind m k) R.
Proof. apply (tracks_bind x m (fun _ => x1)). Qed.

Lemma tracks_weaken {A} x (m : Prog A) (Q R : A -> X -> Prop) :
  tracks step x m Q -> (forall v x', Q v x' -> R v x') -> tracks step x m R.
Proof.
  intros Hm HQ st. destruct (Hm st) as (evs & x' & Ht & Hr & Hp). exists evs, x'.
  split; [done|]. split; [done|]. destruct (m st); [by apply HQ | done].
Qed.

(** A program whose events all leave the protocol where it is. *)
Lemma tracks_emits {A} (P : event -> Prop) x (m : Prog A) :
  emits P m -> (forall e, P e -> step x e = Some x) ->
  tracks step x m (fun _ x' => x' = x).
Proof.
  intros Hm HP st. destruct (Hm st) as (evs & Ht & F). exists evs, x.
  split; [done|]. split; [|by destruct (m st)].
  clear Ht. induction F as [|e l He _ IH]; simpl; [done|]. by rewrite HP.
Qed.

Lemma tracks_follows {A} x (m : Prog A) :
  tracks step x m (fun _ x' => x' = x) -> forall st, follows step x st (m st).
Proof.
  intros H st. destruct (H st) as (evs & x' & Ht & Hr & Hp). unfold follows.
  rewrite (emitted_app st (m st) evs Ht), Hr. by destruct (m st).
Qed.
End Tracks.

Ltac tracks_step :=
  lazymatch goal with
  | |- tracks _ _ (bind _ _) _ => eapply tracks_seq; [|intros ?]
  | |- tracks _ _ (ret _) _ => apply tracks_ret
  | |- tracks _ _ (halt _) _ => apply tracks_halt
  | |- tracks _ _ get_this _ => apply tracks_get_this
  | |- tracks _ _ (set_this _) _ => apply tracks_set_this
  | |- tracks _ _ (set_gpu _) _ => apply tracks_set_gpu
  | |- tracks _ _ (access _) _ => apply tracks_access
  | |- tracks _ _ (ask _) _ => apply tracks_ask
  | |- tracks _ _ (defined _ _) _ => apply tracks_defined
  | |- tracks _ _ (deref _) _ => apply tracks_deref
  | |- tracks _ _ (size_t_div _ _) _ => apply tracks_size_t_div
  | |- tracks _ _ (log _) _ =>
      eapply tracks_log; simpl; rewrite ?bool_decide_eq_true_2 by done; reflexivity
  | |- tracks _ _ (query _ _) _ => eapply tracks_query; simpl; reflexivity
  | |- tracks _ _ (call_ _ _) _ =>
      eapply tracks_call_; simpl; rewrite ?bool_decide_eq_true_2 by done; reflexivity
  | |- tracks _ _ (match ?x with _ => _ end) _ => destruct x
  | |- tracks _ _ (let _ := _ in _) _ => cbv zeta
  end.

(** ** Mapped memory *)

Section Mapping.
Context {W : Type} (drv : Driver W).

Lemma tracks_memcpy_from_mapped {Dev} dst doff res soff size :
  tracks (Dev:=Dev) mapping_step (Mapped res) (memcpy_from_mapped drv dst doff res soff size)
         (fun _ x' => x' = Mapped res).
Proof. unfold memcpy_from_mapped. repeat tracks_step. Qed.

Lemma tracks_memcpy_to_mapped {Dev} res doff src soff size :
  tracks (Dev:=Dev) mapping_step (Mapped res) (memcpy_to_mapped drv res doff src soff size)
         (fun _ x' => x' = Mapped res).
Proof. unfold memcpy_to_mapped. repeat tracks_step. Qed.

Lemma tracks_read_rows {Dev} rows dst doff res soff size dp sp :
  tracks (Dev:=Dev) mapping_step (Mapped res) (read_rows drv rows dst doff res soff size dp sp)
         (fun _ x' => x' = Mapped res).
Proof.
  revert dst doff soff. induction rows as [|k IH]; intros; simpl; [apply tracks_ret|].
  eapply tracks_bind; [apply tracks_memcpy_from_mapped | intros; apply IH].
Qed.

Lemma tracks_write_rows {Dev} rows res doff src soff size dp sp :
  tracks (Dev:=Dev) mapping_step (Mapped res) (write_rows drv rows res doff src soff size dp sp)
         (fun _ x' => x' = Mapped res).
Proof.
  revert doff soff. induction rows as [|k IH]; intros; simpl; [apply tracks_ret|].
  eapply tracks_bind; [apply tracks_memcpy_to_mapped | intros; apply IH].
Qed.

Lemma tracks_Map {Dev} res how :
  tracks (Dev:=Dev) mapping_step Unmapped
    (call (fun m => EvMap res how (negb (is_null m))) (Map drv res how))
    (fun m x' => x' = match m with Some _ => Mapped res | None => Unmapped end).
Proof.
  apply (tracks_call mapping_step Unmapped _ _
           (fun m : option D3D11_MAPPED_SUBRESOURCE =>
              match m with Some _ => Mapped res | None => Unmapped end)).
  by intros [m|].
Qed.

Lemma tracks_LockRect {Dev} surf flags :
  tracks (Dev:=Dev) mapping_step Unmapped
    (call (fun l => EvLockRect surf flags (negb (is_null l))) (LockRect drv surf flags))
    (fun l x' => x' = match l with Some _ => Mapped (Some surf) | None => Unmapped end).
Proof.
  apply (tracks_call mapping_step Unmapped _ _
           (fun l : option D3DLOCKED_RECT =>
              match l with Some _ => Mapped (Some surf) | None => Unmapped end)).
  by intros [l|].
Qed.

Lemma tracks_getStagingTexture width height format :
  tracks mapping_step Unmapped (D3D11.getStagingTexture drv width height format)
         (fun _ x' => x' = Unmapped).
Proof. eapply tracks_emits; [apply emits_getStagingTexture|]. by intros []. Qed.

Lemma tracks_getStagingBuffer type size_required :
  tracks mapping_step Unmapped (D3D11.getStagingBuffer drv type size_required)
         (fun _ x' => x' = Unmapped).
Proof. eapply tracks_emits; [apply emits_getStagingBuffer|]. by intros []. Qed.

Lemma tracks_findOrCreateStagingTexture width height format :
  tracks mapping_step Unmapped (D3D9.findOrCreateStagingTexture drv width height format)
         (fun _ x' => x' = Unmapped).
Proof. eapply tracks_emits; [apply emits_findOrCreateStagingTexture|]. by intros []. Qed.

Lemma tracks_conversion_in_place {X} (step : X -> event -> option X) x o_buf n :
  tracks (W:=W) step x (D3D9.BGRA_RGBA_conversion_in_place o_buf n) (fun _ x' => x' = x).
Proof.
  eapply (tracks_emits step (fun _ => False));
    [apply emits_BGRA_RGBA_conversion_in_place | done].
Qed.

Lemma emits_mp_findOrCreateStagingTexture width height :
  emits create_event (MpD3D9.findOrCreateStagingTexture drv width height).
Proof. unfold MpD3D9.findOrCreateStagingTexture. emits_tac. Qed.

Lemma tracks_mp_findOrCreateStagingTexture width height :
  tracks mapping_step Unmapped (MpD3D9.findOrCreateStagingTexture drv width height)
         (fun _ x' => x' = Unmapped).
Proof. eapply tracks_emits; [apply emits_mp_findOrCreateStagingTexture|]. by intros []. Qed.
End Mapping.

Ltac mapping_tac :=
  lazymatch goal with
  | |- tracks _ _ (bind (call (fun m => EvMap _ _ _) _) _) _ =>
      eapply tracks_bind; [apply tracks_Map | intros [?|]]
  | |- tracks _ _ (bind (call (fun l => EvLockRect _ _ _) _) _) _ =>
      eapply tracks_bind; [apply tracks_LockRect | intros [?|]]
  | |- tracks _ _ (memcpy_from_mapped _ _ _ _ _ _) _ => apply tracks_memcpy_from_mapped
  | |- tracks _ _ (memcpy_to_mapped _ _ _ _ _ _) _ => apply tracks_memcpy_to_mapped
  | |- tracks _ _ (read_rows _ _ _ _ _ _ _ _ _) _ => apply tracks_read_rows
  | |- tracks _ _ (write_rows _ _ _ _ _ _ _ _ _) _ => apply tracks_write_rows
  | |- tracks _ _ (D3D11.getStagingTexture _ _ _ _) _ => apply tracks_getStagingTexture
  | |- tracks _ _ (D3D11.getStagingBuffer _ _ _) _ => apply tracks_getStagingBuffer
  | |- tracks _ _ (D3D9.findOrCreateStagingTexture _ _ _ _) _ =>
      apply tracks_findOrCreateStagingTexture
  | |- tracks _ _ (MpD3D9.findOrCreateStagingTexture _ _ _) _ =>
      apply tracks_mp_findOrCreateStagingTexture
  | |- tracks _ _ (D3D9.BGRA_RGBA_conversion_in_place _ _) _ =>
      apply tracks_conversion_in_place
  | |- tracks _ _ (call _ _) _ => eapply tracks_call_const; intros ?; reflexivity
  | _ => tracks_step
  end.

Section MappingMethods.
Context {W : Type} (drv : Driver W) (GetTexelSize : TextureFormat -> Z).

Lemma tracks_poll n :
  tracks (Dev:=D3D11.GraphicsDeviceD3D11) (W:=W) mapping_step Unmapped (D3D11.poll n)
         (fun _ x' => x' = Unmapped).
Proof. induction n as [|k IH]; simpl; repeat mapping_tac. apply IH. Qed.

Lemma tracks_sync11 :
  tracks mapping_step Unmapped (D3D11.sync drv) (fun _ x' => x' = Unmapped).
Proof. unfold D3D11.sync. repeat mapping_tac. apply tracks_poll. Qed.

Lemma tracks_sync9 :
  tracks mapping_step Unmapped (D3D9.sync drv) (fun _ x' => x' = Unmapped).
Proof. unfold D3D9.sync. repeat mapping_tac. Qed.

Lemma tracks_copy_to_locked surf rpixels n :
  tracks mapping_step (Mapped (Some surf))
    (D3D9.copy_with_BGRA_RGBA_conversion_to_locked drv surf rpixels n)
    (fun _ x' => x' = Mapped (Some surf)).
Proof. unfold D3D9.copy_with_BGRA_RGBA_conversion_to_locked. repeat mapping_tac. Qed.

Lemma tracks_proc_read_texture dst dst_size tex width height format :
  tracks mapping_step Unmapped
    (D3D11.proc_read_texture drv GetTexelSize dst dst_size tex width height format)
    (fun _ x' => x' = Unmapped).
Proof. unfold D3D11.proc_read_texture. repeat mapping_tac. Qed.

Lemma tracks_d3d11_readTexture dst dst_size src_tex width height format :
  tracks mapping_step Unmapped
    (D3D11.readTexture drv GetTexelSize dst dst_size src_tex width height format)
    (fun _ x' => x' = Unmapped).
Proof.
  unfold D3D11.readTexture. pose proof tracks_proc_read_texture. pose proof tracks_sync11.
  repeat first [mapping_tac | done].
Qed.

Lemma tracks_d3d11_writeTexture dst_tex width height format src src_size :
  tracks mapping_step Unmapped
    (D3D11.writeTexture drv GetTexelSize dst_tex width height format src src_size)
    (fun _ x' => x' = Unmapped).
Proof. unfold D3D11.writeTexture. repeat first [mapping_tac | done]. Qed.

Lemma tracks_proc_read_buffer dst buf size :
  tracks mapping_step Unmapped (D3D11.proc_read_buffer drv dst buf size)
    (fun _ x' => x' = Unmapped).
Proof. unfold D3D11.proc_read_buffer. repeat mapping_tac. Qed.

Lemma tracks_d3d11_readBuffer dst src_buf read_size type :
  tracks mapping_step Unmapped (D3D11.readBuffer drv dst src_buf read_size type)
    (fun _ x' => x' = Unmapped).
Proof.
  unfold D3D11.readBuffer. pose proof tracks_proc_read_buffer. pose proof tracks_sync11.
  repeat first [mapping_tac | done].
Qed.

Lemma tracks_d3d11_writeBuffer dst_buf src write_size type :
  tracks mapping_step Unmapped (D3D11.writeBuffer drv dst_buf src write_size type)
    (fun _ x' => x' = Unmapped).
Proof. unfold D3D11.writeBuffer. repeat first [mapping_tac | done]. Qed.

Lemma tracks_d3d9_readTexture o_buf bufsize tex_ width height format :
  tracks mapping_step Unmapped
    (D3D9.readTexture drv GetTexelSize o_buf bufsize tex_ width height format)
    (fun _ x' => x' = Unmapped).
Proof.
  unfold D3D9.readTexture. pose proof tracks_sync9.
  repeat first [mapping_tac | done].
Qed.

Lemma tracks_d3d9_writeTexture o_tex width height format buf bufsize :
  tracks mapping_step Unmapped
    (D3D9.writeTexture drv GetTexelSize o_tex width height format buf bufsize)
    (fun _ x' => x' = Unmapped).
Proof.
  unfold D3D9.writeTexture. pose proof tracks_copy_to_locked.
  repeat first [mapping_tac | done].
Qed.

Lemma tracks_mp_updateDataTexture mpDataTextureWidth texptr width height data data_size :
  tracks mapping_step Unmapped
    (MpD3D9.updateDataTexture drv mpDataTextureWidth texptr width height data data_size)
    (fun _ x' => x' = Unmapped).
Proof. unfold MpD3D9.updateDataTexture. repeat first [mapping_tac | done]. Qed.
End MappingMethods.

(** The D3D11 transfers and mapped memory.  In every run of [readTexture],
    [writeTexture], [readBuffer] and [writeBuffer], whether it returns or
    stops: memory of a resource is copied from or to only while that
    resource is mapped; while a resource is mapped nothing happens but
    such copies; at most one resource is mapped at a time; and a run that
    returns has unmapped what it mapped. *)
Theorem d3d11_transfers_follow_the_map_protocol {W} (drv : Driver W)
    (GetTexelSize : TextureFormat -> Z) (dst src : option buffer) (tex buf : option handle)
    (width height size : Z) (format : TextureFormat) (type : BufferType)
    (st : St D3D11.GraphicsDeviceD3D11 W) :
  follows mapping_step Unmapped st
    (D3D11.readTexture drv GetTexelSize dst size tex width height format st) /\
  follows mapping_step Unmapped st
    (D3D11.writeTexture drv GetTexelSize tex width height format src size st) /\
  follows mapping_step Unmapped st (D3D11.readBuffer drv dst buf size type st) /\
  follows mapping_step Unmapped st (D3D11.writeBuffer drv buf src size type st).
Proof.
  split; [|split; [|split]]; apply tracks_follows.
  - apply tracks_d3d11_readTexture.
  - apply tracks_d3d11_writeTexture.
  - apply tracks_d3d11_readBuffer.
  - apply tracks_d3d11_writeBuffer.
Qed.

(** A read of a texture that the CPU cannot read, on the reference driver:
    the staging texture 2 is mapped, read and unmapped. *)
Example d3d11_staged_read_maps_and_unmaps :
  let st := Scenario.start11 1 false (RefDriver.make_resource 1 1 4 DXGI_FORMAT_R32_FLOAT 1 0) in
  let o := D3D11.readTexture RefDriver.driver GetTexelSize_table (Some (RefDriver.zeros 4)) 4
                             (Some 1%positive) 1 1 Rf32 st in
  drop 9 (emitted st o)
  = [EvMap (Some 2%positive) D3D11_MAP_READ true;
     EvMemcpyFromMapped (Some 2%positive) 0 0 (RefDriver.zeros 4);
     EvUnmap (Some 2%positive)] /\
  run_protocol mapping_step Unmapped (emitted st o) = Some Unmapped.
Proof. vm_compute. by split. Qed.

(** The D3D9 transfers and locked surfaces: [readTexture] and
    [writeTexture] of the D3D9 device and [updateDataTexture] of the
    particle device copy from or to a staging surface only while it is
    locked, do nothing else while it is locked (so the surface is unlocked
    before [UpdateSurface] reads it), and have unlocked it when they
    return. *)
Theorem d3d9_transfers_follow_the_lock_protocol {W} (drv : Driver W)
    (GetTexelSize : TextureFormat -> Z) (mpDataTextureWidth : Z)
    (buf : option buffer) (tex : option handle)
    (width height size : Z) (format : TextureFormat)
    (st : St D3D9.GraphicsDeviceD3D9 W) (stm : St MpD3D9.mpGraphicsDeviceD3D9 W) :
  follows mapping_step Unmapped st
    (D3D9.readTexture drv GetTexelSize buf size tex width height format st) /\
  follows mapping_step Unmapped st
    (D3D9.writeTexture drv GetTexelSize tex width height format buf size st) /\
  follows mapping_step Unmapped stm
    (MpD3D9.updateDataTexture drv mpDataTextureWidth tex width height buf size stm).
Proof.
  split; [|split]; apply tracks_follows.
  - apply tracks_d3d9_readTexture.
  - apply tracks_d3d9_writeTexture.
  - apply tracks_mp_updateDataTexture.
Qed.

(** ** The surface level *)

Section Level.
Context {W : Type} (drv : Driver W).











End Level.


Section LevelMethods.
Context {W : Type} (drv : Driver W) (GetTexelSize : TextureFormat -> Z).




(** The one store of [updateDataTexture]. *)
Lemma tracks_memcpy_one_piece {Dev} (data : buffer) size res :
  tracks (Dev:=Dev) (one_piece_step data size) false
    (memcpy_to_mapped drv res 0 (Some data) 0 size) (fun _ x' => x' = true).
Proof.
  intros st. unfold memcpy_to_mapped. prims. simpl.
  destruct (buf_read data 0 size) as [bytes|] eqn:E; simpl.
  - destruct (mapped_store drv res 0 bytes (gpu st)) as [w|]; simpl.
    + exists [EvMemcpyToMapped res 0 bytes], true. simpl.
      rewrite E, bool_decide_eq_true_2 by done. done.
    + exists [], false. by rewrite app_nil_r.
  - exists [], false. by rewrite app_nil_r.
Qed.

Lemma mp_updateDataTexture_one_piece mpDataTextureWidth texptr width height
    (data : buffer) data_size :
  tracks (one_piece_step data (wrap_u64 data_size)) false
    (MpD3D9.updateDataTexture drv mpDataTextureWidth texptr width height (Some data) data_size)
    (fun _ _ => True).
Proof.
  unfold MpD3D9.updateDataTexture. cbv zeta.
  eapply tracks_seq.
  { eapply tracks_emits; [apply emits_mp_findOrCreateStagingTexture|]. by intros []. }
  intros [surf_src|]; [|eapply tracks_weaken; [apply tracks_ret|done]].
  eapply tracks_seq; [apply tracks_deref|]. intros tex.
  eapply tracks_seq; [eapply tracks_call_const; by intros ?|].
  intros [surf_dst|]; [|eapply tracks_weaken; [apply tracks_ret|done]].
  eapply tracks_seq; [eapply tracks_call_const; by intros ?|].
  intros [l|].
  - eapply tracks_seq.
    { eapply tracks_seq; [apply tracks_memcpy_one_piece|]. intros _.
      repeat tracks_step. eapply tracks_call_const; by intros ?. }
    intros _. eapply tracks_weaken; [|done]. tracks_step.
  - eapply tracks_seq; [apply tracks_ret|]. intros _.
    eapply tracks_weaken; [|done]. tracks_step.
Qed.
End LevelMethods.


(** [updateDataTexture] stores at most once into the staging surface: the
    first [data_size] bytes of [data], in one piece at the start of the
    locked memory, whatever the pitch of the lock and whatever [width] is;
    the run is the same for every [width]. *)
Theorem mp_updateDataTexture_stores_in_one_piece {W} (drv : Driver W)
    (mpDataTextureWidth : Z) (texptr : option handle) (width width' height : Z)
    (data : buffer) (data_size : Z) (st : St MpD3D9.mpGraphicsDeviceD3D9 W) :
  let o := MpD3D9.updateDataTexture drv mpDataTextureWidth texptr width height
             (Some data) data_size st in
  (exists stored,
      run_protocol (one_piece_step data (wrap_u64 data_size)) false (emitted st o)
      = Some stored) /\
  MpD3D9.updateDataTexture drv mpDataTextureWidth texptr width' height (Some data) data_size st
  = o.
Proof.
  cbv zeta. split; [|reflexivity].
  destruct (mp_updateDataTexture_one_piece drv mpDataTextureWidth texptr width height
              data data_size st) as (evs & stored & Ht & Hr & _).
  exists stored. by rewrite (emitted_app _ _ _ Ht).
Qed.

(** On the reference driver with rows aligned to 64 bytes, the staging
    surface 2 has two rows of one texel of 16 bytes, 64 bytes apart; the
    32 bytes of [data] are stored in one piece, so that the second texel
    lands in the padding of the first row. *)
Example mp_updateDataTexture_on_padded_surface :
  let data := RefDriver.zeros 32 in
  let st := Scenario.startmp 64 (RefDriver.make_resource 1 2 16 D3DFMT_A32B32G32R32F 64 0) in
  let o := MpD3D9.updateDataTexture RefDriver.driver 1 (Some 1%positive) 1 2 (Some data) 32 st in
  emitted st o
  = [EvCreateOffscreenPlainSurface 1 2 D3DFMT_A32B32G32R32F (Some 2%positive);
     EvGetSurfaceLevel 1%positive (Some 1%positive);
     EvLockRect 2%positive D3DLOCK_DISCARD true;
     EvMemcpyToMapped (Some 2%positive) 0 data;
     EvUnlockRect 2%positive;
     EvUpdateSurface 2%positive 1%positive true;
     EvRelease 1%positive].
Proof. vm_compute. reflexivity. Qed.

(** ** The staging buffers of the D3D11 device *)

Lemma staging_size_doubles fuel j n :
  20 <= j <= 63 -> n <= 2 ^ 63 -> 63 - j < Z.of_nat fuel ->
  (j = 20 \/ 2 ^ (j - 1) < n) ->
  exists k, j <= k <= 63 /\ D3D11.staging_size fuel (2 ^ j) n = Some (2 ^ k) /\
            n <= 2 ^ k /\ (k = 20 \/ 2 ^ (k - 1) < n).
Proof.
  revert j. induction fuel as [|f IH]; intros j Hj Hn Hf Hmin; [lia|].
  simpl. destruct (Z.ltb_spec (2 ^ j) n) as [Hlt|Hge].
  - assert (j < 63) by (destruct (Z.eq_dec j 63) as [->|]; lia).
    replace (wrap_u64 (2 ^ j * 2)) with (2 ^ (j + 1)).
    2:{ rewrite Z.pow_add_r by lia. change (2 ^ 1) with 2.
        symmetry. apply wrap_u64_small. split; [lia|].
        apply Z.lt_le_trans with (2 ^ 63 * 2); [|done].
        apply Z.mul_lt_mono_pos_r; [lia|]. apply Z.pow_lt_mono_r; lia. }
    destruct (IH (j + 1)) as (k & Hk & Hs & Hle & Hm); try lia.
    { right. by replace (j + 1 - 1) with j by lia. }
    exists k. repeat split; try done; lia.
  - exists j. repeat split; try done; lia.
Qed.

Lemma staging_size_wrapped fuel size n :
  size = 0 \/ (exists j, 20 <= j <= 63 /\ size = 2 ^ j) -> 2 ^ 63 < n ->
  D3D11.staging_size fuel size n = None.
Proof.
  revert size. induction fuel as [|f IH]; intros size Hs Hn.
  - simpl. destruct (Z.ltb_spec size n) as [|Hge]; [done|].
    destruct Hs as [->|(j & Hj & ->)]; [lia|].
    assert (2 ^ j <= 2 ^ 63) by (apply Z.pow_le_mono_r; lia). lia.
  - simpl. destruct (Z.ltb_spec size n) as [|Hge].
    + apply IH; [|done]. destruct Hs as [->|(j & Hj & ->)]; [by left|].
      destruct (Z.eq_dec j 63) as [->|Hne]; [by left|].
      right. exists (j + 1). split; [lia|].
      rewrite Z.pow_add_r by lia. change (2 ^ 1) with 2.
      apply wrap_u64_small. split; [lia|].
      apply Z.lt_le_trans with (2 ^ 63 * 2); [|done].
      apply Z.mul_lt_mono_pos_r; [lia|]. apply Z.pow_lt_mono_r; lia.
    + destruct Hs as [->|(j & Hj & ->)]; [lia|].
      assert (2 ^ j <= 2 ^ 63) by (apply Z.pow_le_mono_r; lia). lia.
Qed.

Lemma staging_size_pos fuel s n size :
  D3D11.staging_size fuel s n = Some size -> 0 < s \/ 0 < n -> 0 < size.
Proof.
  revert s. induction fuel as [|f IH]; intros s H Hpos; simpl in H.
  - destruct (Z.ltb_spec s n); [done|]. inversion H; subst. lia.
  - destruct (Z.ltb_spec s n).
    + apply IH in H; [done|]. lia.
    + inversion H; subst. lia.
Qed.

Lemma wrap_u32_pow2 k : 32 <= k -> wrap_u32 (2 ^ k) = 0.
Proof.
  intros Hk. unfold wrap_u32. replace k with (k - 32 + 32) by lia.
  rewrite Z.pow_add_r by lia. apply Z.mod_mul. lia.
Qed.

(** The size of a staging buffer is 1 MiB doubled until it reaches the
    size asked for: for a request of at most [2^63] bytes it is the least
    [2^k], [k >= 20], that is not below the request, and [(UINT)size],
    the [ByteWidth] handed to [CreateBuffer], is 0 once the request is
    above [2^31].  For a request above [2^63] the doubling wraps around
    to 0 and the loop of [getStagingBuffer] never ends. *)
Theorem staging_buffer_size_is_a_power_of_two {W} (drv : Driver W) (type : BufferType)
    (size_required : Z) (st : St D3D11.GraphicsDeviceD3D11 W) :
  0 <= size_required < 2 ^ 64 ->
  (size_required <= 2 ^ 63 ->
   exists k, 20 <= k <= 63 /\
     D3D11.staging_size 64 (1024 * 1024) size_required = Some (2 ^ k) /\
     size_required <= 2 ^ k /\ (k = 20 \/ 2 ^ (k - 1) < size_required) /\
     (2 ^ 31 < size_required -> buf_ByteWidth (staging_buffer_desc type (2 ^ k)) = 0)) /\
  (2 ^ 63 < size_required ->
   (forall fuel, D3D11.staging_size fuel (1024 * 1024) size_required = None) /\
   D3D11.getStagingBuffer drv type size_required st = Stuck NoReturn st).
Proof.
  intros Hn. split.
  - intros Hle.
    destruct (staging_size_doubles 64 20 size_required) as (k & Hk & Hs & Hge & Hmin);
      [lia | lia | lia | by left |].
    exists k. split; [lia|]. split; [exact Hs|]. split; [done|]. split; [done|].
    intros Hbig. simpl. apply wrap_u32_pow2.
    destruct (Z.le_gt_cases 32 k) as [|Hlt]; [done|]. exfalso.
    assert (2 ^ k <= 2 ^ 31) by (apply Z.pow_le_mono_r; lia). lia.
  - intros Hbig.
    assert (Hnone : forall fuel, D3D11.staging_size fuel (1024 * 1024) size_required = None).
    { intros fuel. apply staging_size_wrapped; [|done]. right. exists 20. split; [lia|done]. }
    split; [exact Hnone|]. unfold D3D11.getStagingBuffer. prims. by rewrite Hnone.
Qed.

Lemma staging_buffer_size_is_a_power_of_two_witness :
  (exists k, 20 <= k <= 63 /\
     D3D11.staging_size 64 (1024 * 1024) (3 * 2 ^ 31) = Some (2 ^ k) /\
     3 * 2 ^ 31 <= 2 ^ k /\ (k = 20 \/ 2 ^ (k - 1) < 3 * 2 ^ 31) /\
     (2 ^ 31 < 3 * 2 ^ 31 -> buf_ByteWidth (staging_buffer_desc Vertex (2 ^ k)) = 0)) /\
  ((forall fuel, D3D11.staging_size fuel (1024 * 1024) (2 ^ 63 + 1) = None) /\
   D3D11.getStagingBuffer RefDriver.driver Vertex (2 ^ 63 + 1)
     (Scenario.start11 1 false Scenario.tex_1x1)
   = Stuck NoReturn (Scenario.start11 1 false Scenario.tex_1x1)).
Proof.
  split.
  - apply (staging_buffer_size_is_a_power_of_two RefDriver.driver Vertex (3 * 2 ^ 31)
             (Scenario.start11 1 false Scenario.tex_1x1)); lia.
  - apply (staging_buffer_size_is_a_power_of_two RefDriver.driver Vertex (2 ^ 63 + 1)
             (Scenario.start11 1 false Scenario.tex_1x1)); lia.
Defined.

Section StagingBuffers.
Import D3D11.
Context {W : Type} (drv : Driver W).
Implicit Types st : St GraphicsDeviceD3D11 W.

Lemma getStagingBuffer_reuse type n st size buf :
  staging_size 64 (1024 * 1024) n = Some size ->
  m_staging_buffers (this st) !! BufferType_index type = Some (Some buf) ->
  size <= buf_ByteWidth (Buffer_GetDesc drv buf (gpu st)) ->
  getStagingBuffer drv type n st
  = Ret (Some buf) (mkSt (this st) (gpu st) (trace st ++ [EvGetDesc buf])).
Proof.
  intros Hs Hslot Hle. unfold getStagingBuffer. prims. rewrite Hs. simpl.
  rewrite Hslot. simpl.
  destruct (Z.gtb_spec size (buf_ByteWidth (Buffer_GetDesc drv buf (gpu st)))); [lia|done].
Qed.

Lemma getStagingBuffer_grow type n st size staging dev :
  staging_size 64 (1024 * 1024) n = Some size ->
  m_staging_buffers (this st) !! BufferType_index type = Some staging ->
  match staging with
  | Some buf => buf_ByteWidth (Buffer_GetDesc drv buf (gpu st)) < size
  | None => 0 < size
  end ->
  m_device (this st) = Some dev ->
  let i := BufferType_index type in
  let w1 := match staging with Some buf => Release drv buf (gpu st) | None => gpu st end in
  let old := match staging with Some buf => [EvGetDesc buf; EvRelease buf] | None => [] end in
  let desc := staging_buffer_desc type size in
  let created := (CreateBuffer drv desc w1).1 in
  getStagingBuffer drv type n st
  = Ret created
        (mkSt (set_staging_buffer (this st) i created) (CreateBuffer drv desc w1).2
              (trace st ++ old ++ EvCreateBuffer desc created ::
                 (if is_null created
                  then [EvLog "GraphicsDeviceD3D11::findOrCreateStagingBuffer(): CreateBuffer() failed!"]
                  else []))).
Proof.
  intros Hs Hslot Hlt Hdev. cbv zeta. unfold getStagingBuffer. prims. rewrite Hs. simpl.
  rewrite Hslot. simpl. unfold staging_buffer_desc.
  destruct staging as [buf|]; simpl.
  - destruct (Z.gtb_spec size (buf_ByteWidth (Buffer_GetDesc drv buf (gpu st)))); [|lia].
    simpl. rewrite Hdev. simpl.
    destruct (CreateBuffer drv _ _) as [[b|] w]; simpl.
    + unfold set_staging_buffer. simpl. rewrite list_insert_insert_eq.
      by rewrite <- !app_assoc.
    + unfold set_staging_buffer. simpl. rewrite list_insert_insert_eq.
      by rewrite <- !app_assoc.
  - destruct (Z.gtb_spec size 0); [|lia]. simpl. rewrite Hdev. simpl.
    destruct (CreateBuffer drv _ _) as [[b|] w]; simpl; by rewrite <- ?app_assoc.
Qed.
End StagingBuffers.

(** [getStagingBuffer] on a device with a device pointer, for a request
    that its size loop can serve: it returns what it leaves in the slot
    [(int)type] of [m_staging_buffers], and touches no other slot and not
    the texture cache.  A buffer in the slot whose [ByteWidth] is not below
    the computed size is returned as it is, after a [GetDesc] and nothing
    else; otherwise the buffer in the slot, if any, is released and
    [CreateBuffer] is called once, for a staging buffer of the computed
    size that the CPU can read and write, and a failure of [CreateBuffer]
    is logged and leaves the slot null. *)
Theorem staging_buffer_is_reused_or_replaced {W} (drv : Driver W) (type : BufferType)
    (n size : Z) (staging : option handle) (dev : handle)
    (st : St D3D11.GraphicsDeviceD3D11 W) :
  D3D11.staging_size 64 (1024 * 1024) n = Some size ->
  D3D11.m_staging_buffers (this st) !! BufferType_index type = Some staging ->
  D3D11.m_device (this st) = Some dev ->
  let o := D3D11.getStagingBuffer drv type n st in
  let current := match staging with
                 | Some buf => buf_ByteWidth (Buffer_GetDesc drv buf (gpu st))
                 | None => 0
                 end in
  exists r, returned o = Some r /\
    D3D11.m_staging_buffers (this (final o))
    = <[BufferType_index type := r]> (D3D11.m_staging_buffers (this st)) /\
    D3D11.m_staging_textures (this (final o)) = D3D11.m_staging_textures (this st) /\
    (size <= current ->
     r = staging /\ gpu (final o) = gpu st /\
     exists buf, staging = Some buf /\ emitted st o = [EvGetDesc buf]) /\
    (current < size ->
     emitted st o
     = match staging with Some buf => [EvGetDesc buf; EvRelease buf] | None => [] end
       ++ EvCreateBuffer (staging_buffer_desc type size) r
       :: (if is_null r
           then [EvLog "GraphicsDeviceD3D11::findOrCreateStagingBuffer(): CreateBuffer() failed!"]
           else [])).
Proof.
  intros Hs Hslot Hdev. cbv zeta.
  pose proof (staging_size_pos _ _ _ _ Hs (or_introl eq_refl)) as Hpos.
  set (current := match staging with
                  | Some buf => buf_ByteWidth (Buffer_GetDesc drv buf (gpu st))
                  | None => 0
                  end).
  destruct (Z.le_gt_cases size current) as [Hle|Hgt].
  - destruct staging as [buf|]; [|subst current; lia]. subst current.
    rewrite (getStagingBuffer_reuse drv type n st size buf Hs Hslot Hle).
    exists (Some buf). simpl. split; [done|]. split; [by rewrite list_insert_id|].
    split; [done|]. split; [|lia]. intros _. split; [done|]. split; [done|].
    exists buf. split; [done|]. by apply emitted_app.
  - rewrite (getStagingBuffer_grow drv type n st size staging dev Hs Hslot); [|
      by destruct staging | done].
    eexists. simpl. split; [reflexivity|]. split; [done|]. split; [done|].
    split; [lia|]. intros _. by apply emitted_app.
Qed.

(** On the reference driver: the first request for 16 bytes creates a
    buffer of 1 MiB for the empty slot of [Vertex]. *)
Lemma staging_buffer_is_reused_or_replaced_witness :
  let st := Scenario.start11 1 false Scenario.tex_1x1 in
  let o := D3D11.getStagingBuffer RefDriver.driver Vertex 16 st in
  exists r, returned o = Some r /\
    D3D11.m_staging_buffers (this (final o))
    = <[BufferType_index Vertex := r]> (D3D11.m_staging_buffers (this st)) /\
    D3D11.m_staging_textures (this (final o)) = D3D11.m_staging_textures (this st) /\
    emitted st o
    = EvCreateBuffer (staging_buffer_desc Vertex 1048576) r
      :: (if is_null r
          then [EvLog "GraphicsDeviceD3D11::findOrCreateStagingBuffer(): CreateBuffer() failed!"]
          else []).
Proof.
  cbv zeta.
  destruct (staging_buffer_is_reused_or_replaced RefDriver.driver Vertex 16 1048576 None
              100%positive (Scenario.start11 1 false Scenario.tex_1x1)
              eq_refl eq_refl eq_refl) as (r & Hr & Hslots & Hcache & _ & Hnew).
  exists r. split; [exact Hr|]. split; [exact Hslots|]. split; [exact Hcache|].
  apply Hnew. lia.
Defined.

(** ** The destructors *)

Section Destructors.
Context {W : Type} (drv : Driver W).

Lemma clear_buffers_run slots : forall pre (st : St D3D11.GraphicsDeviceD3D11 W),
  D3D11.m_staging_buffers (this st) = pre ++ slots ->
  D3D11.clear_buffers drv (length pre) slots st
  = Ret tt (mkSt (D3D11.mkDev (D3D11.m_device (this st)) (D3D11.m_context (this st))
                              (D3D11.m_query_event (this st))
                              (D3D11.m_staging_textures (this st))
                              (pre ++ replicate (length slots) None))
                 (released_handles drv (held_buffers slots) (gpu st))
                 (trace st ++ map EvRelease (held_buffers slots))).
Proof.
  induction slots as [|slot rest IH]; intros pre st Hb.
  - simpl. unfold ret. rewrite app_nil_r in *. rewrite <- Hb.
    destruct st as [[] ? ?]; simpl. by rewrite app_nil_r.
  - cbn [D3D11.clear_buffers]. unfold bind at 1.
    assert (Hstep : forall st1 : St D3D11.GraphicsDeviceD3D11 W,
      D3D11.m_staging_buffers (this st1) = (pre ++ [None]) ++ rest ->
      D3D11.clear_buffers drv (S (length pre)) rest st1
      = Ret tt (mkSt (D3D11.mkDev (D3D11.m_device (this st1)) (D3D11.m_context (this st1))
                                  (D3D11.m_query_event (this st1))
                                  (D3D11.m_staging_textures (this st1))
                                  (pre ++ replicate (length (slot :: rest)) None))
                     (released_handles drv (held_buffers rest) (gpu st1))
                     (trace st1 ++ map EvRelease (held_buffers rest)))).
    { intros st1 H1. replace (S (length pre)) with (length (pre ++ [None : option handle])).
      2:{ rewrite length_app. simpl. lia. }
      rewrite (IH _ _ H1). simpl. by rewrite <- app_assoc. }
    destruct slot as [buf|].
    + prims. simpl. rewrite Hstep.
      * simpl. unfold held_buffers. simpl. by rewrite <- app_assoc.
      * simpl. rewrite Hb. rewrite <- app_assoc. simpl.
        rewrite insert_app_r_alt by lia. by rewrite Nat.sub_diag.
    + prims. rewrite Hstep; [done|]. rewrite Hb. by rewrite <- app_assoc.
Qed.

Lemma clearStagingBuffers_run (st : St D3D11.GraphicsDeviceD3D11 W) :
  D3D11.clearStagingBuffers drv st
  = Ret tt (mkSt (D3D11.mkDev (D3D11.m_device (this st)) (D3D11.m_context (this st))
                              (D3D11.m_query_event (this st))
                              (D3D11.m_staging_textures (this st))
                              (replicate (length (D3D11.m_staging_buffers (this st))) None))
                 (released_handles drv (held_buffers (D3D11.m_staging_buffers (this st)))
                                   (gpu st))
                 (trace st ++ map EvRelease (held_buffers (D3D11.m_staging_buffers (this st))))).
Proof.
  unfold D3D11.clearStagingBuffers. unfold bind, get_this.
  exact (clear_buffers_run (D3D11.m_staging_buffers (this st)) [] st eq_refl).
Qed.

Lemma d3d11_destructor_run (st : St D3D11.GraphicsDeviceD3D11 W) :
  let d := this st in
  let w1 := released_handles drv (held_buffers (D3D11.m_staging_buffers d))
              (released drv (D3D11.m_staging_textures d) (gpu st)) in
  let evs := release_events (D3D11.m_staging_textures d)
             ++ map EvRelease (held_buffers (D3D11.m_staging_buffers d)) in
  let slots := replicate (length (D3D11.m_staging_buffers d)) None in
  D3D11.destructor drv st =
  match D3D11.m_context d with
  | None =>
      Ret tt (mkSt (D3D11.mkDev (D3D11.m_device d) None (D3D11.m_query_event d) [] slots)
                   w1 (trace st ++ evs))
  | Some ctx =>
      match D3D11.m_query_event d with
      | None =>
          Stuck NullDeref (mkSt (D3D11.mkDev (D3D11.m_device d) None None [] slots)
                                (Release drv ctx w1) (trace st ++ evs ++ [EvRelease ctx]))
      | Some q =>
          Ret tt (mkSt (D3D11.mkDev (D3D11.m_device d) None None [] slots)
                       (Release drv q (Release drv ctx w1))
                       (trace st ++ evs ++ [EvRelease ctx; EvRelease q]))
      end
  end.
Proof.
  cbv zeta. unfold D3D11.destructor. unfold bind at 1. rewrite clearStagingTextures_run11.
  unfold bind at 1. rewrite clearStagingBuffers_run. simpl. prims. simpl.
  destruct (D3D11.m_context (this st)) as [ctx|]; simpl.
  - destruct (D3D11.m_query_event (this st)) as [q|]; simpl; by rewrite <- !app_assoc.
  - by rewrite <- !app_assoc.
Qed.

Lemma held_buffers_replicate n : held_buffers (replicate n None) = [].
Proof. induction n; simpl; done. Qed.

Lemma mp_release_all_run entries (st : St MpD3D9.mpGraphicsDeviceD3D9 W) :
  MpD3D9.release_all drv entries st =
  Ret tt (mkSt (this st) (released drv entries (gpu st)) (trace st ++ release_events entries)).
Proof.
  revert st. induction entries as [|[k tex] rest IH]; intros st; simpl.
  - unfold ret, released, release_events. simpl. by rewrite app_nil_r, St_eta.
  - prims. rewrite IH. simpl. unfold released, release_events. simpl.
    by rewrite <- app_assoc.
Qed.
End Destructors.

(** The destructors.  [~GraphicsDeviceD3D11()] releases every cached
    staging texture in the order of the map, every staging buffer it
    holds in the order of the slots, then the context and then the event
    query, and leaves the cache empty and every pointer but [m_device]
    null, so that a second pass releases nothing; when the constructor
    got no event query, the destructor dereferences the null query after
    the release of the context.  [~GraphicsDeviceD3D9()] and
    [~mpGraphicsDeviceD3D9()] release the cached staging surfaces and
    nothing else: the event query of the D3D9 device stays as it is. *)
Theorem destructors_release_what_the_devices_hold {W} (drv : Driver W) (ctx : handle)
    (st11 : St D3D11.GraphicsDeviceD3D11 W) (st9 : St D3D9.GraphicsDeviceD3D9 W)
    (stm : St MpD3D9.mpGraphicsDeviceD3D9 W) :
  D3D11.m_context (this st11) = Some ctx ->
  let d := this st11 in
  let o := D3D11.destructor drv st11 in
  let evs := release_events (D3D11.m_staging_textures d)
             ++ map EvRelease (held_buffers (D3D11.m_staging_buffers d)) in
  (forall q, D3D11.m_query_event d = Some q ->
     returned o = Some tt /\
     emitted st11 o = evs ++ [EvRelease ctx; EvRelease q] /\
     this (final o)
     = D3D11.mkDev (D3D11.m_device d) None None []
                   (replicate (length (D3D11.m_staging_buffers d)) None) /\
     returned (D3D11.destructor drv (final o)) = Some tt /\
     emitted (final o) (D3D11.destructor drv (final o)) = []) /\
  (D3D11.m_query_event d = None ->
     why_stuck o = Some NullDeref /\ emitted st11 o = evs ++ [EvRelease ctx]) /\
  (let o9 := D3D9.destructor drv st9 in
   returned o9 = Some tt /\
   emitted st9 o9 = release_events (D3D9.m_staging_textures (this st9)) /\
   this (final o9) = D3D9.mkDev (D3D9.m_device (this st9)) (D3D9.m_query_event (this st9)) []) /\
  (let om := MpD3D9.destructor drv stm in
   returned om = Some tt /\
   emitted stm om = release_events (MpD3D9.m_staging_textures (this stm)) /\
   this (final om) = MpD3D9.mkDev (MpD3D9.m_device (this stm)) []).
Proof.
  intros Hctx. cbv zeta. split; [|split; [|split]].
  - intros q Hq. rewrite d3d11_destructor_run. cbv zeta. rewrite Hctx, Hq. simpl.
    split; [done|]. split; [apply emitted_app; simpl; by rewrite <- app_assoc|].
    split; [done|]. rewrite d3d11_destructor_run. simpl.
    split; [done|]. apply emitted_app. simpl.
    by rewrite held_buffers_replicate.
  - intros Hq. rewrite d3d11_destructor_run. cbv zeta. rewrite Hctx, Hq. simpl.
    split; [done|]. apply emitted_app. simpl. by rewrite <- app_assoc.
  - unfold D3D9.destructor. rewrite clearStagingTextures_run9. simpl.
    split; [done|]. split; [by apply emitted_app | done].
  - unfold MpD3D9.destructor. prims. rewrite mp_release_all_run. simpl.
    split; [done|]. split; [by apply emitted_app | done].
Qed.

(** The D3D11 device of the reference driver after 32 requests for staging
    textures and one for a staging buffer. *)
Lemma destructors_release_what_the_devices_hold_witness :
  let st := final (D3D11.getStagingBuffer RefDriver.driver Vertex 16 Scenario.full11) in
  let o := D3D11.destructor RefDriver.driver st in
  returned o = Some tt /\
  emitted st o
  = (release_events (D3D11.m_staging_textures (this st))
     ++ map EvRelease (held_buffers (D3D11.m_staging_buffers (this st))))
    ++ [EvRelease 101%positive; EvRelease 102%positive] /\
  this (final o)
  = D3D11.mkDev (D3D11.m_device (this st)) None None []
                (replicate (length (D3D11.m_staging_buffers (this st))) None) /\
  returned (D3D11.destructor RefDriver.driver (final o)) = Some tt /\
  emitted (final o) (D3D11.destructor RefDriver.driver (final o)) = [].
Proof.
  cbv zeta.
  set (st := final (D3D11.getStagingBuffer RefDriver.driver Vertex 16 Scenario.full11)).
  assert (Hctx : D3D11.m_context (this st) = Some 101%positive) by (vm_compute; reflexivity).
  assert (Hq : D3D11.m_query_event (this st) = Some 102%positive) by (vm_compute; reflexivity).
  exact (proj1 (destructors_release_what_the_devices_hold RefDriver.driver 101%positive st
                  (Scenario.start9 1 Scenario.tex_1x1)
                  (Scenario.startmp 1 Scenario.tex_1x1) Hctx)
               102%positive Hq).
Defined.

(** ** Hits of the staging caches *)

Section Hit.
Context {W : Type} (drv : Driver W) (GetTexelSize : TextureFormat -> Z).

Lemma getStagingTexture_again width height format
    (st st1 : St D3D11.GraphicsDeviceD3D11 W) tex :
  D3D11.getStagingTexture drv width height format st = Ret (Some tex) st1 ->
  map_size (D3D11.m_staging_textures (this st1)) < 32 ->
  D3D11.getStagingTexture drv width height format st1 = Ret (Some tex) st1.
Proof.
  intros Hrun Hsize.
  assert (Hfind : map_find (D3D11.m_staging_textures (this st1))
                    (staging_hash width height (D3D11.GetInternalFormatD3D11 format))
                  = Some tex).
  { rewrite getStagingTexture_run in Hrun. cbv zeta in Hrun.
    destruct (map_find _ _) as [t|] eqn:Hf.
    - inversion Hrun; subst. exact Hf.
    - destruct (D3D11.m_device _); [|done].
      destruct (CreateTexture2D drv _ _) as [[t|] w]; [|done].
      inversion Hrun; subst. simpl. by apply map_find_insert_new. }
  rewrite getStagingTexture_run. cbv zeta. unfold D3D11.D3D11MaxStagingTextures.
  destruct (Z.geb_spec (map_size (D3D11.m_staging_textures (this st1))) 32); [lia|].
  by rewrite Hfind.
Qed.

Lemma findOrCreateStagingTexture_again width height format
    (st st1 : St D3D9.GraphicsDeviceD3D9 W) surf :
  D3D9.findOrCreateStagingTexture drv width height format st = Ret (Some surf) st1 ->
  map_size (D3D9.m_staging_textures (this st1)) < 32 ->
  D3D9.findOrCreateStagingTexture drv width height format st1 = Ret (Some surf) st1.
Proof.
  intros Hrun Hsize.
  rewrite findOrCreateStagingTexture_run in Hrun. cbv zeta in Hrun.
  rewrite findOrCreateStagingTexture_run. cbv zeta. unfold D3D9.D3D9MaxStagingTextures in *.
  destruct (Z.geb_spec (map_size (D3D9.m_staging_textures (this st1))) 32); [lia|].
  destruct (_ =? D3DFMT_UNKNOWN); [done|].
  assert (Hfind : map_find (D3D9.m_staging_textures (this st1))
                    (staging_hash width height (D3D9.GetInternalFormatD3D9 format))
                  = Some surf).
  { destruct (map_find _ _) as [t|] eqn:Hf.
    - inversion Hrun; subst. exact Hf.
    - destruct (D3D9.m_device _); [|done].
      destruct (CreateOffscreenPlainSurface drv _ _ _ _ _) as [[t|] w]; [|done].
      inversion Hrun; subst. simpl. by apply map_find_insert_new. }
  by rewrite Hfind.
Qed.
End Hit.

(** A request that was served is served again from the cache: when
    [getStagingTexture] (D3D11) or [findOrCreateStagingTexture] (D3D9)
    has returned a texture and the cache then holds fewer than 32
    entries, the same request returns the same texture and leaves the
    device, the driver and the log as they are. *)
Theorem staging_texture_is_found_again {W} (drv : Driver W)
    (width height : Z) (format : TextureFormat) (tex : handle)
    (st11 st11' : St D3D11.GraphicsDeviceD3D11 W) (st9 st9' : St D3D9.GraphicsDeviceD3D9 W) :
  (D3D11.getStagingTexture drv width height format st11 = Ret (Some tex) st11' ->
   map_size (D3D11.m_staging_textures (this st11')) < 32 ->
   D3D11.getStagingTexture drv width height format st11' = Ret (Some tex) st11') /\
  (D3D9.findOrCreateStagingTexture drv width height format st9 = Ret (Some tex) st9' ->
   map_size (D3D9.m_staging_textures (this st9')) < 32 ->
   D3D9.findOrCreateStagingTexture drv width height format st9' = Ret (Some tex) st9').
Proof.
  split; [apply getStagingTexture_again | apply findOrCreateStagingTexture_again].
Qed.

Lemma staging_texture_is_found_again_witness :
  let st11 := Scenario.start11 1 false Scenario.tex_1x1 in
  let st11' := final (D3D11.getStagingTexture RefDriver.driver 4 4 Rf32 st11) in
  let st9 := Scenario.start9 1 Scenario.tex_1x1 in
  let st9' := final (D3D9.findOrCreateStagingTexture RefDriver.driver 4 4 Rf32 st9) in
  D3D11.getStagingTexture RefDriver.driver 4 4 Rf32 st11' = Ret (Some 2%positive) st11' /\
  D3D9.findOrCreateStagingTexture RefDriver.driver 4 4 Rf32 st9' = Ret (Some 2%positive) st9'.
Proof.
  cbv zeta.
  destruct (staging_texture_is_found_again RefDriver.driver 4 4 Rf32 2%positive
              (Scenario.start11 1 false Scenario.tex_1x1)
              (final (D3D11.getStagingTexture RefDriver.driver 4 4 Rf32
                        (Scenario.start11 1 false Scenario.tex_1x1)))
              (Scenario.start9 1 Scenario.tex_1x1)
              (final (D3D9.findOrCreateStagingTexture RefDriver.driver 4 4 Rf32
                        (Scenario.start9 1 Scenario.tex_1x1)))) as [H11 H9].
  split.
  - apply H11; [vm_compute; reflexivity | vm_compute; reflexivity].
  - apply H9; [vm_compute; reflexivity | vm_compute; reflexivity].
Defined.

(** ** Formats *)

Lemma GetInternalFormatD3D9_supported f :
  D3D9.GetInternalFormatD3D9 f <> D3DFMT_UNKNOWN <-> In f d3d9_formats.
Proof.
  unfold d3d9_formats. simpl. split.
  - unfold D3D9.GetInternalFormatD3D9.
    repeat match goal with
           | |- context [f =? ?c] =>
               destruct (Z.eqb_spec f c) as [->|?];
               [intros _; repeat first [left; reflexivity | right]|]
           end.
    intros H; congruence.
  - intros H. decompose [or] H; subst; try done.
Qed.

Lemma GetInternalFormatD3D11_supported f :
  D3D11.GetInternalFormatD3D11 f <> DXGI_FORMAT_UNKNOWN <-> In f d3d11_formats.
Proof.
  unfold d3d11_formats, d3d9_formats. simpl. split.
  - unfold D3D11.GetInternalFormatD3D11.
    repeat match goal with
           | |- context [f =? ?c] =>
               destruct (Z.eqb_spec f c) as [->|?];
               [intros _; repeat first [left; reflexivity | right]|]
           end.
    intros H; congruence.
  - intros H. decompose [or] H; subst; try done.
Qed.

Lemma GetInternalFormatD3D11_injective f1 f2 :
  In f1 d3d11_formats -> In f2 d3d11_formats ->
  D3D11.GetInternalFormatD3D11 f1 = D3D11.GetInternalFormatD3D11 f2 -> f1 = f2.
Proof.
  unfold d3d11_formats, d3d9_formats. simpl. intros H1 H2 Heq.
  decompose [or] H1; decompose [or] H2; subst; try done.
Qed.

Lemma GetInternalFormatD3D9_injective f1 f2 :
  In f1 d3d9_formats -> In f2 d3d9_formats ->
  D3D9.GetInternalFormatD3D9 f1 = D3D9.GetInternalFormatD3D9 f2 -> f1 = f2.
Proof.
  unfold d3d9_formats. simpl. intros H1 H2 Heq.
  decompose [or] H1; decompose [or] H2; subst; try done.
Qed.

Lemma GetInternalFormatD3D11_range f : 0 <= D3D11.GetInternalFormatD3D11 f < 2 ^ 32.
Proof. unfold D3D11.GetInternalFormatD3D11. repeat break_match; done. Qed.

Lemma GetInternalFormatD3D9_range f : 0 <= D3D9.GetInternalFormatD3D9 f < 2 ^ 32.
Proof. unfold D3D9.GetInternalFormatD3D9. repeat break_match; done. Qed.

(** The tables of native formats.  [GetInternalFormatD3D11] knows ten
    formats and [GetInternalFormatD3D9] seven of them; every other format
    is [DXGI_FORMAT_UNKNOWN] or [D3DFMT_UNKNOWN].  On the formats they
    know the tables are injective, so with widths and heights below
    [2^16] two requests for staging textures share a cache key only if
    width, height and format agree.  The D3D11 device does not stop at a
    format it does not know: all such formats share the key of
    [DXGI_FORMAT_UNKNOWN]. *)
Theorem staging_keys_of_known_formats (w1 h1 w2 h2 : Z) (f1 f2 : TextureFormat) :
  0 <= w1 < 2 ^ 16 -> 0 <= h1 < 2 ^ 16 -> 0 <= w2 < 2 ^ 16 -> 0 <= h2 < 2 ^ 16 ->
  (D3D11.GetInternalFormatD3D11 f1 <> DXGI_FORMAT_UNKNOWN <-> In f1 d3d11_formats) /\
  (D3D9.GetInternalFormatD3D9 f1 <> D3DFMT_UNKNOWN <-> In f1 d3d9_formats) /\
  (In f1 d3d11_formats -> In f2 d3d11_formats ->
   staging_hash w1 h1 (D3D11.GetInternalFormatD3D11 f1)
   = staging_hash w2 h2 (D3D11.GetInternalFormatD3D11 f2) ->
   w1 = w2 /\ h1 = h2 /\ f1 = f2) /\
  (In f1 d3d9_formats -> In f2 d3d9_formats ->
   staging_hash w1 h1 (D3D9.GetInternalFormatD3D9 f1)
   = staging_hash w2 h2 (D3D9.GetInternalFormatD3D9 f2) ->
   w1 = w2 /\ h1 = h2 /\ f1 = f2) /\
  (~ In f1 d3d11_formats -> ~ In f2 d3d11_formats ->
   staging_hash w1 h1 (D3D11.GetInternalFormatD3D11 f1)
   = staging_hash w1 h1 (D3D11.GetInternalFormatD3D11 f2)).
Proof.
  intros Hw1 Hh1 Hw2 Hh2.
  split; [apply GetInternalFormatD3D11_supported|].
  split; [apply GetInternalFormatD3D9_supported|].
  split; [|split].
  - intros H1 H2 Hkey.
    apply staging_hash_injective in Hkey as (-> & -> & Hf);
      try done; try apply GetInternalFormatD3D11_range.
    split; [done|]. split; [done|]. by apply GetInternalFormatD3D11_injective.
  - intros H1 H2 Hkey.
    apply staging_hash_injective in Hkey as (-> & -> & Hf);
      try done; try apply GetInternalFormatD3D9_range.
    split; [done|]. split; [done|]. by apply GetInternalFormatD3D9_injective.
  - intros H1 H2.
    assert (E1 : D3D11.GetInternalFormatD3D11 f1 = DXGI_FORMAT_UNKNOWN).
    { destruct (Z.eq_dec (D3D11.GetInternalFormatD3D11 f1) DXGI_FORMAT_UNKNOWN); [done|].
      by apply GetInternalFormatD3D11_supported in n. }
    assert (E2 : D3D11.GetInternalFormatD3D11 f2 = DXGI_FORMAT_UNKNOWN).
    { destruct (Z.eq_dec (D3D11.GetInternalFormatD3D11 f2) DXGI_FORMAT_UNKNOWN); [done|].
      by apply GetInternalFormatD3D11_supported in n. }
    by rewrite E1, E2.
Qed.

Lemma staging_keys_of_known_formats_witness :
  (640 = 640 /\ 480 = 480 /\ Rf32 = Rf32) /\
  staging_hash 640 480 (D3D11.GetInternalFormatD3D11 Ru8)
  = staging_hash 640 480 (D3D11.GetInternalFormatD3D11 RGi16).
Proof.
  destruct (staging_keys_of_known_formats 640 480 640 480 Rf32 Rf32)
    as (_ & _ & H11 & _ & _); [lia | lia | lia | lia |].
  destruct (staging_keys_of_known_formats 640 480 640 480 Ru8 RGi16)
    as (_ & _ & _ & _ & Hunknown); [lia | lia | lia | lia |].
  split.
  - apply H11; [simpl; tauto | simpl; tauto | reflexivity].
  - apply Hunknown; simpl; intros H; decompose [or] H; done.
Defined.

(** ** Transfers without a staging resource *)

Section NoStaging.
Context {W : Type} (drv : Driver W) (GetTexelSize : TextureFormat -> Z).

Lemma d3d9_readTexture_without_staging o_buf bufsize tex_ width height format
    (st st1 : St D3D9.GraphicsDeviceD3D9 W) :
  D3D9.findOrCreateStagingTexture drv width height format st = Ret None st1 ->
  D3D9.readTexture drv GetTexelSize o_buf bufsize tex_ width height format st
  = Ret (Unknown, o_buf) st1.
Proof. intros H. unfold D3D9.readTexture. unfold bind. by rewrite H. Qed.

Lemma d3d9_writeTexture_without_staging o_tex width height format buf bufsize
    (st st1 : St D3D9.GraphicsDeviceD3D9 W) :
  wrap_u64 (GetTexelSize format) <> 0 ->
  D3D9.findOrCreateStagingTexture drv width height format st = Ret None st1 ->
  D3D9.writeTexture drv GetTexelSize o_tex width height format buf bufsize st
  = Ret Unknown st1.
Proof.
  intros Hsz H. unfold D3D9.writeTexture. cbv zeta. unfold bind at 1.
  rewrite size_t_div_defined by done. unfold bind. by rewrite H.
Qed.

Lemma findOrCreateStagingTexture_unknown_format width height format
    (st : St D3D9.GraphicsDeviceD3D9 W) :
  D3D9.GetInternalFormatD3D9 format = D3DFMT_UNKNOWN ->
  D3D9.findOrCreateStagingTexture drv width height format st
  = Ret None (if map_size (D3D9.m_staging_textures (this st)) >=? 32
              then cleared9 drv st else st).
Proof.
  intros Hf. rewrite findOrCreateStagingTexture_run. cbv zeta. by rewrite Hf.
Qed.

Lemma findOrCreateStagingTexture_null_device q width height format (w : W) tr :
  D3D9.GetInternalFormatD3D9 format <> D3DFMT_UNKNOWN ->
  D3D9.findOrCreateStagingTexture drv width height format
    (mkSt (D3D9.GraphicsDeviceD3D9_new None q) w tr)
  = Stuck NullDeref (mkSt (D3D9.GraphicsDeviceD3D9_new None q) w tr).
Proof.
  intros Hf. rewrite findOrCreateStagingTexture_run. cbv zeta. simpl.
  by destruct (Z.eqb_spec (D3D9.GetInternalFormatD3D9 format) D3DFMT_UNKNOWN).
Qed.

Lemma d3d11_readTexture_staging_failed dst dst_size src width height format
    (st : St D3D11.GraphicsDeviceD3D11 W) ctx dev w1 w4 :
  D3D11.m_context (this st) = Some ctx ->
  D3D11.m_device (this st) = Some dev ->
  Z.land (tex_CPUAccessFlags (Texture2D_GetDesc drv src (gpu st))) D3D11_CPU_ACCESS_READ = 0 ->
  map_size (D3D11.m_staging_textures (this st)) < 32 ->
  map_find (D3D11.m_staging_textures (this st))
           (staging_hash width height (D3D11.GetInternalFormatD3D11 format)) = None ->
  CreateTexture2D drv (staging_desc width height format) (gpu st) = (None, w1) ->
  Map drv None D3D11_MAP_READ
      (GetData_polls drv (End_query drv (CopyResource drv None src w1))).2 = (None, w4) ->
  D3D11.readTexture drv GetTexelSize dst dst_size (Some src) width height format st
  = Ret (Unknown, dst)
        (mkSt (this st) w4
           (trace st ++
              [EvGetDesc src; EvCreateTexture2D (staging_desc width height format) None;
               EvCopyResource None src; EvEnd]
              ++ poll_events (GetData_polls drv (End_query drv (CopyResource drv None src w1))).1
              ++ [EvMap None D3D11_MAP_READ false;
                  EvLog "GraphicsDeviceD3D11::readTexture(): Map() failed."])).
Proof.
  intros Hctx Hdev Hflag Hsize Hfind Hcreate Hmap.
  unfold D3D11.readTexture.
  unfold bind at 1. unfold get_this at 1. rewrite Hctx.
  unfold bind at 1. unfold query at 1. rewrite Hflag. cbn [Z.eqb negb].
  unfold bind at 1. rewrite getStagingTexture_run. cbv zeta. cbn [this gpu trace].
  unfold D3D11.D3D11MaxStagingTextures.
  destruct (Z.geb_spec (map_size (D3D11.m_staging_textures (this st))) 32); [lia|].
  cbn [this gpu trace]. rewrite Hfind, Hdev, Hcreate.
  unfold bind at 1. unfold call_ at 1. cbn [this gpu trace].
  unfold bind at 1. rewrite sync_run11. cbn [this gpu trace]. rewrite Hctx.
  destruct (GetData_polls drv _) as [n w3] eqn:Hpolls. simpl in Hmap.
  unfold D3D11.proc_read_texture. prims. simpl. rewrite Hctx. simpl. rewrite Hmap. simpl.
  rewrite <- ?app_assoc. simpl. by rewrite <- ?app_assoc.
Qed.
End NoStaging.

(** The D3D9 transfers need a staging surface: when
    [findOrCreateStagingTexture] returns null, because the format is not
    one of the seven that [GetInternalFormatD3D9] knows or because
    [CreateOffscreenPlainSurface] failed, [readTexture] returns [Unknown]
    with the destination as it was and [writeTexture] returns [Unknown],
    and neither calls the driver again.  With a format that is not known,
    all that happens is the clearing of a cache that holds 32 entries. *)
Theorem d3d9_transfer_without_staging_surface {W} (drv : Driver W)
    (GetTexelSize : TextureFormat -> Z) (buf : option buffer) (tex : option handle)
    (width height size : Z) (format : TextureFormat) (st st1 : St D3D9.GraphicsDeviceD3D9 W) :
  (D3D9.findOrCreateStagingTexture drv width height format st = Ret None st1 ->
   D3D9.readTexture drv GetTexelSize buf size tex width height format st
   = Ret (Unknown, buf) st1 /\
   (wrap_u64 (GetTexelSize format) <> 0 ->
    D3D9.writeTexture drv GetTexelSize tex width height format buf size st
    = Ret Unknown st1)) /\
  (~ In format d3d9_formats ->
   D3D9.findOrCreateStagingTexture drv width height format st
   = Ret None (if map_size (D3D9.m_staging_textures (this st)) >=? 32
               then cleared9 drv st else st)).
Proof.
  split.
  - intros H. split; [by apply d3d9_readTexture_without_staging|].
    intros Hsz. by apply d3d9_writeTexture_without_staging.
  - intros Hf. apply findOrCreateStagingTexture_unknown_format.
    destruct (Z.eq_dec (D3D9.GetInternalFormatD3D9 format) D3DFMT_UNKNOWN); [done|].
    by apply GetInternalFormatD3D9_supported in n.
Qed.

(** [Ru8] on the reference driver. *)
Lemma d3d9_transfer_without_staging_surface_witness :
  let st := Scenario.start9 1 Scenario.tex_1x1 in
  D3D9.readTexture RefDriver.driver GetTexelSize_table (Some Scenario.data4) 4
                   (Some 1%positive) 4 1 Ru8 st
  = Ret (Unknown, Some Scenario.data4) st /\
  D3D9.writeTexture RefDriver.driver GetTexelSize_table (Some 1%positive) 4 1 Ru8
                    (Some Scenario.data4) 4 st
  = Ret Unknown st.
Proof.
  cbv zeta.
  destruct (d3d9_transfer_without_staging_surface RefDriver.driver GetTexelSize_table
              (Some Scenario.data4) (Some 1%positive) 4 1 4 Ru8
              (Scenario.start9 1 Scenario.tex_1x1) (Scenario.start9 1 Scenario.tex_1x1))
    as [Hnone Hformat].
  assert (Hs : D3D9.findOrCreateStagingTexture RefDriver.driver 4 1 Ru8
                 (Scenario.start9 1 Scenario.tex_1x1)
               = Ret None (Scenario.start9 1 Scenario.tex_1x1)).
  { apply Hformat. simpl. intros H. decompose [or] H; done. }
  destruct (Hnone Hs) as [Hread Hwrite].
  split; [exact Hread | apply Hwrite; by vm_compute].
Defined.

(** A device made of a null pointer.  [CreateGraphicsDeviceD3D11] answers
    a null device with null; [CreateGraphicsDeviceD3D9] makes a device of
    it, without an event query, and that device dereferences null in
    [sync()] and, for a format it knows, in [readTexture] and
    [writeTexture], before any call of the driver. *)
Theorem d3d9_device_of_a_null_pointer {W} (drv : Driver W) (GetTexelSize : TextureFormat -> Z)
    (ctx q : option handle) (buf : option buffer) (tex : option handle)
    (width height size : Z) (format : TextureFormat) (w : W) (tr : list event) :
  CreateGraphicsDeviceD3D11 None ctx q = None /\
  exists d, CreateGraphicsDeviceD3D9 None q = Some d /\
    D3D9.m_query_event d = None /\
    let st := mkSt d w tr in
    D3D9.sync drv st = Stuck NullDeref st /\
    (In format d3d9_formats ->
     D3D9.readTexture drv GetTexelSize buf size tex width height format st
     = Stuck NullDeref st /\
     (wrap_u64 (GetTexelSize format) <> 0 ->
      D3D9.writeTexture drv GetTexelSize tex width height format buf size st
      = Stuck NullDeref st)).
Proof.
  split; [done|]. eexists. split; [reflexivity|]. split; [done|]. cbv zeta.
  split; [by rewrite sync_run9|]. intros Hf.
  apply GetInternalFormatD3D9_supported in Hf.
  pose proof (findOrCreateStagingTexture_null_device drv q width height format w tr Hf) as Hs.
  split.
  - unfold D3D9.readTexture. unfold bind. by rewrite Hs.
  - intros Hsz. unfold D3D9.writeTexture. cbv zeta. unfold bind at 1.
    rewrite size_t_div_defined by done. unfold bind. by rewrite Hs.
Qed.

Lemma d3d9_device_of_a_null_pointer_witness :
  let st := mkSt (D3D9.GraphicsDeviceD3D9_new None (Some 7%positive))
                 (Scenario.world 1 false Scenario.tex_1x1) [] in
  D3D9.readTexture RefDriver.driver GetTexelSize_table (Some Scenario.data4) 4
                   (Some 1%positive) 1 1 Rf32 st = Stuck NullDeref st /\
  D3D9.writeTexture RefDriver.driver GetTexelSize_table (Some 1%positive) 1 1 Rf32
                    (Some Scenario.data4) 4 st = Stuck NullDeref st.
Proof.
  cbv zeta.
  destruct (d3d9_device_of_a_null_pointer RefDriver.driver GetTexelSize_table None
              (Some 7%positive) (Some Scenario.data4) (Some 1%positive) 1 1 4 Rf32
              (Scenario.world 1 false Scenario.tex_1x1) [])
    as (_ & d & Hd & _ & _ & Hrun).
  inversion Hd; subst d. cbv zeta in Hrun.
  destruct Hrun as [Hread Hwrite]; [simpl; tauto|].
  split; [exact Hread | apply Hwrite; by vm_compute].
Defined.

(** The D3D11 [readTexture] does not look at the staging texture it gets:
    when the source is not CPU-readable and [CreateTexture2D] fails, it
    still calls [CopyResource] with a null destination, syncs, and maps the
    null resource; when the driver refuses that map, the method returns
    [Unknown] with the destination as it was. *)
Theorem d3d11_readTexture_goes_on_without_staging_texture {W} (drv : Driver W)
    (GetTexelSize : TextureFormat -> Z) (dst : option buffer) (dst_size : Z) (src : handle)
    (width height : Z) (format : TextureFormat) (st : St D3D11.GraphicsDeviceD3D11 W)
    (ctx dev : handle) (w1 w4 : W) :
  D3D11.m_context (this st) = Some ctx ->
  D3D11.m_device (this st) = Some dev ->
  Z.land (tex_CPUAccessFlags (Texture2D_GetDesc drv src (gpu st))) D3D11_CPU_ACCESS_READ = 0 ->
  map_size (D3D11.m_staging_textures (this st)) < 32 ->
  map_find (D3D11.m_staging_textures (this st))
           (staging_hash width height (D3D11.GetInternalFormatD3D11 format)) = None ->
  CreateTexture2D drv (staging_desc width height format) (gpu st) = (None, w1) ->
  Map drv None D3D11_MAP_READ
      (GetData_polls drv (End_query drv (CopyResource drv None src w1))).2 = (None, w4) ->
  let o := D3D11.readTexture drv GetTexelSize dst dst_size (Some src) width height format st in
  returned o = Some (Unknown, dst) /\
  emitted st o
  = [EvGetDesc src; EvCreateTexture2D (staging_desc width height format) None;
     EvCopyResource None src; EvEnd]
    ++ poll_events (GetData_polls drv (End_query drv (CopyResource drv None src w1))).1
    ++ [EvMap None D3D11_MAP_READ false;
        EvLog "GraphicsDeviceD3D11::readTexture(): Map() failed."].
Proof.
  intros Hctx Hdev Hflag Hsize Hfind Hcreate Hmap. cbv zeta.
  rewrite (d3d11_readTexture_staging_failed drv GetTexelSize dst dst_size src width height
             format st ctx dev w1 w4) by done.
  split; [done|]. by apply emitted_app.
Qed.

(** The reference driver after the loss of the device. *)
Lemma d3d11_readTexture_goes_on_without_staging_texture_witness :
  let st := Scenario.start11 1 true (RefDriver.make_resource 1 1 4 DXGI_FORMAT_R32_FLOAT 1 0) in
  let o := D3D11.readTexture RefDriver.driver GetTexelSize_table (Some Scenario.data4) 4
                             (Some 1%positive) 1 1 Rf32 st in
  returned o = Some (Unknown, Some Scenario.data4) /\
  emitted st o
  = [EvGetDesc 1%positive; EvCreateTexture2D (staging_desc 1 1 Rf32) None;
     EvCopyResource None 1%positive; EvEnd]
    ++ poll_events 2
    ++ [EvMap None D3D11_MAP_READ false;
        EvLog "GraphicsDeviceD3D11::readTexture(): Map() failed."].
Proof.
  cbv zeta.
  apply (d3d11_readTexture_goes_on_without_staging_texture RefDriver.driver GetTexelSize_table
           (Some Scenario.data4) 4 1%positive 1 1 Rf32
           (Scenario.start11 1 true (RefDriver.make_resource 1 1 4 DXGI_FORMAT_R32_FLOAT 1 0))
           101%positive 100%positive
           (Scenario.world 1 true (RefDriver.make_resource 1 1 4 DXGI_FORMAT_R32_FLOAT 1 0))
           (Scenario.world 1 true (RefDriver.make_resource 1 1 4 DXGI_FORMAT_R32_FLOAT 1 0)));
    reflexivity.
Defined.

(** ** Rows and padding *)

Lemma buf_write_Some d off bytes d' :
  buf_write d off bytes = Some d' ->
  0 <= off /\ off + Z.of_nat (length bytes) <= Z.of_nat (length d) /\
  d' = take (Z.to_nat off) d ++ bytes ++ drop (Z.to_nat off + length bytes) d.
Proof.
  unfold buf_write.
  destruct (Z.leb_spec 0 off); simpl; [|done].
  destruct (Z.leb_spec (off + Z.of_nat (length bytes)) (Z.of_nat (length d))); [|done].
  intros Heq. by inversion Heq.
Qed.

Lemma buf_write_length d off bytes d' :
  buf_write d off bytes = Some d' -> length d' = length d.
Proof.
  intros H. apply buf_write_Some in H as (H0 & H1 & ->).
  rewrite !length_app, length_take, length_drop. lia.
Qed.

Lemma buf_read_write d off bytes d' :
  buf_write d off bytes = Some d' ->
  buf_read d' off (Z.of_nat (length bytes)) = Some bytes.
Proof.
  intros H. pose proof (buf_write_length _ _ _ _ H) as Hl.
  apply buf_write_Some in H as (H0 & H1 & ->).
  unfold buf_read.
  destruct (Z.leb_spec 0 off); [|lia]. simpl.
  destruct (Z.leb_spec 0 (Z.of_nat (length bytes))); [|lia]. simpl.
  rewrite Hl. destruct (Z.leb_spec (off + Z.of_nat (length bytes)) (Z.of_nat (length d))); [|lia].
  f_equal. rewrite drop_app_length'; [|rewrite length_take; lia].
  rewrite Nat2Z.id. by rewrite take_app_length.
Qed.

Lemma buf_read_write_before d off bytes d' o len :
  buf_write d off bytes = Some d' -> o + len <= off ->
  buf_read d' o len = buf_read d o len.
Proof.
  intros H Hle. pose proof (buf_write_length _ _ _ _ H) as Hl.
  apply buf_write_Some in H as (H0 & H1 & ->).
  unfold buf_read. rewrite Hl.
  destruct ((0 <=? o) && (0 <=? len) && (o + len <=? Z.of_nat (length d))) eqn:E; [|done].
  apply andb_true_iff in E as [E E3]. apply andb_true_iff in E as [E1 E2].
  apply Z.leb_le in E1, E2, E3. f_equal.
  apply list_eq. intros i.
  destruct (decide (i < Z.to_nat len)%nat) as [Hi|Hi].
  - rewrite !lookup_take_lt by done. rewrite !lookup_drop.
    rewrite lookup_app_l by (rewrite length_take; lia).
    by rewrite lookup_take_lt by lia.
  - by rewrite !lookup_take_ge by lia.
Qed.

Lemma buf_read_all (src : buffer) : buf_read src 0 (Z.of_nat (length src)) = Some src.
Proof.
  unfold buf_read. rewrite Z.add_0_l.
  rewrite !(proj2 (Z.leb_le _ _)) by lia. simpl. f_equal.
  rewrite Nat2Z.id. change (Z.to_nat 0) with 0%nat. rewrite drop_0. by apply take_ge.
Qed.

Lemma buf_write_all (dst src : buffer) :
  length dst = length src -> buf_write dst 0 src = Some src.
Proof.
  intros Hl. unfold buf_write. rewrite Z.add_0_l.
  rewrite !(proj2 (Z.leb_le _ _)) by lia. simpl. f_equal.
  change (Z.to_nat 0) with 0%nat. simpl. rewrite drop_ge by lia. by rewrite app_nil_r.
Qed.

Section Rows.
Context {W : Type} (drv : Driver W) (GetTexelSize : TextureFormat -> Z).

Lemma memcpy_from_mapped_load {Dev} dst doff res soff size (st st' : St Dev W) dst' :
  memcpy_from_mapped drv dst doff res soff size st = Ret dst' st' ->
  exists d bytes d',
    dst = Some d /\ mapped_load drv res soff size (gpu st) = Some bytes /\
    buf_write d doff bytes = Some d' /\ dst' = Some d' /\
    st' = mkSt (this st) (gpu st) (trace st ++ [EvMemcpyFromMapped res soff doff bytes]).
Proof.
  unfold memcpy_from_mapped. prims. intros H.
  destruct dst as [d|]; [|done].
  destruct (mapped_load drv res soff size (gpu st)) as [bytes|]; [|done].
  destruct (buf_write d doff bytes) as [d'|] eqn:Hw; [|done].
  inversion H; subst. by exists d, bytes, d'.
Qed.

(** The row loop of the reads: row [i] of the destination, [dp] bytes
    after the row before it, holds the [size] bytes that the mapped memory
    holds [i * sp] bytes after its start. *)
Lemma read_rows_copies {Dev} res rows :
  forall (d : buffer) doff soff size dp sp (st st' : St Dev W) dst',
  load_exact drv -> 0 <= size <= dp ->
  read_rows drv rows (Some d) doff res soff size dp sp st = Ret dst' st' ->
  exists d', dst' = Some d' /\ length d' = length d /\ gpu st' = gpu st /\ this st' = this st /\
    (forall o len, o + len <= doff -> buf_read d' o len = buf_read d o len) /\
    (forall i : nat, (i < rows)%nat ->
       exists bytes,
         mapped_load drv res (soff + Z.of_nat i * sp) size (gpu st) = Some bytes /\
         buf_read d' (doff + Z.of_nat i * dp) size = Some bytes).
Proof.
  induction rows as [|k IH]; intros d doff soff size dp sp st st' dst' Hex Hsz Hrun.
  - simpl in Hrun. inversion Hrun; subst. exists d. repeat split; try done. lia.
  - simpl in Hrun. unfold bind at 1 in Hrun.
    destruct (memcpy_from_mapped drv (Some d) doff res soff size st) as [x s1|] eqn:E; [|done].
    apply memcpy_from_mapped_load in E as (d0 & bytes & d1 & Hd & Hload & Hw & -> & ->).
    inversion Hd; subst d0.
    apply IH in Hrun as (d' & -> & Hlen & Hgpu & Hthis & Hpre & Hrows); [|done|done].
    simpl in *. exists d'. split; [done|].
    split; [by rewrite Hlen; eapply buf_write_length|].
    split; [done|]. split; [done|]. split.
    + intros o len Hle. rewrite Hpre by lia. eapply buf_read_write_before; [done|lia].
    + intros i Hi. destruct i as [|i].
      * exists bytes. rewrite !Z.mul_0_l, !Z.add_0_r. split; [done|].
        rewrite Hpre by lia.
        pose proof (Hex _ _ _ _ _ Hload) as Hl. rewrite <- Hl. by eapply buf_read_write.
      * destruct (Hrows i) as (b & Hb1 & Hb2); [lia|]. exists b.
        replace (soff + Z.of_nat (S i) * sp) with (soff + sp + Z.of_nat i * sp) by lia.
        replace (doff + Z.of_nat (S i) * dp) with (doff + dp + Z.of_nat i * dp) by lia.
        done.
Qed.

End Rows.

(** The D3D11 [readTexture] of a CPU-readable texture whose rows the
    driver pads: when the map reports a row pitch other than width x texel
    size, the method returns [OK] and row [i] of the destination, for every
    [i] below [height], holds the width x texel size bytes that the mapped
    memory holds at [i] x row pitch: the padding at the end of each row is
    skipped. *)
Theorem d3d11_readTexture_skips_row_padding {W} (drv : Driver W)
    (GetTexelSize : TextureFormat -> Z) (d : buffer) (dst_size : Z) (src : handle)
    (width height : Z) (format : TextureFormat) (st st' : St D3D11.GraphicsDeviceD3D11 W)
    (ctx : handle) (m : D3D11_MAPPED_SUBRESOURCE) (w1 : W) (e : Error) (out : option buffer) :
  load_exact drv ->
  D3D11.m_context (this st) = Some ctx ->
  Z.land (tex_CPUAccessFlags (Texture2D_GetDesc drv src (gpu st))) D3D11_CPU_ACCESS_READ <> 0 ->
  Map drv (Some src) D3D11_MAP_READ (gpu st) = (Some m, w1) ->
  0 <= int_mul width (GetTexelSize format) ->
  int_mul width (GetTexelSize format) <> wrap_int (RowPitch m) ->
  D3D11.readTexture drv GetTexelSize (Some d) dst_size (Some src) width height format st
  = Ret (e, out) st' ->
  e = OK /\
  exists d', out = Some d' /\ length d' = length d /\
    forall i : nat, (i < Z.to_nat height)%nat ->
      exists bytes,
        mapped_load drv (Some src) (Z.of_nat i * wrap_int (RowPitch m))
                    (int_mul width (GetTexelSize format)) w1 = Some bytes /\
        buf_read d' (Z.of_nat i * int_mul width (GetTexelSize format))
                 (int_mul width (GetTexelSize format)) = Some bytes.
Proof.
  intros Hex Hctx Hflag Hmap Hpos Hne Hrun.
  unfold D3D11.readTexture in Hrun.
  unfold bind at 1 in Hrun. unfold get_this at 1 in Hrun. rewrite Hctx in Hrun.
  unfold bind at 1 in Hrun. unfold query at 1 in Hrun.
  destruct (Z.eqb_spec (Z.land (tex_CPUAccessFlags (Texture2D_GetDesc drv src (gpu st)))
                               D3D11_CPU_ACCESS_READ) 0) as [|_]; [done|].
  cbn [negb] in Hrun. unfold D3D11.proc_read_texture in Hrun.
  unfold bind at 1 in Hrun. unfold get_this at 1 in Hrun. cbn [this gpu trace] in Hrun.
  unfold bind at 1 in Hrun. rewrite Hctx in Hrun. cbn [deref] in Hrun.
  unfold ret at 1 in Hrun. unfold bind at 1 in Hrun. unfold call at 1 in Hrun.
  cbn [this gpu trace] in Hrun. rewrite Hmap in Hrun.
  destruct (Z.eqb_spec (int_mul width (GetTexelSize format)) (wrap_int (RowPitch m)))
    as [|_]; [done|].
  unfold bind at 1 in Hrun.
  assert (Hw : wrap_u64 (int_mul width (GetTexelSize format))
               = int_mul width (GetTexelSize format)).
  { apply wrap_u64_small. split; [done|]. unfold int_mul, wrap_int.
    pose proof (Z.mod_pos_bound (width * GetTexelSize format + 2 ^ 31) (2 ^ 32)). lia. }
  rewrite Hw in Hrun.
  match type of Hrun with
  | context [read_rows drv ?rows ?dst ?doff ?res ?soff ?size ?dp ?sp ?s] =>
      destruct (read_rows drv rows dst doff res soff size dp sp s) as [o s5|] eqn:Hrows;
        [|done]
  end.
  unfold bind, call_, ret in Hrun. inversion Hrun; subst. clear Hrun.
  apply read_rows_copies in Hrows as (d' & -> & Hlen & _ & _ & _ & Hrows); [|done|lia].
  split; [done|]. exists d'. split; [done|]. split; [done|].
  intros i Hi. destruct (Hrows i Hi) as (bytes & H1 & H2). exists bytes.
  by rewrite !Z.add_0_l in *.
Qed.

(** On the reference driver: the rows [1 2] and [3 4] of a texture whose
    rows are 4 bytes apart. *)
Lemma d3d11_readTexture_skips_row_padding_witness :
  let st := Scenario.start11 4 false Scenario.padded_tex in
  let o := D3D11.readTexture RefDriver.driver GetTexelSize_table (Some (RefDriver.zeros 4)) 4
                             (Some 1%positive) 1 2 Rf16 st in
  returned o = Some (OK, Some Scenario.data4) /\
  exists d', Some Scenario.data4 = Some d' /\ length d' = length (RefDriver.zeros 4) /\
    forall i : nat, (i < Z.to_nat 2)%nat ->
      exists bytes,
        RefDriver.load (Some 1%positive) (Z.of_nat i * 4) 2 (gpu st) = Some bytes /\
        buf_read d' (Z.of_nat i * 2) 2 = Some bytes.
Proof.
  cbv zeta.
  set (st := Scenario.start11 4 false Scenario.padded_tex).
  set (o := D3D11.readTexture RefDriver.driver GetTexelSize_table (Some (RefDriver.zeros 4)) 4
                              (Some 1%positive) 1 2 Rf16 st).
  assert (Ho : o = Ret (OK, Some Scenario.data4) (final o)) by (vm_compute; reflexivity).
  split; [by rewrite Ho|].
  apply (d3d11_readTexture_skips_row_padding RefDriver.driver GetTexelSize_table
           (RefDriver.zeros 4) 4 1%positive 1 2 Rf16 st (final o) 101%positive
           {| RowPitch := 4 |} (gpu st) OK (Some Scenario.data4)).
  - apply refdriver_load_exact.
  - reflexivity.
  - by vm_compute.
  - reflexivity.
  - by vm_compute.
  - by vm_compute.
  - exact Ho.
Defined.

(** ** The conversions and the bounds of their arrays *)

Section Conversions.
Context {T : Type}.
Implicit Types data : list (RGBA T).

Lemma BGRA_RGBA_conversion_defined data n :
  (exists out, BGRA_RGBA_conversion data n = Some out) <-> n <= 0 \/ n <= Z.of_nat (length data).
Proof.
  split.
  - intros [out H]. unfold BGRA_RGBA_conversion in H.
    apply BGRA_RGBA_loop_inv in H as [H|H]; lia.
  - intros [H|H].
    + exists data. unfold BGRA_RGBA_conversion.
      replace (Z.to_nat n) with 0%nat by lia. done.
    + rewrite BGRA_RGBA_conversion_Some by done. eauto.
Qed.

Lemma BGRA_RGBA_conversion_twice data n out :
  BGRA_RGBA_conversion data n = Some out ->
  BGRA_RGBA_conversion out n = Some data /\ length out = length data.
Proof.
  intros H. pose proof H as Hinv. unfold BGRA_RGBA_conversion in Hinv.
  apply BGRA_RGBA_loop_inv in Hinv as [Hz|Hlen].
  - unfold BGRA_RGBA_conversion in *. rewrite Hz in *. simpl in *.
    inversion H. by subst.
  - simpl in Hlen. rewrite BGRA_RGBA_conversion_Some in H by lia.
    inversion H; subst out. clear H.
    assert (Hl : length (map swap_r_b (take (Z.to_nat n) data)) = Z.to_nat n).
    { rewrite length_map, length_take. lia. }
    split.
    + rewrite BGRA_RGBA_conversion_Some by (rewrite length_app, Hl; lia).
      rewrite take_app_le by lia. rewrite take_ge by lia.
      rewrite drop_app_ge by lia. rewrite Hl, Nat.sub_diag, drop_0.
      rewrite map_map.
      rewrite (map_ext _ id) by (intros p; apply swap_r_b_involutive).
      rewrite map_id. by rewrite take_drop.
    + rewrite length_app, Hl, length_drop. lia.
Qed.

Lemma BGRA_RGBA_conversion_lookup data n out (i : nat) p :
  BGRA_RGBA_conversion data n = Some out -> data !! i = Some p ->
  out !! i = Some (if decide (Z.of_nat i < n) then mkRGBA (b p) (g p) (r p) (a p) else p).
Proof.
  intros H Hp. pose proof H as Hinv. unfold BGRA_RGBA_conversion in Hinv.
  apply BGRA_RGBA_loop_inv in Hinv as [Hz|Hlen].
  - unfold BGRA_RGBA_conversion in H. rewrite Hz in H. simpl in H.
    inversion H; subst out. rewrite decide_False by lia. done.
  - simpl in Hlen. rewrite BGRA_RGBA_conversion_Some in H by lia.
    inversion H; subst out. clear H.
    destruct (decide (Z.of_nat i < n)) as [Hi|Hi].
    + rewrite lookup_app_l by (rewrite length_map, length_take; lia).
      rewrite list_lookup_fmap, lookup_take_lt by lia. by rewrite Hp.
    + rewrite lookup_app_r by (rewrite length_map, length_take; lia).
      rewrite length_map, length_take, lookup_drop.
      rewrite <- Hp. f_equal. lia.
Qed.
End Conversions.

(** [BGRA_RGBA_conversion] on an array of [length data] texels stays
    inside the array exactly when [num_pixels] is at most its length (or
    not positive: then nothing happens).  It then exchanges red and blue in
    the first [num_pixels] texels, keeps their green and alpha and every
    texel after them, keeps the length, and undoes itself when it is run
    again. *)
Theorem BGRA_RGBA_conversion_within_bounds {T} (data : list (RGBA T)) (num_pixels : Z) :
  ((exists out, BGRA_RGBA_conversion data num_pixels = Some out)
   <-> num_pixels <= 0 \/ num_pixels <= Z.of_nat (length data)) /\
  (forall out, BGRA_RGBA_conversion data num_pixels = Some out ->
     length out = length data /\
     BGRA_RGBA_conversion out num_pixels = Some data /\
     forall (i : nat) p, data !! i = Some p ->
       out !! i = Some (if decide (Z.of_nat i < num_pixels)
                        then mkRGBA (b p) (g p) (r p) (a p) else p)).
Proof.
  split; [apply BGRA_RGBA_conversion_defined|].
  intros out H. destruct (BGRA_RGBA_conversion_twice data num_pixels out H) as [H2 Hl].
  split; [done|]. split; [done|].
  intros i p Hp. by apply BGRA_RGBA_conversion_lookup with (data := data).
Qed.

Lemma BGRA_RGBA_conversion_within_bounds_witness :
  let data := [mkRGBA 1 2 3 4; mkRGBA 5 6 7 8] in
  let out := [mkRGBA 3 2 1 4; mkRGBA 5 6 7 8] in
  length out = length data /\
  BGRA_RGBA_conversion out 1 = Some data /\
  forall (i : nat) p, data !! i = Some p ->
    out !! i = Some (if decide (Z.of_nat i < 1) then mkRGBA (b p) (g p) (r p) (a p) else p).
Proof.
  cbv zeta.
  apply (proj2 (BGRA_RGBA_conversion_within_bounds [mkRGBA 1 2 3 4; mkRGBA 5 6 7 8] 1)).
  reflexivity.
Defined.

(** ** The staging surfaces of the particle device *)

Lemma map_size_insert_new m k v :
  map_find m k = None -> map_size (map_insert m k v) = map_size m + 1.
Proof.
  unfold map_size. induction m as [|[k' v'] rest IH]; simpl; intros H; [lia|].
  destruct (Z.eqb_spec k' k); [done|].
  destruct (k <? k'); simpl; [lia|].
  destruct (Z.eqb_spec k' k); [done|]. simpl. rewrite Nat2Z.inj_succ.
  specialize (IH H). lia.
Qed.

Section Mp.
Context {W : Type} (drv : Driver W).
Implicit Types st : St MpD3D9.mpGraphicsDeviceD3D9 W.

Lemma mp_findOrCreateStagingTexture_run width height st :
  MpD3D9.findOrCreateStagingTexture drv width height st =
  let hash := MpD3D9.staging_hash width height in
  match map_find (MpD3D9.m_staging_textures (this st)) hash with
  | Some surf => Ret (Some surf) st
  | None =>
      match MpD3D9.m_device (this st) with
      | None => Stuck NullDeref st
      | Some _ =>
          let '(created, w) := CreateOffscreenPlainSurface drv width height
                                 D3DFMT_A32B32G32R32F D3DPOOL_SYSTEMMEM (gpu st) in
          Ret created
              (mkSt match created with
                    | Some surf => MpD3D9.set_staging_textures (this st)
                                     (map_insert (MpD3D9.m_staging_textures (this st)) hash surf)
                    | None => this st
                    end
                    w (trace st ++ [EvCreateOffscreenPlainSurface width height
                                       D3DFMT_A32B32G32R32F created]))
      end
  end.
Proof.
  unfold MpD3D9.findOrCreateStagingTexture. prims. cbv zeta.
  destruct (map_find _ _); [done|].
  destruct (MpD3D9.m_device (this st)); [|done].
  destruct (CreateOffscreenPlainSurface drv _ _ _ _ _) as [[surf|] w]; reflexivity.
Qed.

Lemma mp_staging_hash_injective w1 h1 w2 h2 :
  0 <= w1 < 2 ^ 16 -> 0 <= h1 < 2 ^ 16 -> 0 <= w2 < 2 ^ 16 -> 0 <= h2 < 2 ^ 16 ->
  MpD3D9.staging_hash w1 h1 = MpD3D9.staging_hash w2 h2 -> w1 = w2 /\ h1 = h2.
Proof.
  intros Hw1 Hh1 Hw2 Hh2.
  unfold MpD3D9.staging_hash, int_add, int_shl, wrap_int, wrap_u64.
  rewrite !Z.shiftl_mul_pow2 by lia.
  change (2 ^ 16) with 65536 in *. change (2 ^ 31) with 2147483648 in *.
  change (2 ^ 32) with 4294967296 in *. change (2 ^ 64) with 18446744073709551616 in *.
  intros H. Z.div_mod_to_equations. lia.
Qed.
End Mp.

(** The cache of the particle device has no bound: its
    [findOrCreateStagingTexture] never releases a surface and keeps every
    entry; a request that returns a surface finds it in the cache
    afterwards, and a miss that turns into a surface adds exactly one
    entry, whatever the size of the cache.  With widths and heights below
    [2^16] two requests share a key only if they agree. *)
Theorem mp_staging_cache_only_grows {W} (drv : Driver W) (width height w2 h2 : Z)
    (st : St MpD3D9.mpGraphicsDeviceD3D9 W) :
  let o := MpD3D9.findOrCreateStagingTexture drv width height st in
  let cache := MpD3D9.m_staging_textures (this st) in
  let cache' := MpD3D9.m_staging_textures (this (final o)) in
  (forall k v, map_find cache k = Some v -> map_find cache' k = Some v) /\
  Forall create_event (emitted st o) /\
  (forall surf, returned o = Some (Some surf) ->
     map_find cache' (MpD3D9.staging_hash width height) = Some surf /\
     (map_find cache (MpD3D9.staging_hash width height) = None ->
      map_size cache' = map_size cache + 1)) /\
  (0 <= width < 2 ^ 16 -> 0 <= height < 2 ^ 16 -> 0 <= w2 < 2 ^ 16 -> 0 <= h2 < 2 ^ 16 ->
   MpD3D9.staging_hash width height = MpD3D9.staging_hash w2 h2 ->
   width = w2 /\ height = h2).
Proof.
  cbv zeta. split; [|split; [|split]].
  - intros k v Hk. rewrite mp_findOrCreateStagingTexture_run. cbv zeta.
    destruct (map_find _ (MpD3D9.staging_hash width height)) eqn:Hf; [done|].
    destruct (MpD3D9.m_device (this st)); [|done].
    destruct (CreateOffscreenPlainSurface drv _ _ _ _ _) as [[surf|] w]; simpl; [|done].
    rewrite map_find_insert_ne; [done|]. intros ->. congruence.
  - destruct (emits_mp_findOrCreateStagingTexture drv width height st) as (evs & Ht & F).
    by rewrite (emitted_app _ _ _ Ht).
  - intros surf. rewrite mp_findOrCreateStagingTexture_run. cbv zeta.
    destruct (map_find _ (MpD3D9.staging_hash width height)) eqn:Hf.
    + simpl. intros H. inversion H; subst. split; [done|]. intros; congruence.
    + destruct (MpD3D9.m_device (this st)); [|done].
      destruct (CreateOffscreenPlainSurface drv _ _ _ _ _) as [[s|] w]; simpl; [|done].
      intros H. inversion H; subst. split; [by apply map_find_insert_new|].
      intros _. by apply map_size_insert_new.
  - apply mp_staging_hash_injective.
Qed.

(** On the reference driver: after 33 requests for 33 heights the cache
    holds 33 surfaces, and the 34th adds one more. *)
Lemma mp_staging_cache_only_grows_witness :
  let st := final (Scenario.requestmp (Scenario.widths 33)
                     (Scenario.startmp 1 Scenario.tex_1x1)) in
  let o := MpD3D9.findOrCreateStagingTexture RefDriver.driver 4 34 st in
  map_size (MpD3D9.m_staging_textures (this st)) = 33 /\
  map_find (MpD3D9.m_staging_textures (this (final o))) (MpD3D9.staging_hash 4 34)
  = Some 35%positive /\
  map_size (MpD3D9.m_staging_textures (this (final o))) = 33 + 1.
Proof.
  cbv zeta.
  set (st := final (Scenario.requestmp (Scenario.widths 33)
                      (Scenario.startmp 1 Scenario.tex_1x1))).
  assert (Hsize : map_size (MpD3D9.m_staging_textures (this st)) = 33)
    by (vm_compute; reflexivity).
  split; [exact Hsize|].
  destruct (mp_staging_cache_only_grows RefDriver.driver 4 34 4 34 st)
    as (_ & _ & Hret & _).
  destruct (Hret 35%positive) as [Hfind Hgrow]; [vm_compute; reflexivity|].
  split; [exact Hfind|]. rewrite <- Hsize. apply Hgrow. vm_compute. reflexivity.
Defined.

(** ** Round trips through mapped memory *)

Lemma refdriver_coherent : coherent RefDriver.driver.
Proof.
  split.
  - intros res off bytes w w'. simpl. unfold RefDriver.store, RefDriver.load.
    destruct res as [h|]; simpl; [|done].
    destruct (RefDriver.resources w !! h) as [d|] eqn:Hd; simpl; [|done].
    destruct (buf_write (RefDriver.res_data d) off bytes) as [data|] eqn:Hw; simpl; [|done].
    intros H. inversion H; subst w'. simpl. rewrite lookup_insert_eq. simpl.
    by eapply buf_read_write.
  - done.
  - intros res r how off len w. simpl. unfold RefDriver.map_resource.
    repeat (break_match; simpl; try done).
Qed.

Section RoundTrip.
Context {W : Type} (drv : Driver W) (GetTexelSize : TextureFormat -> Z).

(** What a store into mapped memory leaves there is what a load after
    [Unmap] and [Map] returns. *)
Lemma mapped_write_then_read {Dev} res (src dst : buffer) n (st1 st2 st3 st4 : St Dev W)
    out how r1 r2 :
  coherent drv ->
  n = Z.of_nat (length src) -> length dst = length src ->
  memcpy_to_mapped drv res 0 (Some src) 0 n st1 = Ret tt st2 ->
  gpu st3 = (Map drv r2 how (Unmap drv r1 (gpu st2))).2 ->
  memcpy_from_mapped drv (Some dst) 0 res 0 n st3 = Ret out st4 ->
  out = Some src.
Proof.
  intros Hc -> Hl Hw Hg Hr.
  unfold memcpy_to_mapped in Hw. prims. simpl in Hw. rewrite buf_read_all in Hw.
  destruct (mapped_store drv res 0 src (gpu st1)) as [w2|] eqn:Hs; [|done].
  inversion Hw; subst st2. clear Hw. simpl in Hg.
  apply (load_after_store drv Hc) in Hs.
  unfold memcpy_from_mapped in Hr. prims. rewrite Hg in Hr.
  rewrite (load_after_Map drv Hc), (load_after_Unmap drv Hc), Hs in Hr.
  rewrite buf_write_all in Hr by done. by inversion Hr.
Qed.

(** The store of a [writeBuffer] that mapped its target and returned [OK]. *)
Lemma d3d11_writeBuffer_mapped (h : handle) (src : buffer) n type
    (st st1 : St D3D11.GraphicsDeviceD3D11 W) :
  0 < n < 2 ^ 64 ->
  Z.land (buf_CPUAccessFlags (Buffer_GetDesc drv h (gpu st))) D3D11_CPU_ACCESS_WRITE <> 0 ->
  D3D11.writeBuffer drv (Some h) (Some src) n type st = Ret OK st1 ->
  exists s1 s2 : St D3D11.GraphicsDeviceD3D11 W,
    memcpy_to_mapped drv (Some h) 0 (Some src) 0 n s1 = Ret tt s2 /\
    gpu st1 = Unmap drv (Some h) (gpu s2).
Proof.
  intros Hn Hfw Hw.
  unfold D3D11.writeBuffer in Hw. destruct (Z.eqb_spec n 0) as [|_]; [lia|].
  unfold bind at 1 in Hw. unfold query at 1 in Hw.
  destruct (Z.eqb_spec (Z.land (buf_CPUAccessFlags (Buffer_GetDesc drv h (gpu st)))
                               D3D11_CPU_ACCESS_WRITE) 0) as [|_]; [done|].
  cbn [negb] in Hw. unfold bind at 1 in Hw. unfold get_this at 1 in Hw.
  cbn [this gpu trace] in Hw. unfold bind at 1 in Hw.
  destruct (D3D11.m_context (this st)) as [ctx|]; [|done]. cbn [deref] in Hw.
  unfold ret at 1 in Hw. unfold bind at 1 in Hw. unfold call at 1 in Hw.
  cbn [this gpu trace] in Hw.
  destruct (Map drv (Some h) D3D11_MAP_WRITE_DISCARD (gpu st)) as [[m|] w1].
  2:{ unfold bind, log, ret in Hw. discriminate Hw. }
  unfold bind at 1 in Hw. rewrite wrap_u64_small in Hw by lia.
  match type of Hw with
  | context [memcpy_to_mapped drv ?a ?b ?c ?d ?e ?s] =>
      destruct (memcpy_to_mapped drv a b c d e s) as [[] s2|] eqn:Hcopy; [|done];
      exists s, s2
  end.
  split; [done|]. unfold bind, call_, ret in Hw. by inversion Hw.
Qed.

(** The store of a [writeTexture] that mapped a target with tight rows. *)
Lemma d3d11_writeTexture_mapped (h : handle) (src : buffer) n width height format
    (st st1 : St D3D11.GraphicsDeviceD3D11 W) m :
  0 < n < 2 ^ 64 ->
  Z.land (tex_CPUAccessFlags (Texture2D_GetDesc drv h (gpu st))) D3D11_CPU_ACCESS_WRITE <> 0 ->
  (Map drv (Some h) D3D11_MAP_WRITE_DISCARD (gpu st)).1 = Some m ->
  wrap_int (RowPitch m) = int_mul width (GetTexelSize format) ->
  D3D11.writeTexture drv GetTexelSize (Some h) width height format (Some src) n st = Ret OK st1 ->
  exists s1 s2 : St D3D11.GraphicsDeviceD3D11 W,
    memcpy_to_mapped drv (Some h) 0 (Some src) 0 n s1 = Ret tt s2 /\
    gpu st1 = Unmap drv (Some h) (gpu s2).
Proof.
  intros Hn Hfw Hmw Hpw Hw.
  unfold D3D11.writeTexture in Hw.
  unfold bind at 1 in Hw. unfold query at 1 in Hw.
  destruct (Z.eqb_spec (Z.land (tex_CPUAccessFlags (Texture2D_GetDesc drv h (gpu st)))
                               D3D11_CPU_ACCESS_WRITE) 0) as [|_]; [done|].
  cbn [negb] in Hw. unfold bind at 1 in Hw.
  destruct (size_t_div _ _ _) as [np s0|] eqn:Hdiv; [|done].
  assert (s0 = mkSt (this st) (gpu st) (trace st ++ [EvGetDesc h])) as ->.
  { unfold size_t_div in Hdiv. destruct (_ =? 0); [done|]. by inversion Hdiv. }
  unfold bind at 1 in Hw. unfold get_this at 1 in Hw.
  cbn [this gpu trace] in Hw. rewrite !bind_assoc in Hw. unfold bind at 1 in Hw.
  destruct (D3D11.m_context (this st)) as [ctx|]; [|done]. cbn [deref] in Hw.
  unfold ret at 1 in Hw. rewrite !bind_assoc in Hw.
  unfold bind at 1 in Hw. unfold call at 1 in Hw.
  cbn [this gpu trace] in Hw.
  destruct (Map drv (Some h) D3D11_MAP_WRITE_DISCARD (gpu st)) as [[m0|] w1];
    simpl in Hmw; [|done].
  inversion Hmw; subst m0. rewrite Hpw, Z.eqb_refl in Hw.
  rewrite !bind_assoc in Hw. unfold bind at 1 in Hw.
  rewrite wrap_u64_small in Hw by lia.
  match type of Hw with
  | context [memcpy_to_mapped drv ?a ?b ?c ?d ?e ?s] =>
      destruct (memcpy_to_mapped drv a b c d e s) as [[] s2|] eqn:Hcopy; [|done];
      exists s, s2
  end.
  split; [done|]. unfold bind, call_, ret in Hw. by inversion Hw.
Qed.
End RoundTrip.

(** Buffers round-trip on the D3D11 device: on a driver whose mapped
    memory keeps what is stored, when [writeBuffer] maps the buffer and
    returns [OK] and [readBuffer] of the same size then maps it and
    returns [OK], the destination holds the bytes of the source. *)
Theorem d3d11_buffer_roundtrip {W} (drv : Driver W) (h : handle) (src dst : buffer) (n : Z)
    (type type' : BufferType) (st st1 st2 : St D3D11.GraphicsDeviceD3D11 W)
    (out : option buffer) :
  coherent drv ->
  0 < n < 2 ^ 64 -> n = Z.of_nat (length src) -> length dst = length src ->
  Z.land (buf_CPUAccessFlags (Buffer_GetDesc drv h (gpu st))) D3D11_CPU_ACCESS_WRITE <> 0 ->
  D3D11.writeBuffer drv (Some h) (Some src) n type st = Ret OK st1 ->
  Z.land (buf_CPUAccessFlags (Buffer_GetDesc drv h (gpu st1))) D3D11_CPU_ACCESS_READ <> 0 ->
  D3D11.readBuffer drv (Some dst) (Some h) n type' st1 = Ret (OK, out) st2 ->
  out = Some src.
Proof.
  intros Hc Hn Hlen Hl Hfw Hw Hfr Hr.
  destruct (d3d11_writeBuffer_mapped drv h src n type st st1 Hn Hfw Hw)
    as (s1 & s2 & Hcopy & Hg1).
  unfold D3D11.readBuffer in Hr. destruct (Z.eqb_spec n 0) as [|_]; [lia|].
  unfold bind at 1 in Hr. unfold query at 1 in Hr.
  destruct (Z.eqb_spec (Z.land (buf_CPUAccessFlags (Buffer_GetDesc drv h (gpu st1)))
                               D3D11_CPU_ACCESS_READ) 0) as [|_]; [done|].
  cbn [negb] in Hr. unfold D3D11.proc_read_buffer in Hr.
  unfold bind at 1 in Hr. unfold get_this at 1 in Hr. cbn [this gpu trace] in Hr.
  unfold bind at 1 in Hr.
  destruct (D3D11.m_context (this st1)) as [ctx|]; [|done]. cbn [deref] in Hr.
  unfold ret at 1 in Hr. unfold bind at 1 in Hr. unfold call at 1 in Hr.
  cbn [this gpu trace] in Hr.
  destruct (Map drv (Some h) D3D11_MAP_READ (gpu st1)) as [[m'|] w4] eqn:Hmap'.
  2:{ unfold bind, log, ret in Hr. discriminate Hr. }
  unfold bind at 1 in Hr. rewrite wrap_u64_small in Hr by lia.
  match type of Hr with
  | context [memcpy_from_mapped drv ?a ?b ?c ?d ?e ?s] =>
      destruct (memcpy_from_mapped drv a b c d e s) as [o s5|] eqn:Hread; [|done]
  end.
  unfold bind, call_, ret in Hr. inversion Hr; subst o. clear Hr.
  eapply (mapped_write_then_read drv (Some h) src dst n); try done.
  simpl. by rewrite <- Hg1, Hmap'.
Qed.

(** Four bytes through the buffer 1 of the reference driver. *)
Lemma d3d11_buffer_roundtrip_witness :
  let st := Scenario.start11 1 false Scenario.buf_4 in
  let st1 := final (D3D11.writeBuffer RefDriver.driver (Some 1%positive)
                      (Some Scenario.data4) 4 Vertex st) in
  returned (D3D11.readBuffer RefDriver.driver (Some (RefDriver.zeros 4)) (Some 1%positive)
              4 Vertex st1) = Some (OK, Some Scenario.data4).
Proof.
  cbv zeta.
  set (st := Scenario.start11 1 false Scenario.buf_4).
  set (st1 := final (D3D11.writeBuffer RefDriver.driver (Some 1%positive)
                       (Some Scenario.data4) 4 Vertex st)).
  set (o := D3D11.readBuffer RefDriver.driver (Some (RefDriver.zeros 4)) (Some 1%positive)
              4 Vertex st1).
  assert (Ho : exists out, o = Ret (OK, out) (final o)).
  { eexists. vm_compute. reflexivity. }
  destruct Ho as [out Ho]. rewrite Ho. simpl. do 2 f_equal.
  apply (d3d11_buffer_roundtrip RefDriver.driver 1%positive Scenario.data4 (RefDriver.zeros 4)
           4 Vertex Vertex st st1 (final o) out).
  - apply refdriver_coherent.
  - lia.
  - reflexivity.
  - reflexivity.
  - by vm_compute.
  - vm_compute. reflexivity.
  - by vm_compute.
  - exact Ho.
Defined.

(** Textures with tight rows round-trip on the D3D11 device: on a driver
    whose mapped memory keeps what is stored, when [writeTexture] and then
    [readTexture] map the texture, both maps report a row pitch of width
    x texel size, and both methods return [OK], the destination holds the
    bytes of the source. *)
Theorem d3d11_texture_roundtrip_tight_rows {W} (drv : Driver W)
    (GetTexelSize : TextureFormat -> Z) (h : handle) (src dst : buffer) (n width height : Z)
    (format : TextureFormat) (st st1 st2 : St D3D11.GraphicsDeviceD3D11 W)
    (out : option buffer) (m m' : D3D11_MAPPED_SUBRESOURCE) :
  coherent drv ->
  0 < n < 2 ^ 64 -> n = Z.of_nat (length src) -> length dst = length src ->
  Z.land (tex_CPUAccessFlags (Texture2D_GetDesc drv h (gpu st))) D3D11_CPU_ACCESS_WRITE <> 0 ->
  (Map drv (Some h) D3D11_MAP_WRITE_DISCARD (gpu st)).1 = Some m ->
  wrap_int (RowPitch m) = int_mul width (GetTexelSize format) ->
  D3D11.writeTexture drv GetTexelSize (Some h) width height format (Some src) n st = Ret OK st1 ->
  Z.land (tex_CPUAccessFlags (Texture2D_GetDesc drv h (gpu st1))) D3D11_CPU_ACCESS_READ <> 0 ->
  (Map drv (Some h) D3D11_MAP_READ (gpu st1)).1 = Some m' ->
  wrap_int (RowPitch m') = int_mul width (GetTexelSize format) ->
  D3D11.readTexture drv GetTexelSize (Some dst) n (Some h) width height format st1
  = Ret (OK, out) st2 ->
  out = Some src.
Proof.
  intros Hc Hn Hlen Hl Hfw Hmw Hpw Hw Hfr Hmr Hpr Hr.
  destruct (d3d11_writeTexture_mapped drv GetTexelSize h src n width height format st st1 m
              Hn Hfw Hmw Hpw Hw) as (s1 & s2 & Hcopy & Hg1).
  unfold D3D11.readTexture in Hr.
  unfold bind at 1 in Hr. unfold get_this at 1 in Hr.
  destruct (D3D11.m_context (this st1)) as [ctx|] eqn:Hctx; [|done].
  unfold bind at 1 in Hr. unfold query at 1 in Hr.
  destruct (Z.eqb_spec (Z.land (tex_CPUAccessFlags (Texture2D_GetDesc drv h (gpu st1)))
                               D3D11_CPU_ACCESS_READ) 0) as [|_]; [done|].
  cbn [negb] in Hr. unfold D3D11.proc_read_texture in Hr.
  unfold bind at 1 in Hr. unfold get_this at 1 in Hr. cbn [this gpu trace] in Hr.
  unfold bind at 1 in Hr. rewrite Hctx in Hr. cbn [deref] in Hr.
  unfold ret at 1 in Hr. unfold bind at 1 in Hr. unfold call at 1 in Hr.
  cbn [this gpu trace] in Hr.
  destruct (Map drv (Some h) D3D11_MAP_READ (gpu st1)) as [[m0|] w4] eqn:Hmap';
    simpl in Hmr; [|done].
  inversion Hmr; subst m0. rewrite Hpr, Z.eqb_refl in Hr.
  unfold bind at 1 in Hr. rewrite wrap_u64_small in Hr by lia.
  match type of Hr with
  | context [memcpy_from_mapped drv ?a ?b ?c ?d ?e ?s] =>
      destruct (memcpy_from_mapped drv a b c d e s) as [o s5|] eqn:Hread; [|done]
  end.
  unfold bind, call_, ret in Hr. inversion Hr; subst o. clear Hr.
  eapply (mapped_write_then_read drv (Some h) src dst n); try done.
  simpl. by rewrite <- Hg1, Hmap'.
Qed.

(** Two rows of one texel of [Rf16] through the texture 1 of the
    reference driver, whose rows are 2 bytes apart. *)
Lemma d3d11_texture_roundtrip_tight_rows_witness :
  let st := Scenario.start11 1 false Scenario.tight_tex in
  let st1 := final (D3D11.writeTexture RefDriver.driver GetTexelSize_table (Some 1%positive)
                      1 2 Rf16 (Some Scenario.data4) 4 st) in
  returned (D3D11.readTexture RefDriver.driver GetTexelSize_table (Some (RefDriver.zeros 4)) 4
              (Some 1%positive) 1 2 Rf16 st1) = Some (OK, Some Scenario.data4).
Proof.
  cbv zeta.
  set (st := Scenario.start11 1 false Scenario.tight_tex).
  set (st1 := final (D3D11.writeTexture RefDriver.driver GetTexelSize_table (Some 1%positive)
                       1 2 Rf16 (Some Scenario.data4) 4 st)).
  set (o := D3D11.readTexture RefDriver.driver GetTexelSize_table (Some (RefDriver.zeros 4)) 4
              (Some 1%positive) 1 2 Rf16 st1).
  assert (Ho : exists out, o = Ret (OK, out) (final o)).
  { eexists. vm_compute. reflexivity. }
  destruct Ho as [out Ho]. rewrite Ho. simpl. do 2 f_equal.
  apply (d3d11_texture_roundtrip_tight_rows RefDriver.driver GetTexelSize_table 1%positive
           Scenario.data4 (RefDriver.zeros 4) 4 1 2 Rf16 st st1 (final o) out
           {| RowPitch := 2 |} {| RowPitch := 2 |}).
  - apply refdriver_coherent.
  - lia.
  - reflexivity.
  - reflexivity.
  - by vm_compute.
  - reflexivity.
  - reflexivity.
  - vm_compute. reflexivity.
  - by vm_compute.
  - vm_compute. reflexivity.
  - reflexivity.
  - exact Ho.
Defined.

(** ** What the transfers answer *)

Section Returns2.
Context {S : Type}.

Lemma returns_ret {A} (v : A) (Q : A -> Prop) : Q v -> returns (ret v : M S A) Q.
Proof. intros H st v' st' E. inversion E; by subst. Qed.

Lemma returns_bind {A B} (m : M S A) (k : A -> M S B) (Q : B -> Prop) :
  (forall x, returns (k x) Q) -> returns (bind m k) Q.
Proof.
  intros Hk st v st' E. unfold bind in E. destruct (m st) as [x s1|]; [|done].
  by eapply Hk.
Qed.

Lemma returns_bind_val {A B} (m : M S A) (k : A -> M S B) (Q1 : A -> Prop) (Q : B -> Prop) :
  returns m Q1 -> (forall x, Q1 x -> returns (k x) Q) -> returns (bind m k) Q.
Proof.
  intros Hm Hk st v st' E. unfold bind in E. destruct (m st) as [x s1|] eqn:Em; [|done].
  eapply Hk; [|exact E]. by eapply Hm.
Qed.
End Returns2.

Ltac returns_tac :=
  repeat lazymatch goal with
         | |- returns (bind _ _) _ => apply returns_bind; intros ?
         | |- returns (ret _) _ => apply returns_ret
         | |- returns (match ?x with _ => _ end) _ => destruct x
         | |- returns (let _ := _ in _) _ => cbv zeta
         end.

Section AnswersOfBuffers.
Context {W : Type} (drv : Driver W).

Lemma returns_proc_read_buffer dst buf size errors :
  In Unknown errors ->
  returns (D3D11.proc_read_buffer (W:=W) drv dst buf size) (read_answer errors dst).
Proof.
  intros He. unfold D3D11.proc_read_buffer, read_answer.
  apply returns_bind; intros d. apply returns_bind; intros _.
  apply returns_bind; intros [m|].
  - returns_tac; by left.
  - returns_tac. right. by split.
Qed.

Lemma returns_d3d11_readBuffer dst buf size type :
  returns (D3D11.readBuffer (W:=W) drv dst buf size type)
          (read_answer [Unknown; InvalidParameter] dst).
Proof.
  unfold D3D11.readBuffer. destruct (size =? 0); [apply returns_ret; by left|].
  destruct dst as [d|]; [destruct buf|].
  - apply returns_bind; intros desc. destruct (negb _).
    + apply returns_proc_read_buffer. simpl; tauto.
    + do 5 (apply returns_bind; intros ?). apply returns_proc_read_buffer. simpl; tauto.
  - apply returns_ret. right. simpl; tauto.
  - apply returns_ret. right. simpl; tauto.
Qed.

Lemma returns_d3d11_writeBuffer buf src size type :
  returns (D3D11.writeBuffer (W:=W) drv buf src size type)
          (fun e => In e [OK; Unknown; InvalidParameter]).
Proof.
  unfold D3D11.writeBuffer. destruct (size =? 0); [apply returns_ret; simpl; tauto|].
  destruct buf; [destruct src|]; returns_tac; simpl; tauto.
Qed.
End AnswersOfBuffers.

Section Answers.
Context {W : Type} (drv : Driver W) (GetTexelSize : TextureFormat -> Z).

Lemma returns_proc_read_texture dst dst_size tex width height format errors :
  In Unknown errors ->
  returns (D3D11.proc_read_texture (W:=W) drv GetTexelSize dst dst_size tex width height format)
          (read_answer errors dst).
Proof.
  intros He. unfold D3D11.proc_read_texture, read_answer.
  apply returns_bind; intros d. apply returns_bind; intros _.
  apply returns_bind; intros [m|].
  - returns_tac; by left.
  - returns_tac. right. by split.
Qed.

Lemma returns_d3d11_readTexture dst dst_size tex width height format :
  returns (D3D11.readTexture (W:=W) drv GetTexelSize dst dst_size tex width height format)
          (read_answer [Unknown; InvalidParameter] dst).
Proof.
  unfold D3D11.readTexture.
  apply returns_bind; intros d.
  destruct (D3D11.m_context d); [destruct tex|].
  - apply returns_bind; intros desc. destruct (negb _).
    + apply returns_proc_read_texture. simpl; tauto.
    + do 3 (apply returns_bind; intros ?). apply returns_proc_read_texture. simpl; tauto.
  - apply returns_ret. right. simpl; tauto.
  - apply returns_ret. right. simpl; tauto.
Qed.

Lemma returns_d3d11_writeTexture tex width height format src size :
  returns (D3D11.writeTexture (W:=W) drv GetTexelSize tex width height format src size)
          (fun e => In e [OK; InvalidParameter]).
Proof.
  unfold D3D11.writeTexture. destruct tex; [destruct src|].
  - do 4 (apply returns_bind; intros ?). apply returns_ret. simpl; tauto.
  - apply returns_ret. simpl; tauto.
  - apply returns_ret. simpl; tauto.
Qed.

Lemma returns_d3d9_readTexture o_buf bufsize tex_ width height format :
  returns (D3D9.readTexture (W:=W) drv GetTexelSize o_buf bufsize tex_ width height format)
          (read_answer [Unknown] o_buf).
Proof.
  unfold D3D9.readTexture, read_answer.
  apply returns_bind; intros [surf_dst|]; [|apply returns_ret; right; simpl; tauto].
  apply returns_bind; intros tex.
  apply returns_bind; intros [surf_src|]; [|apply returns_ret; right; simpl; tauto].
  do 4 (apply returns_bind; intros ?).
  apply returns_bind_val with (Q1 := read_answer [Unknown] o_buf).
  - unfold read_answer. returns_tac; first [by left | right; simpl; tauto].
  - intros res Hres. returns_tac. exact Hres.
Qed.
End Answers.

(** The answers of the transfers.  A read that returns anything but [OK]
    returns the destination as it was: [Unknown] or [InvalidParameter]
    for [readTexture] and [readBuffer] of the D3D11 device, [Unknown] for
    [readTexture] of the D3D9 device.  The D3D11 [writeTexture] returns
    [OK] or [InvalidParameter] and the D3D11 [writeBuffer] [OK],
    [Unknown] or [InvalidParameter]: no transfer returns [OutOfMemory]
    or [InaccesibleFromCPU], and none of these returns [NotAvailable]. *)
Theorem answers_of_the_transfers {W} (drv : Driver W) (GetTexelSize : TextureFormat -> Z)
    (dst src : option buffer) (tex buf : option handle) (width height size : Z)
    (format : TextureFormat) (type : BufferType) :
  returns (D3D11.readTexture (W:=W) drv GetTexelSize dst size tex width height format)
          (read_answer [Unknown; InvalidParameter] dst) /\
  returns (D3D11.readBuffer (W:=W) drv dst buf size type)
          (read_answer [Unknown; InvalidParameter] dst) /\
  returns (D3D9.readTexture (W:=W) drv GetTexelSize dst size tex width height format)
          (read_answer [Unknown] dst) /\
  returns (D3D11.writeTexture (W:=W) drv GetTexelSize tex width height format src size)
          (fun e => In e [OK; InvalidParameter]) /\
  returns (D3D11.writeBuffer (W:=W) drv buf src size type)
          (fun e => In e [OK; Unknown; InvalidParameter]).
Proof.
  split; [apply returns_d3d11_readTexture|].
  split; [apply returns_d3d11_readBuffer|].
  split; [apply returns_d3d9_readTexture|].
  split; [apply returns_d3d11_writeTexture | apply returns_d3d11_writeBuffer].
Qed.

(** A read on the reference driver after the loss of the device: the
    answer is [Unknown] and the destination is as it was. *)
Example d3d11_failed_read_keeps_the_destination :
  let st := Scenario.start11 1 true Scenario.tex_1x1 in
  returned (D3D11.readTexture RefDriver.driver GetTexelSize_table (Some Scenario.data4) 4
              (Some 1%positive) 1 1 Rf32 st) = Some (Unknown, Some Scenario.data4).
Proof. reflexivity. Qed.

(** ** Sizes beyond [UINT] *)

(** [writeBuffer] to a buffer that the CPU cannot write: the method maps
    nothing and hands the source to [UpdateSubresource] with a box from 0
    to [(UINT)write_size] and that row pitch, and returns [OK] when the
    driver has read the source.  The size is cut to 32 bits: a write of a
    multiple of [2^32] bytes describes an empty box. *)
Theorem d3d11_writeBuffer_updates_a_box {W} (drv : Driver W) (dst_buf ctx : handle)
    (src : buffer) (write_size : Z) (type : BufferType) (w' : W)
    (st : St D3D11.GraphicsDeviceD3D11 W) :
  write_size <> 0 ->
  D3D11.m_context (this st) = Some ctx ->
  Z.land (buf_CPUAccessFlags (Buffer_GetDesc drv dst_buf (gpu st))) D3D11_CPU_ACCESS_WRITE = 0 ->
  let box := mkBox 0 0 0 (wrap_u32 write_size) 1 1 in
  UpdateSubresource drv dst_buf box src (wrap_u32 write_size) (gpu st) = Some w' ->
  D3D11.writeBuffer drv (Some dst_buf) (Some src) write_size type st
  = Ret OK (mkSt (this st) w'
              (trace st ++ [EvGetDesc dst_buf;
                            EvUpdateSubresource dst_buf box (wrap_u32 write_size)])) /\
  (write_size mod 2 ^ 32 = 0 -> box_right box = 0).
Proof.
  intros Hsize Hctx Hflag box Hupd. split; [|done].
  unfold D3D11.writeBuffer. destruct (Z.eqb_spec write_size 0) as [|_]; [done|].
  prims. simpl. rewrite Hflag, Hctx. simpl. fold box. rewrite Hupd. simpl.
  by rewrite <- app_assoc.
Qed.

Lemma d3d11_writeBuffer_updates_a_box_witness :
  let st := Scenario.start11 1 false (RefDriver.make_resource 4 1 1 0 1 0) in
  let box := mkBox 0 0 0 (wrap_u32 (2 ^ 32)) 1 1 in
  D3D11.writeBuffer RefDriver.driver (Some 1%positive) (Some Scenario.data4) (2 ^ 32) Vertex st
  = Ret OK (mkSt (this st) (gpu st)
              (trace st ++ [EvGetDesc 1%positive;
                            EvUpdateSubresource 1%positive box (wrap_u32 (2 ^ 32))])) /\
  box_right box = 0.
Proof.
  cbv zeta.
  destruct (d3d11_writeBuffer_updates_a_box RefDriver.driver 1%positive 101%positive
              Scenario.data4 (2 ^ 32) Vertex
              (gpu (Scenario.start11 1 false (RefDriver.make_resource 4 1 1 0 1 0)))
              (Scenario.start11 1 false (RefDriver.make_resource 4 1 1 0 1 0)))
    as [Hrun Hbox]; [lia | reflexivity | reflexivity | by vm_compute |].
  split; [exact Hrun | apply Hbox; reflexivity].
Defined.

(** ** Waiting for the GPU *)



